(** * DutyAgent: the duty rotation scheduler

    A shallow embedding of the scheduling core of the duty rotation
    scheduler (the React component [DutyRotationScheduler]): the calendar
    helpers, the holiday-period calculator, the schedule generator, the fair
    assignment pass, the aggregate recount and the CSV codec, followed by the
    properties established about them. *)

From Stdlib Require Import ZArith Lia List Bool Ascii String DecimalString.
From stdpp Require Import gmap.
Import ListNotations.

Local Open Scope Z_scope.

(** ** ECMAScript time values

    A JavaScript [Date] holds a time value: an integral number of
    milliseconds since 1970-01-01T00:00:00Z, or NaN (an Invalid Date).  The
    definitions of this section follow the abstract operations of the
    ECMAScript specification (Day, DayFromYear, YearFromTime, MonthFromTime,
    DateFromTime, WeekDay, MakeDay, MakeDate, TimeClip), on which the
    [Date] methods used by the scheduler are defined. *)

Module JSDate.

Definition msPerDay : Z := 86400000.

Definition Day (t : Z) : Z := t / msPerDay.
Definition TimeWithinDay (t : Z) : Z := t mod msPerDay.

Definition DaysInYear (y : Z) : Z :=
  if negb (y mod 4 =? 0) then 365
  else if negb (y mod 100 =? 0) then 366
  else if negb (y mod 400 =? 0) then 365
  else 366.

Definition DayFromYear (y : Z) : Z :=
  365 * (y - 1970) + (y - 1969) / 4 - (y - 1901) / 100 + (y - 1601) / 400.

(** The largest year [y] with [DayFromYear y <= d], found from an estimate
    that is off by at most one. *)
Definition YearFromDay (d : Z) : Z :=
  let y := 1970 + (d * 400) / 146097 in
  if DayFromYear (y + 1) <=? d then y + 1
  else if DayFromYear y <=? d then y
  else y - 1.

Definition InLeapYear (y : Z) : Z := if DaysInYear y =? 366 then 1 else 0.

Definition DayWithinYear (d : Z) : Z := d - DayFromYear (YearFromDay d).

(** Month number (0 = January) of day-within-year [dwy], with [leap] the
    value of InLeapYear. *)
Definition MonthOfYearDay (dwy leap : Z) : Z :=
  if dwy <? 31 then 0
  else if dwy <? 59 + leap then 1
  else if dwy <? 90 + leap then 2
  else if dwy <? 120 + leap then 3
  else if dwy <? 151 + leap then 4
  else if dwy <? 181 + leap then 5
  else if dwy <? 212 + leap then 6
  else if dwy <? 243 + leap then 7
  else if dwy <? 273 + leap then 8
  else if dwy <? 304 + leap then 9
  else if dwy <? 334 + leap then 10
  else 11.

(** Day-within-year of the first day of month [m] (0..11). *)
Definition MonthStart (m leap : Z) : Z :=
  if m =? 0 then 0
  else if m =? 1 then 31
  else if m =? 2 then 59 + leap
  else if m =? 3 then 90 + leap
  else if m =? 4 then 120 + leap
  else if m =? 5 then 151 + leap
  else if m =? 6 then 181 + leap
  else if m =? 7 then 212 + leap
  else if m =? 8 then 243 + leap
  else if m =? 9 then 273 + leap
  else if m =? 10 then 304 + leap
  else 334 + leap.

Definition YearFromTime (t : Z) : Z := YearFromDay (Day t).

Definition MonthFromTime (t : Z) : Z :=
  MonthOfYearDay (DayWithinYear (Day t)) (InLeapYear (YearFromTime t)).

Definition DateFromTime (t : Z) : Z :=
  DayWithinYear (Day t)
  - MonthStart (MonthFromTime t) (InLeapYear (YearFromTime t)) + 1.

Definition WeekDay (t : Z) : Z := (Day t + 4) mod 7.

(** MakeDay(year, month, date): the day number of the first of the month
    (months beyond 0..11 carry into the year) plus [date - 1]. *)
Definition MakeDay (year month date : Z) : Z :=
  let ym := year + month / 12 in
  let mn := month mod 12 in
  DayFromYear ym + MonthStart mn (InLeapYear ym) + date - 1.

Definition MakeDate (day time : Z) : Z := day * msPerDay + time.

Definition maxTime : Z := 8640000000000000.

(** TimeClip: time values beyond +-8.64e15 ms are NaN ([None]). *)
Definition TimeClip (t : Z) : option Z :=
  if Z.abs t <=? maxTime then Some t else None.

End JSDate.

(** ** JavaScript numbers and [Date] objects

    The numbers the scheduler computes with are integers or NaN; [num] is
    [option Z] with [None] for NaN.  Every comparison with NaN is false
    (so [!==] with NaN is true). *)

Definition num := option Z.

Definition num_add (a b : num) : num :=
  match a, b with Some x, Some y => Some (x + y) | _, _ => None end.

Definition num_sub (a b : num) : num :=
  match a, b with Some x, Some y => Some (x - y) | _, _ => None end.

(** [%]: the remainder has the sign of the dividend. *)
Definition num_rem (a b : num) : num :=
  match a, b with
  | Some x, Some y => if y =? 0 then None else Some (Z.rem x y)
  | _, _ => None
  end.

Definition num_eqb (a b : num) : bool :=
  match a, b with Some x, Some y => x =? y | _, _ => false end.

Definition num_gtb (a b : num) : bool :=
  match a, b with Some x, Some y => y <? x | _, _ => false end.

Definition num_leb (a b : num) : bool :=
  match a, b with Some x, Some y => x <=? y | _, _ => false end.

Definition num_geb (a b : num) : bool := num_leb b a.

(** A [Date] is its time value; [None] is an Invalid Date. *)
Definition Date := option Z.

Import JSDate.

(** [new Date(Date.UTC(year, month, date))]: years 0..99 denote 1900..1999. *)
Definition Date_UTC (year month date : num) : Date :=
  match year, month, date with
  | Some y, Some m, Some d =>
      let yr := if (0 <=? y) && (y <=? 99) then 1900 + y else y in
      TimeClip (MakeDate (MakeDay yr m d) 0)
  | _, _, _ => None
  end.

Definition getTime (d : Date) : num := d.
Definition isNaN (n : num) : bool := match n with Some _ => false | None => true end.

Definition getUTCFullYear (d : Date) : num := option_map YearFromTime d.
Definition getUTCMonth (d : Date) : num := option_map MonthFromTime d.
Definition getUTCDate (d : Date) : num := option_map DateFromTime d.
Definition getUTCDay (d : Date) : num := option_map WeekDay d.

(** [d.setUTCDate(dt)]: the day of the month is replaced, the time within
    the day kept; a date outside the month carries over. *)
Definition setUTCDate (d : Date) (dt : num) : Date :=
  match d, dt with
  | Some t, Some n =>
      TimeClip (MakeDate (MakeDay (YearFromTime t) (MonthFromTime t) n)
                         (TimeWithinDay t))
  | _, _ => None
  end.

(** Comparison of two [Date] objects with [<=] and [>=] compares their time
    values as numbers. *)
Definition Date_leb (a b : Date) : bool := num_leb a b.
Definition Date_geb (a b : Date) : bool := num_geb a b.

(** Helper function to get the Monday before a given date. *)
Definition getMondayBefore (date : Date) : Date :=
  let dayOfWeek := getUTCDay date in
  let diff := if num_eqb dayOfWeek (Some 0) then Some (-6)
              else num_sub (Some 1) dayOfWeek in
  let monday := date in
  setUTCDate monday (num_add (getUTCDate date) diff).

(** Helper function to get the Friday after a given date. *)
Definition getFridayAfter (date : Date) : Date :=
  let dayOfWeek := getUTCDay date in
  let diff := if num_eqb dayOfWeek (Some 6) then Some 6
              else num_sub (Some 5) dayOfWeek in
  let friday := date in
  setUTCDate friday (num_add (getUTCDate date) diff).

(** Calculate the holiday period start and end dates; [None] is the [null]
    returned when the calculation fails. *)
Definition getHolidayPeriod (scheduleYear : num) : option (Date * Date) :=
  let christmas := Date_UTC scheduleYear (Some 11) (Some 25) in
  let newYear := Date_UTC (num_add scheduleYear (Some 1)) (Some 0) (Some 1) in
  let holidayPeriodStart := getMondayBefore christmas in
  let holidayPeriodEnd := getFridayAfter newYear in
  if isNaN (getTime holidayPeriodStart) || isNaN (getTime holidayPeriodEnd)
  then None
  else Some (holidayPeriodStart, holidayPeriodEnd).

(** Checks if a week overlaps with the calculated holiday period. *)
Definition isWeekInHolidayPeriod (weekStartDate weekEndDate : Date)
    (scheduleYear : num) : bool :=
  match getHolidayPeriod scheduleYear with
  | None => false
  | Some (pstart, pend) =>
      Date_leb weekStartDate pend && Date_geb weekEndDate pstart
  end.

(** ** Strings

    A string is the list of its code units.  The model covers the strings
    whose code units are below 256 (the Latin-1 characters): an [ascii] is
    the code unit with that number, and [trim] and [toLowerCase] are those
    of [String.prototype] on such strings. *)

Definition str := list ascii.

Definition lit (s : string) : str := list_ascii_of_string s.

Definition str_eqb (a b : str) : bool := bool_decide (a = b).

Definition char_eqb (a b : ascii) : bool := Ascii.eqb a b.

Definition digit (c : ascii) : option Z :=
  let n := Z.of_N (N_of_ascii c) in
  if (48 <=? n) && (n <=? 57) then Some (n - 48) else None.

(** Reads exactly [n] decimal digits. *)
Fixpoint digits (n : nat) (s : str) (acc : Z) : option (Z * str) :=
  match n with
  | O => Some (acc, s)
  | S n' =>
      match s with
      | c :: s' =>
          match digit c with
          | Some v => digits n' s' (10 * acc + v)
          | None => None
          end
      | [] => None
      end
  end.

(** [Number.prototype.toString] on an integer. *)
Definition Number_toString (z : Z) : str :=
  lit (NilEmpty.string_of_int (Z.to_int z)).

(** [s.padStart(2, '0')]. *)
Definition padStart2 (s : str) : str :=
  match s with
  | [] => lit "00"
  | [c] => "0"%char :: [c]
  | _ => s
  end.

(** The year of an ECMAScript date-time string: four digits, or a sign and
    six digits (minus zero excluded). *)
Definition parseYear (s : str) : option (Z * str) :=
  match s with
  | c :: s' =>
      if char_eqb c "+" then digits 6 s' 0
      else if char_eqb c "-" then
        match digits 6 s' 0 with
        | Some (y, r) => if y =? 0 then None else Some (- y, r)
        | None => None
        end
      else digits 4 s 0
  | [] => None
  end.

Definition timeSuffix : str := lit "T00:00:00Z".

(** [new Date(s)] for a string [s]: the date-only forms YYYY, YYYY-MM and
    YYYY-MM-DD of the ECMAScript date-time string format followed by the
    time [T00:00:00Z], which is what the scheduler appends to every date
    string it parses.  Months must be 01..12 and days 01..31; a day beyond
    the end of the month carries over.  For any other string engines fall back
    on their own heuristics; the model takes the date as invalid. *)
Definition Date_parse (s : str) : Date :=
  match parseYear s with
  | None => None
  | Some (y, r) =>
      if str_eqb r timeSuffix then TimeClip (MakeDate (MakeDay y 0 1) 0)
      else match r with
           | c :: r1 =>
               if char_eqb c "-" then
                 match digits 2 r1 0 with
                 | Some (m, r2) =>
                     if (1 <=? m) && (m <=? 12) then
                       if str_eqb r2 timeSuffix
                       then TimeClip (MakeDate (MakeDay y (m - 1) 1) 0)
                       else match r2 with
                            | c2 :: r3 =>
                                if char_eqb c2 "-" then
                                  match digits 2 r3 0 with
                                  | Some (d, r4) =>
                                      if (1 <=? d) && (d <=? 31)
                                         && str_eqb r4 timeSuffix
                                      then TimeClip
                                             (MakeDate (MakeDay y (m - 1) d) 0)
                                      else None
                                  | None => None
                                  end
                                else None
                            | [] => None
                            end
                     else None
                 | None => None
                 end
               else None
           | [] => None
           end
  end.

(** Helper to format date as YYYY-MM-DD for CSV. *)
Definition formatDateYYYYMMDD (date : Date) : str :=
  let d := date in
  if isNaN (getTime d) then lit "Invalid Date"
  else match getUTCFullYear d, getUTCMonth d, getUTCDate d with
       | Some year, Some mon, Some dt =>
           let month := padStart2 (Number_toString (mon + 1)) in
           let day := padStart2 (Number_toString dt) in
           Number_toString year ++ lit "-" ++ month ++ lit "-" ++ day
       | _, _, _ => lit "Invalid Date"
       end.

(** ** Data model *)

Record Leave := { leave_start : str; leave_end : str }.

Record Person := { id : Z; name : str; leave : list Leave }.

Record Holiday := { date : str; holiday_name : str }.

(** [assignedTo: number | string | null]: a person id, a status string
    (Holiday Period, No one available) or null. *)
Inductive Assigned :=
| PersonId (personId : Z)
| Status (s : str)
| Null.

Record Week := {
  startDate : Date;
  endDate : Date;
  assignedTo : Assigned;
  hasHoliday : bool;
  isHolidayPeriod : bool;
  notes : str
}.

(** The numbers of the assignment bookkeeping: an integer, an infinity or
    NaN ([-Infinity - -Infinity]). *)
Inductive xnum :=
| Finite (z : Z)
| NegInfinity
| PosInfinity
| NotANumber.

Definition xnum_sub (a b : xnum) : xnum :=
  match a, b with
  | NotANumber, _ | _, NotANumber => NotANumber
  | Finite x, Finite y => Finite (x - y)
  | Finite _, NegInfinity => PosInfinity
  | Finite _, PosInfinity => NegInfinity
  | NegInfinity, NegInfinity => NotANumber
  | NegInfinity, _ => NegInfinity
  | PosInfinity, PosInfinity => NotANumber
  | PosInfinity, _ => PosInfinity
  end.

(** One entry of [HolidayCounts]; [lastAssigned] is optional. *)
Record Counts := {
  total : Z;
  holiday : Z;
  lastAssigned : option xnum
}.

#[global] Instance Counts_inhabited : Inhabited Counts :=
  populate {| total := 0; holiday := 0; lastAssigned := None |}.

(** [HolidayCounts]: an object keyed by person id. *)
Abbreviation HolidayCounts := (gmap Z Counts).

Definition HolidayPeriod : str := lit "Holiday Period".
Definition NoOneAvailable : str := lit "No one available".

(** ** Array.prototype.sort

    The sort is stable; the comparison function's result [v] orders [a]
    before [b] when [v < 0], and NaN counts as [+0]. *)

Definition xnum_neg (v : xnum) : bool :=
  match v with
  | Finite z => z <? 0
  | NegInfinity => true
  | PosInfinity | NotANumber => false
  end.

Section Sort.
Context {A : Type} (comparefn : A -> A -> xnum).

Fixpoint sort_insert (x : A) (l : list A) : list A :=
  match l with
  | [] => [x]
  | y :: l' =>
      if xnum_neg (comparefn y x) then y :: sort_insert x l'
      else x :: y :: l'
  end.

Fixpoint Array_sort (l : list A) : list A :=
  match l with
  | [] => []
  | x :: l' => sort_insert x (Array_sort l')
  end.
End Sort.

(** ** The scheduler *)

Section Scheduler.

(** The offset of the host's local time from UTC, in milliseconds
    (LocalTZA): [getFullYear], [getMonth] and [getDate] read the local
    calendar date. *)
Variable LocalTZA : Z.

Definition getFullYear (d : Date) : num :=
  option_map (fun t => YearFromTime (t + LocalTZA)) d.
Definition getMonth (d : Date) : num :=
  option_map (fun t => MonthFromTime (t + LocalTZA)) d.
Definition getDate (d : Date) : num :=
  option_map (fun t => DateFromTime (t + LocalTZA)) d.

Definition weekContainsHoliday (startDate endDate : Date)
    (holidayList : list Holiday) : bool :=
  existsb (fun holiday =>
    let holidayDate := Date_parse (date holiday ++ timeSuffix) in
    let startUTC :=
      Date_UTC (getFullYear startDate) (getMonth startDate) (getDate startDate) in
    let endUTC :=
      Date_UTC (getFullYear endDate) (getMonth endDate) (getDate endDate) in
    Date_geb holidayDate startUTC && Date_leb holidayDate endUTC)
    holidayList.

(** The component's state read by the functions below. *)
Variable people : list Person.

Definition isPersonOnLeave (personId : Z) (startDate endDate : Date) : bool :=
  match List.find (fun p => id p =? personId) people with
  | None => false
  | Some person =>
      existsb (fun leave =>
        let leaveStart := Date_parse (leave_start leave ++ timeSuffix) in
        let leaveEnd := Date_parse (leave_end leave ++ timeSuffix) in
        let startUTC :=
          Date_UTC (getFullYear startDate) (getMonth startDate)
                   (getDate startDate) in
        let endUTC :=
          Date_UTC (getFullYear endDate) (getMonth endDate) (getDate endDate) in
        Date_leb leaveStart endUTC && Date_geb leaveEnd startUTC)
        (leave person)
  end.

(** [counts] as initialised by [people.forEach]. *)
Definition initCounts (last : option xnum) : HolidayCounts :=
  fold_left (fun (counts : HolidayCounts) person =>
               <[id person := {| total := 0; holiday := 0;
                                 lastAssigned := last |}]> counts)
            people ∅.

Definition availablePeople (week : Week) : list Person :=
  List.filter (fun person =>
                 negb (isPersonOnLeave (id person) (startDate week) (endDate week)))
              people.

(** The comparison function of the sort of the available people. *)
Definition compareCounts (counts : HolidayCounts) (a b : Person) : xnum :=
  let countA := counts !!! id a in
  let countB := counts !!! id b in
  if negb (total countA =? total countB)
  then Finite (total countA - total countB)
  else if negb (holiday countA =? holiday countB)
  then Finite (holiday countA - holiday countB)
  else xnum_sub (default NegInfinity (lastAssigned countA))
                (default NegInfinity (lastAssigned countB)).

(** The body of [currentSchedule.map((week, index) => ...)]: the updated
    week and the counts after it. *)
Definition assignWeek (holidayList : list Holiday) (counts : HolidayCounts)
    (index : Z) (week : Week) : Week * HolidayCounts :=
  if isHolidayPeriod week then (week, counts)
  else
    match Array_sort (compareCounts counts) (availablePeople week) with
    | [] =>
        ({| startDate := startDate week; endDate := endDate week;
            assignedTo := Status NoOneAvailable;
            hasHoliday := hasHoliday week;
            isHolidayPeriod := isHolidayPeriod week;
            notes := notes week |}, counts)
    | assignedPerson :: _ =>
        let assignedPersonId := id assignedPerson in
        let c := counts !!! assignedPersonId in
        let currentWeekHasHoliday :=
          weekContainsHoliday (startDate week) (endDate week) holidayList in
        let c' := {| total := total c + 1;
                     holiday := if currentWeekHasHoliday then holiday c + 1
                                else holiday c;
                     lastAssigned := Some (Finite index) |} in
        ({| startDate := startDate week; endDate := endDate week;
            assignedTo := PersonId assignedPersonId;
            hasHoliday := currentWeekHasHoliday;
            isHolidayPeriod := isHolidayPeriod week;
            notes := notes week |},
         <[assignedPersonId := c']> counts)
    end.

Fixpoint assignWeeks (holidayList : list Holiday) (counts : HolidayCounts)
    (index : Z) (weeks : list Week) : list Week * HolidayCounts :=
  match weeks with
  | [] => ([], counts)
  | week :: rest =>
      let '(week', counts') := assignWeek holidayList counts index week in
      let '(rest', counts'') :=
        assignWeeks holidayList counts' (index + 1) rest in
      (week' :: rest', counts'')
  end.

(** [assignPeopleToWeeks]: the schedule given to [setSchedule] and the
    counts given to [setHolidayCounts] ([lastAssigned] removed). *)
Definition assignPeopleToWeeks (currentSchedule : list Week)
    (holidayList : list Holiday) : list Week * HolidayCounts :=
  let counts := initCounts (Some NegInfinity) in
  let '(updatedSchedule, counts') :=
    assignWeeks holidayList counts 0 currentSchedule in
  (updatedSchedule,
   (fun c => {| total := total c; holiday := holiday c;
                lastAssigned := None |}) <$> counts').

(** Recalculate assignment counts from the schedule. *)
Definition recalculateAssignments (schedule : list Week) : HolidayCounts :=
  fold_left (fun (counts : HolidayCounts) week =>
    match assignedTo week with
    | PersonId personId =>
        match counts !! personId with
        | Some c =>
            <[personId := {| total := total c + 1;
                             holiday := if hasHoliday week then holiday c + 1
                                        else holiday c;
                             lastAssigned := lastAssigned c |}]> counts
        | None => counts
        end
    | _ => counts
    end) schedule (initCounts None).

(** *** Schedule generation *)

Variables (year startMonth startDayOfWeek : Z).

Definition advanceDays (date : Date) (n : Z) : Date :=
  setUTCDate date (num_add (getUTCDate date) (Some n)).

(** The first loop of [generateSchedule]: the first occurrence of
    [startDayOfWeek] on or after [date].  [fuel] bounds the number of
    iterations; [None] is returned when it runs out. *)
Fixpoint findFirstStartDay (fuel : nat) (date : Date) : option Date :=
  if negb (num_eqb (getUTCDay date) (Some startDayOfWeek)) then
    match fuel with
    | O => None
    | S fuel' =>
        let date1 := advanceDays date 1 in
        if num_gtb (getUTCFullYear date1) (Some year)
           || (num_eqb (getUTCFullYear date1) (Some year)
               && num_gtb (getUTCMonth date1) (Some startMonth))
        then
          let date2 := Date_UTC (Some year) (Some startMonth) (Some 1) in
          let dayDiff :=
            num_rem (num_add (num_sub (Some startDayOfWeek) (getUTCDay date2))
                             (Some 7)) (Some 7) in
          Some (setUTCDate date2 (num_add (getUTCDate date2) dayDiff))
        else findFirstStartDay fuel' date1
    end
  else Some date.

(** The second loop: one week per iteration while the week's start date
    is within the selected calendar year. *)
Fixpoint emitWeeks (holidayList : list Holiday) (fuel : nat) (date : Date)
    : option (list Week) :=
  if num_eqb (getUTCFullYear date) (Some year) then
    match fuel with
    | O => None
    | S fuel' =>
        let startDate := date in
        let endDate := advanceDays date 6 in
        let isMarkedAsHolidayPeriod :=
          isWeekInHolidayPeriod startDate endDate (Some year) in
        let weekObj :=
          {| startDate := startDate;
             endDate := endDate;
             assignedTo := if isMarkedAsHolidayPeriod
                           then Status HolidayPeriod else Null;
             hasHoliday := weekContainsHoliday startDate endDate holidayList;
             isHolidayPeriod := isMarkedAsHolidayPeriod;
             notes := [] |} in
        match emitWeeks holidayList fuel' (advanceDays date 7) with
        | Some newSchedule => Some (weekObj :: newSchedule)
        | None => None
        end
    end
  else Some [].

(** [generateSchedule(holidayList)]: the schedule and the counts it
    stores, or [None] when [fuel] iterations do not suffice for one of
    its loops. *)
Definition generateSchedule (fuel : nat) (holidayList : list Holiday)
    : option (list Week * HolidayCounts) :=
  match findFirstStartDay fuel
          (Date_UTC (Some year) (Some startMonth) (Some 1)) with
  | None => None
  | Some date =>
      match emitWeeks holidayList fuel date with
      | None => None
      | Some newSchedule => Some (assignPeopleToWeeks newSchedule holidayList)
      end
  end.

End Scheduler.

(** ** String operations of the CSV codec *)

Definition quote : ascii := "034"%char.
Definition comma : ascii := ","%char.
Definition LF : ascii := "010"%char.
Definition CR : ascii := "013"%char.

(** White space and line terminators removed by [trim], among the code
    units below 256: tab, line feed, vertical tab, form feed, carriage
    return, space and the no-break space U+00A0. *)
Definition isSpace (c : ascii) : bool :=
  let n := N_of_ascii c in
  ((9 <=? n) && (n <=? 13))%N || (n =? 32)%N || (n =? 160)%N.

Fixpoint trimStart (s : str) : str :=
  match s with
  | c :: s' => if isSpace c then trimStart s' else s
  | [] => []
  end.

Definition trim (s : str) : str := rev (trimStart (rev (trimStart s))).

(** The lower case of a code unit below 256: the capitals are A..Z,
    U+00C0..U+00D6 and U+00D8..U+00DE, each 32 below its small letter;
    U+00D7 is the multiplication sign. *)
Definition toLowerChar (c : ascii) : ascii :=
  let n := N_of_ascii c in
  if ((65 <=? n) && (n <=? 90))%N
     || ((192 <=? n) && (n <=? 214))%N
     || ((216 <=? n) && (n <=? 222))%N
  then ascii_of_N (n + 32) else c.

Definition toLowerCase (s : str) : str := map toLowerChar s.

Definition includes (s : str) (c : ascii) : bool := existsb (char_eqb c) s.

(** [l.join(sep)]. *)
Fixpoint join (sep : str) (l : list str) : str :=
  match l with
  | [] => []
  | [x] => x
  | x :: l' => x ++ sep ++ join sep l'
  end.

(** [s.split(c)] for a one-character separator: the pieces after
    [currentRev], the reversed piece read so far. *)
Fixpoint splitOn (c : ascii) (s : str) (currentRev : str) : list str :=
  match s with
  | [] => [rev currentRev]
  | x :: s' =>
      if char_eqb x c then rev currentRev :: splitOn c s' []
      else splitOn c s' (x :: currentRev)
  end.

Definition split (c : ascii) (s : str) : list str := splitOn c s [].

(** [s.split(/\r?\n/)]: a line ends at a line feed, which takes a carriage
    return right before it along. *)
Fixpoint splitLinesFrom (s : str) (currentRev : str) : list str :=
  match s with
  | [] => [rev currentRev]
  | x :: s' =>
      if char_eqb x LF then rev currentRev :: splitLinesFrom s' []
      else if char_eqb x CR then
        match s' with
        | y :: s'' =>
            if char_eqb y LF then rev currentRev :: splitLinesFrom s'' []
            else splitLinesFrom s' (x :: currentRev)
        | [] => splitLinesFrom s' (x :: currentRev)
        end
      else splitLinesFrom s' (x :: currentRev)
  end.

Definition splitLines (s : str) : list str := splitLinesFrom s [].

(** [replace] of every double quote by two of them. *)
Definition doubleQuotes (s : str) : str :=
  flat_map (fun c => if char_eqb c quote then [quote; quote] else [c]) s.

(** [replace] of every pair of double quotes by one, from the left. *)
Fixpoint undoubleQuotes (s : str) : str :=
  match s with
  | [] => []
  | c :: s' =>
      match s' with
      | c' :: s'' =>
          if char_eqb c quote && char_eqb c' quote
          then quote :: undoubleQuotes s''
          else c :: undoubleQuotes s'
      | [] => [c]
      end
  end.

Definition startsWithQuote (s : str) : bool :=
  match s with c :: _ => char_eqb c quote | [] => false end.

Definition endsWithQuote (s : str) : bool := startsWithQuote (rev s).

(** Helper to escape CSV fields containing commas, quotes, or newlines. *)
Definition escapeCSV (field : str) : str :=
  let str := field in
  if includes str comma || includes str LF || includes str quote
  then [quote] ++ doubleQuotes str ++ [quote]
  else str.

(** Helper to unescape CSV fields; [slice(1, -1)] drops the first and the
    last character. *)
Definition unescapeCSV (field : str) : str :=
  if startsWithQuote field && endsWithQuote field
  then undoubleQuotes (removelast (tl field))
  else field.

Definition CSV_HEADERS : list str :=
  [lit "Week Start Date"; lit "Week End Date"; lit "Assigned To";
   lit "Holidays"; lit "Notes"].

Definition MAX_PEOPLE : nat := 20.

(** The quote-aware scanner of one line: the values pushed so far, the
    current value and whether a quote is open. *)
Fixpoint scanLine (line : str) (values : list str) (currentVal : str)
    (inQuotes : bool) : list str :=
  match line with
  | [] => values ++ [unescapeCSV (trim currentVal)]
  | char :: line' =>
      if char_eqb char quote then scanLine line' values currentVal (negb inQuotes)
      else if char_eqb char comma && negb inQuotes
      then scanLine line' (values ++ [unescapeCSV (trim currentVal)]) [] inQuotes
      else scanLine line' values (currentVal ++ [char]) inQuotes
  end.

Definition parseLine (line : str) : list str := scanLine line [] [] false.

(** [l.indexOf(x)]; [None] is -1. *)
Fixpoint indexOf (x : str) (l : list str) : option nat :=
  match l with
  | [] => None
  | y :: l' => if str_eqb y x then Some O else option_map S (indexOf x l')
  end.

(** Messages written with [console.warn] during an import. *)
Inductive Warning :=
| UnknownPersonName (name : str)
| IncorrectColumns (row : nat) (got : nat) (line : str)
| InvalidDateFormat (row : nat) (startDateStr endDateStr : str).

(** ** The component: its state and its handlers *)

Record State := {
  appTitle : str;
  isEditingTitle : bool;
  tempTitle : str;
  year : Z;
  startDayOfWeek : Z;
  startMonth : Z;
  people : list Person;
  newPersonName : str;
  schedule : list Week;
  holidays : list Holiday;
  holidayCounts : HolidayCounts;
  leaveDate : str;
  leaveEndDate : str;
  selectedPersonIdForLeave : option Z;
  showLeaveForm : bool;
  showNotesModal : bool;
  currentWeekIndexForNotes : option nat;
  currentNotes : str
}.

Section Component.

Variable LocalTZA : Z.

(** The state of the render whose closures the handlers run in. *)
Variable st : State.

Definition getPersonName (a : Assigned) : str :=
  match a with
  | PersonId n =>
      match List.find (fun p => id p =? n) (people st) with
      | Some person => name person
      | None => lit "Unknown Person"
      end
  | Status s => s
  | Null => lit "Unassigned"
  end.

(** The id for a name, with the warning logged when there is none. *)
Definition getPersonIdFromName (nm : str) : Assigned * list Warning :=
  match List.find (fun p => str_eqb (toLowerCase (name p)) (toLowerCase nm))
                  (people st) with
  | Some person => (PersonId (id person), [])
  | None =>
      if str_eqb nm HolidayPeriod || str_eqb nm NoOneAvailable
         || str_eqb nm (lit "Unassigned") || str_eqb nm []
      then (match nm with [] => Null | _ => Status nm end, [])
      else (Null, [UnknownPersonName nm])
  end.

Definition getHolidaysInWeek (startDate endDate : Date) : list Holiday :=
  match holidays st with
  | [] => []
  | _ =>
      let start := startDate in
      let end_ := endDate in
      if isNaN (getTime start) || isNaN (getTime end_) then []
      else
        List.filter (fun holiday =>
          let holidayDate := Date_parse (date holiday ++ timeSuffix) in
          let startUTC :=
            Date_UTC (getFullYear LocalTZA start) (getMonth LocalTZA start)
                     (getDate LocalTZA start) in
          let endUTC :=
            Date_UTC (getFullYear LocalTZA end_) (getMonth LocalTZA end_)
                     (getDate LocalTZA end_) in
          Date_geb holidayDate startUTC && Date_leb holidayDate endUTC)
          (holidays st)
  end.

(** One row of the exported CSV. *)
Definition exportRow (week : Week) : str :=
  let startDateStr := formatDateYYYYMMDD (startDate week) in
  let endDateStr := formatDateYYYYMMDD (endDate week) in
  let assignedName := getPersonName (assignedTo week) in
  let holidaysStr :=
    join [LF] (map (fun h => date h ++ lit ": " ++ holiday_name h)
                   (getHolidaysInWeek (startDate week) (endDate week))) in
  let notesStr := notes week in
  join [comma] [escapeCSV startDateStr; escapeCSV endDateStr;
                escapeCSV assignedName; escapeCSV holidaysStr;
                escapeCSV notesStr].

(** [exportScheduleCSV]: the CSV content handed to the download, or [None]
    when there is no schedule data to export. *)
Definition exportScheduleCSV : option str :=
  match schedule st with
  | [] => None
  | _ =>
      let rows := map exportRow (schedule st) in
      Some (join [LF] (join [comma] CSV_HEADERS :: rows))
  end.

(** The body of the loop over the data lines for line [i]: the week pushed
    on [importedSchedule], if any, and the warnings logged. *)
Definition importRow (colIndices : str -> nat) (i : nat) (line : str)
    : option Week * list Warning :=
  let values := parseLine line in
  if negb (length values =? length CSV_HEADERS)%nat
  then (None, [IncorrectColumns (i + 1) (length values) line])
  else
    let startDateStr := nth (colIndices (lit "Week Start Date")) values [] in
    let endDateStr := nth (colIndices (lit "Week End Date")) values [] in
    let assignedName := nth (colIndices (lit "Assigned To")) values [] in
    let notes := nth (colIndices (lit "Notes")) values [] in
    let startDate := Date_parse (startDateStr ++ timeSuffix) in
    let endDate := Date_parse (endDateStr ++ timeSuffix) in
    if isNaN (getTime startDate) || isNaN (getTime endDate)
    then (None, [InvalidDateFormat (i + 1) startDateStr endDateStr])
    else
      let '(assignedToValue, warned) := getPersonIdFromName assignedName in
      let isHolidayPeriod :=
        isWeekInHolidayPeriod startDate endDate (getUTCFullYear startDate) in
      let hasHoliday :=
        weekContainsHoliday LocalTZA startDate endDate (holidays st) in
      (Some {| startDate := startDate;
               endDate := endDate;
               assignedTo := if isHolidayPeriod then Status HolidayPeriod
                             else assignedToValue;
               hasHoliday := hasHoliday;
               isHolidayPeriod := isHolidayPeriod;
               notes := notes |},
       warned).

Fixpoint importRows (colIndices : str -> nat) (i : nat) (dataLines : list str)
    : list Week * list Warning :=
  match dataLines with
  | [] => ([], [])
  | line :: rest =>
      let '(week, warned) := importRow colIndices i line in
      let '(importedSchedule, warnings) := importRows colIndices (S i) rest in
      (match week with
       | Some w => w :: importedSchedule
       | None => importedSchedule
       end, warned ++ warnings)
  end.

(** The [try] block of the import: the error thrown, or the imported
    schedule, and the warnings logged on the way. *)
Definition parseScheduleCSV (csvContent : str)
    : (str + list Week) * list Warning :=
  match csvContent with
  | [] => (inl (lit "File is empty or could not be read."), [])
  | _ =>
      let lines :=
        List.filter (fun line => negb (str_eqb (trim line) []))
                    (splitLines csvContent) in
      match lines with
      | headerLine :: ((_ :: _) as dataLines) =>
          let headers := map trim (split comma headerLine) in
          if negb (length headers =? length CSV_HEADERS)%nat
             || negb (forallb (fun '(h, h') => str_eqb h' h)
                              (combine CSV_HEADERS headers))
          then (inl (lit "Invalid CSV headers. Expected: "
                     ++ join (lit ", ") CSV_HEADERS), [])
          else
            match
              List.find (fun header =>
                           match indexOf header headers with
                           | None => true | Some _ => false
                           end) CSV_HEADERS
            with
            | Some header =>
                (inl (lit "Missing required header: " ++ header), [])
            | None =>
                let colIndices header :=
                  match indexOf header headers with
                  | Some index => index
                  | None => O
                  end in
                let '(importedSchedule, warnings) :=
                  importRows colIndices O dataLines in
                match importedSchedule with
                | [] =>
                    (inl (lit "No valid schedule data could be imported from the CSV."),
                     warnings)
                | _ => (inr importedSchedule, warnings)
                end
            end
      | _ =>
          (inl (lit "CSV file must contain headers and at least one data row."),
           [])
      end
  end.

Definition setSchedule (s : State) (newSchedule : list Week) : State :=
  {| appTitle := appTitle s; isEditingTitle := isEditingTitle s;
     tempTitle := tempTitle s; year := year s;
     startDayOfWeek := startDayOfWeek s; startMonth := startMonth s;
     people := people s; newPersonName := newPersonName s;
     schedule := newSchedule; holidays := holidays s;
     holidayCounts := holidayCounts s; leaveDate := leaveDate s;
     leaveEndDate := leaveEndDate s;
     selectedPersonIdForLeave := selectedPersonIdForLeave s;
     showLeaveForm := showLeaveForm s; showNotesModal := showNotesModal s;
     currentWeekIndexForNotes := currentWeekIndexForNotes s;
     currentNotes := currentNotes s |}.

Definition setHolidayCounts (s : State) (counts : HolidayCounts) : State :=
  {| appTitle := appTitle s; isEditingTitle := isEditingTitle s;
     tempTitle := tempTitle s; year := year s;
     startDayOfWeek := startDayOfWeek s; startMonth := startMonth s;
     people := people s; newPersonName := newPersonName s;
     schedule := schedule s; holidays := holidays s;
     holidayCounts := counts; leaveDate := leaveDate s;
     leaveEndDate := leaveEndDate s;
     selectedPersonIdForLeave := selectedPersonIdForLeave s;
     showLeaveForm := showLeaveForm s; showNotesModal := showNotesModal s;
     currentWeekIndexForNotes := currentWeekIndexForNotes s;
     currentNotes := currentNotes s |}.

(** What an import leaves behind: the next state, the alert shown and the
    warnings logged. *)
Record ImportOutcome := {
  nextState : State;
  alertMessage : str;
  consoleWarnings : list Warning
}.

(** [reader.onload] of [importScheduleCSV] on the content of the file.  The
    call of [recalculateAssignments] right after [setSchedule] still reads
    the schedule of the current render. *)
Definition importScheduleCSV (csvContent : str) : ImportOutcome :=
  match parseScheduleCSV csvContent with
  | (inl message, warnings) =>
      {| nextState := st;
         alertMessage :=
           lit "Error importing schedule from CSV: " ++ message
           ++ lit ". Please check file format and headers.";
         consoleWarnings := warnings |}
  | (inr importedSchedule, warnings) =>
      {| nextState :=
           setHolidayCounts (setSchedule st importedSchedule)
             (recalculateAssignments (people st) (schedule st));
         alertMessage :=
           lit "Successfully imported "
           ++ Number_toString (Z.of_nat (length importedSchedule))
           ++ lit " weeks from CSV. Assignment counts updated.";
         consoleWarnings := warnings |}
  end.

(** [recalculateAssignments] as run by the effect on the schedule. *)
Definition runRecalculateAssignments : State :=
  setHolidayCounts st (recalculateAssignments (people st) (schedule st)).

End Component.

(** ** Roster, leave and notes handlers *)

Definition setPeople (s : State) (newPeople : list Person) : State :=
  {| appTitle := appTitle s; isEditingTitle := isEditingTitle s;
     tempTitle := tempTitle s; year := year s;
     startDayOfWeek := startDayOfWeek s; startMonth := startMonth s;
     people := newPeople; newPersonName := newPersonName s;
     schedule := schedule s; holidays := holidays s;
     holidayCounts := holidayCounts s; leaveDate := leaveDate s;
     leaveEndDate := leaveEndDate s;
     selectedPersonIdForLeave := selectedPersonIdForLeave s;
     showLeaveForm := showLeaveForm s; showNotesModal := showNotesModal s;
     currentWeekIndexForNotes := currentWeekIndexForNotes s;
     currentNotes := currentNotes s |}.

Definition setNewPersonName (s : State) (value : str) : State :=
  {| appTitle := appTitle s; isEditingTitle := isEditingTitle s;
     tempTitle := tempTitle s; year := year s;
     startDayOfWeek := startDayOfWeek s; startMonth := startMonth s;
     people := people s; newPersonName := value;
     schedule := schedule s; holidays := holidays s;
     holidayCounts := holidayCounts s; leaveDate := leaveDate s;
     leaveEndDate := leaveEndDate s;
     selectedPersonIdForLeave := selectedPersonIdForLeave s;
     showLeaveForm := showLeaveForm s; showNotesModal := showNotesModal s;
     currentWeekIndexForNotes := currentWeekIndexForNotes s;
     currentNotes := currentNotes s |}.

(** The leave form emptied and closed. *)
Definition resetLeaveForm (s : State) : State :=
  {| appTitle := appTitle s; isEditingTitle := isEditingTitle s;
     tempTitle := tempTitle s; year := year s;
     startDayOfWeek := startDayOfWeek s; startMonth := startMonth s;
     people := people s; newPersonName := newPersonName s;
     schedule := schedule s; holidays := holidays s;
     holidayCounts := holidayCounts s; leaveDate := [];
     leaveEndDate := [];
     selectedPersonIdForLeave := None;
     showLeaveForm := false; showNotesModal := showNotesModal s;
     currentWeekIndexForNotes := currentWeekIndexForNotes s;
     currentNotes := currentNotes s |}.

Definition closeNotesModal (s : State) : State :=
  {| appTitle := appTitle s; isEditingTitle := isEditingTitle s;
     tempTitle := tempTitle s; year := year s;
     startDayOfWeek := startDayOfWeek s; startMonth := startMonth s;
     people := people s; newPersonName := newPersonName s;
     schedule := schedule s; holidays := holidays s;
     holidayCounts := holidayCounts s; leaveDate := leaveDate s;
     leaveEndDate := leaveEndDate s;
     selectedPersonIdForLeave := selectedPersonIdForLeave s;
     showLeaveForm := showLeaveForm s; showNotesModal := false;
     currentWeekIndexForNotes := None;
     currentNotes := [] |}.

(** [Math.max(...l)] on a list that is not empty. *)
Definition Math_max (x : Z) (l : list Z) : Z := fold_left Z.max l x.

(** The Number nearest to an integer: the integer itself up to 2^53 in
    magnitude, beyond that the nearest multiple of the spacing of the
    Numbers there, a tie going to the even significand. *)
Definition Number_ofZ (z : Z) : Z :=
  let a := Z.abs z in
  if a <? 2 ^ 53 then z
  else
    let k := Z.log2 a - 52 in
    let q := a / 2 ^ k in
    let r := a mod 2 ^ k in
    let half := 2 ^ (k - 1) in
    let q' :=
      if r <? half then q
      else if half <? r then q + 1
      else if Z.even q then q else q + 1 in
    Z.sgn z * (q' * 2 ^ k).

(** [a + b] on Numbers that are integers: the exact sum, rounded. *)
Definition Number_add (a b : Z) : Z := Number_ofZ (a + b).

Definition withAssignedTo (week : Week) (a : Assigned) : Week :=
  {| startDate := startDate week; endDate := endDate week;
     assignedTo := a; hasHoliday := hasHoliday week;
     isHolidayPeriod := isHolidayPeriod week; notes := notes week |}.

Definition withNotes (week : Week) (n : str) : Week :=
  {| startDate := startDate week; endDate := endDate week;
     assignedTo := assignedTo week; hasHoliday := hasHoliday week;
     isHolidayPeriod := isHolidayPeriod week; notes := n |}.

Definition withLeave (person : Person) (l : list Leave) : Person :=
  {| id := id person; name := name person; leave := l |}.

Section Handlers.

Variable st : State.

Definition addPerson : State :=
  let trimmedName := trim (newPersonName st) in
  match trimmedName with
  | [] => st
  | _ =>
      if (length (people st) <? MAX_PEOPLE)%nat then
        let newId :=
          match map id (people st) with
          | [] => 1
          | x :: l => Number_add (Math_max x l) 1
          end in
        setNewPersonName
          (setPeople st
             (people st ++ [ {| id := newId; name := trimmedName;
                                leave := [] |} ]))
          []
      else st
  end.

Definition removePerson (idToRemove : Z) : State :=
  let newSchedule :=
    map (fun week =>
           match assignedTo week with
           | PersonId n => if n =? idToRemove then withAssignedTo week Null
                           else week
           | _ => week
           end) (schedule st) in
  setPeople (setSchedule st newSchedule)
    (List.filter (fun person => negb (id person =? idToRemove)) (people st)).

Definition updatePersonName (idToUpdate : Z) (newName : str) : State :=
  setPeople st
    (map (fun p => if id p =? idToUpdate
                   then {| id := id p; name := trim newName; leave := leave p |}
                   else p) (people st)).

Definition sameLeave (a b : str) (l : Leave) : bool :=
  str_eqb (leave_start l) a && str_eqb (leave_end l) b.

(** [addLeave]: the next state and the alerts shown. *)
Definition addLeave : State * list str :=
  match selectedPersonIdForLeave st, leaveDate st, leaveEndDate st with
  | Some selected, _ :: _, _ :: _ =>
      let start := Date_parse (leaveDate st ++ timeSuffix) in
      let end_ := Date_parse (leaveEndDate st ++ timeSuffix) in
      if num_gtb start end_
      then (st, [lit "Leave end date must be on or after the start date."])
      else
        let newPeople :=
          map (fun person =>
                 if id person =? selected then
                   let currentLeave := leave person in
                   if existsb (sameLeave (leaveDate st) (leaveEndDate st))
                              currentLeave
                   then person
                   else withLeave person
                          (currentLeave
                           ++ [ {| leave_start := leaveDate st;
                                   leave_end := leaveEndDate st |} ])
                 else person) (people st) in
        let alerts :=
          flat_map (fun person =>
                      if (id person =? selected)
                         && existsb (sameLeave (leaveDate st) (leaveEndDate st))
                                    (leave person)
                      then [lit "This leave period already exists for this person."]
                      else []) (people st) in
        (resetLeaveForm (setPeople st newPeople), alerts)
  | _, _, _ => (st, [])
  end.

(** [newLeave.splice(leaveIndex, 1)] for an index within the array. *)
Definition splice1 {A} (l : list A) (index : nat) : list A :=
  firstn index l ++ skipn (S index) l.

Definition removeLeave (personId : Z) (leaveIndex : Z) : State :=
  setPeople st
    (map (fun person =>
            if id person =? personId then
              let newLeave := leave person in
              if (0 <=? leaveIndex)
                 && (leaveIndex <? Z.of_nat (length newLeave))
              then withLeave person (splice1 newLeave (Z.to_nat leaveIndex))
              else withLeave person newLeave
            else person) (people st)).

Definition saveNotes : State :=
  match currentWeekIndexForNotes st with
  | Some index =>
      if (index <? length (schedule st))%nat then
        closeNotesModal
          (setSchedule st
             (alter (fun week => withNotes week (trim (currentNotes st)))
                    index (schedule st)))
      else closeNotesModal st
  | None => closeNotesModal st
  end.

End Handlers.

(** * Properties *)

(** ** Calendar arithmetic *)

(** [lia] is given the equations of the divisions by a constant. *)
Ltac Zify.zify_post_hook ::= Z.to_euclidean_division_equations.

Module JSDateFacts.
Import JSDate.

Ltac case_cmp :=
  repeat match goal with
  | |- context [ (?a =? ?b) ] => destruct (Z.eqb_spec a b)
  | |- context [ (?a <=? ?b) ] => destruct (Z.leb_spec a b)
  | |- context [ (?a <? ?b) ] => destruct (Z.ltb_spec a b)
  end.

Lemma DayFromYear_step y : DayFromYear (y + 1) = DayFromYear y + DaysInYear y.
Proof.
  unfold DayFromYear, DaysInYear. case_cmp; simpl negb; cbv iota; lia.
Qed.

Lemma DaysInYear_range y : DaysInYear y = 365 \/ DaysInYear y = 366.
Proof. unfold DaysInYear. case_cmp; simpl; auto. Qed.

Lemma DayFromYear_mono y y' : y <= y' -> DayFromYear y <= DayFromYear y'.
Proof. unfold DayFromYear. lia. Qed.

Lemma YearFromDay_spec d :
  DayFromYear (YearFromDay d) <= d < DayFromYear (YearFromDay d + 1).
Proof.
  unfold YearFromDay. cbv zeta. case_cmp; unfold DayFromYear in *; lia.
Qed.

(** The year of a day is determined by the interval that contains it. *)
Lemma YearFromDay_unique d y :
  DayFromYear y <= d < DayFromYear (y + 1) -> YearFromDay d = y.
Proof.
  intros H. pose proof (YearFromDay_spec d) as S.
  destruct (Z.lt_trichotomy (YearFromDay d) y) as [L | [E | G]]; [ | exact E | ].
  - pose proof (DayFromYear_mono (YearFromDay d + 1) y ltac:(lia)). lia.
  - pose proof (DayFromYear_mono (y + 1) (YearFromDay d) ltac:(lia)). lia.
Qed.

Lemma InLeapYear_range y : InLeapYear y = 0 \/ InLeapYear y = 1.
Proof. unfold InLeapYear. case_cmp; auto. Qed.

Lemma DayWithinYear_range d :
  0 <= DayWithinYear d < 365 + InLeapYear (YearFromDay d).
Proof.
  unfold DayWithinYear, InLeapYear.
  pose proof (YearFromDay_spec d) as S.
  rewrite DayFromYear_step in S.
  destruct (DaysInYear_range (YearFromDay d)) as [E | E]; rewrite E in *;
    simpl; lia.
Qed.

Lemma MonthOfYearDay_range dwy leap : 0 <= MonthOfYearDay dwy leap <= 11.
Proof. unfold MonthOfYearDay. case_cmp; lia. Qed.

Lemma MonthFromTime_range t : 0 <= MonthFromTime t <= 11.
Proof. apply MonthOfYearDay_range. Qed.

(** The day of the month is counted from the first day of the month. *)
Lemma MonthStart_le dwy leap :
  0 <= dwy < 365 + leap -> 0 <= leap <= 1 ->
  0 <= dwy - MonthStart (MonthOfYearDay dwy leap) leap <= 30.
Proof.
  unfold MonthOfYearDay. intros.
  repeat match goal with
         | |- context [ (?a <? ?b) ] => destruct (Z.ltb_spec a b)
         end; unfold MonthStart; simpl; lia.
Qed.

Lemma DateFromTime_range t : 1 <= DateFromTime t <= 31.
Proof.
  unfold DateFromTime, MonthFromTime, YearFromTime.
  pose proof (DayWithinYear_range (Day t)).
  pose proof (InLeapYear_range (YearFromDay (Day t))).
  pose proof (MonthStart_le (DayWithinYear (Day t))
                (InLeapYear (YearFromDay (Day t)))
                ltac:(lia) ltac:(lia)).
  lia.
Qed.

(** Year, month and date of a time value give back its day number. *)
Lemma MakeDay_of_time t k :
  MakeDay (YearFromTime t) (MonthFromTime t) (DateFromTime t + k) = Day t + k.
Proof.
  pose proof (MonthFromTime_range t) as M.
  unfold MakeDay. cbv zeta.
  replace (MonthFromTime t / 12) with 0 by lia.
  replace (MonthFromTime t mod 12) with (MonthFromTime t) by lia.
  rewrite Z.add_0_r. unfold DateFromTime, DayWithinYear, YearFromTime. lia.
Qed.

Lemma MakeDate_shift t k :
  MakeDate (Day t + k) (TimeWithinDay t) = t + k * msPerDay.
Proof. unfold MakeDate, Day, TimeWithinDay, msPerDay. lia. Qed.

Lemma WeekDay_range t : 0 <= WeekDay t <= 6.
Proof. unfold WeekDay. lia. Qed.

Lemma WeekDay_shift t k :
  WeekDay (t + k * msPerDay) = (WeekDay t + k) mod 7.
Proof. unfold WeekDay, Day, msPerDay. lia. Qed.

Lemma Day_shift t k : Day (t + k * msPerDay) = Day t + k.
Proof. unfold Day, msPerDay. lia. Qed.

(** Time values of the years -271820 .. 275759 stay clear of the range
    limit by more than a week. *)
Lemma year_in_range t :
  -271820 <= YearFromTime t <= 275759 ->
  - maxTime + 7 * msPerDay <= t <= maxTime - 7 * msPerDay.
Proof.
  unfold YearFromTime. intros H.
  pose proof (YearFromDay_spec (Day t)) as S.
  pose proof (DayFromYear_mono (-271820) (YearFromDay (Day t)) ltac:(lia)) as L.
  pose proof (DayFromYear_mono (YearFromDay (Day t) + 1) 275760 ltac:(lia)) as U.
  change (DayFromYear (-271820)) with (-99999744) in L.
  change (DayFromYear 275760) with 99999744 in U.
  unfold Day, maxTime, msPerDay in *. lia.
Qed.

End JSDateFacts.

(** ** Dates *)

Section DateFacts.
Import JSDate JSDateFacts.

Lemma TimeClip_Some t : - maxTime <= t <= maxTime -> TimeClip t = Some t.
Proof.
  intros H. unfold TimeClip.
  destruct (Z.leb_spec (Z.abs t) maxTime) as [_ | L]; [reflexivity | lia].
Qed.

Lemma TimeClip_inv t u : TimeClip t = Some u -> u = t /\ - maxTime <= t <= maxTime.
Proof.
  unfold TimeClip.
  destruct (Z.leb_spec (Z.abs t) maxTime); intros E; inversion E; lia.
Qed.

(** Adding [n] to the day of the month moves the date by [n] days. *)
Lemma setUTCDate_Some t n :
  setUTCDate (Some t) (Some (DateFromTime t + n)) = TimeClip (t + n * msPerDay).
Proof. unfold setUTCDate. now rewrite MakeDay_of_time, MakeDate_shift. Qed.

Lemma advanceDays_Some t n :
  advanceDays (Some t) n = TimeClip (t + n * msPerDay).
Proof. apply setUTCDate_Some. Qed.

(** The first day of a month lies in its year. *)
Lemma MakeDay_first_year y m :
  0 <= m <= 11 -> YearFromDay (MakeDay y m 1) = y.
Proof.
  intros Hm. apply YearFromDay_unique.
  unfold MakeDay. cbv zeta.
  replace (m / 12) with 0 by lia. replace (m mod 12) with m by lia.
  rewrite Z.add_0_r, DayFromYear_step.
  pose proof (InLeapYear_range y) as L.
  assert (0 <= MonthStart m (InLeapYear y) <= 334 + InLeapYear y) as M.
  { unfold MonthStart. case_cmp; lia. }
  unfold InLeapYear in *.
  destruct (DaysInYear_range y) as [E | E]; rewrite E in *; simpl in *; lia.
Qed.

Lemma Day_MakeDate d : Day (MakeDate d 0) = d.
Proof. unfold Day, MakeDate, msPerDay. lia. Qed.

(** The year [Date.UTC] takes for its first argument. *)
Definition fullYear (y : Z) : Z :=
  if (0 <=? y) && (y <=? 99) then 1900 + y else y.

Lemma fullYear_range y :
  -271820 <= y <= 275759 -> -271820 <= fullYear y <= 275759.
Proof. unfold fullYear. destruct (_ && _) eqn:E; lia. Qed.

Lemma Date_UTC_first y m :
  -271820 <= y <= 275759 -> 0 <= m <= 11 ->
  exists t, Date_UTC (Some y) (Some m) (Some 1) = Some t
            /\ YearFromTime t = fullYear y
            /\ TimeWithinDay t = 0.
Proof.
  intros Hy Hm. unfold Date_UTC. fold (fullYear y).
  set (t := MakeDate (MakeDay (fullYear y) m 1) 0).
  assert (YearFromTime t = fullYear y) as Y.
  { unfold YearFromTime, t. rewrite Day_MakeDate.
    now apply MakeDay_first_year. }
  exists t. split; [ | split; [exact Y | ] ].
  - apply TimeClip_Some.
    pose proof (year_in_range t) as R. rewrite Y in R.
    specialize (R (fullYear_range y Hy)). unfold msPerDay in R. lia.
  - unfold TimeWithinDay, t, MakeDate, msPerDay. lia.
Qed.

End DateFacts.

(** ** Schedule generation *)

Section GenerateFacts.
Import JSDate JSDateFacts.

Variables (LocalTZA : Z) (year startMonth startDayOfWeek : Z).

Lemma findFirstStartDay_eq fuel date :
  findFirstStartDay year startMonth startDayOfWeek fuel date =
  if negb (num_eqb (getUTCDay date) (Some startDayOfWeek)) then
    match fuel with
    | O => None
    | S fuel' =>
        let date1 := advanceDays date 1 in
        if num_gtb (getUTCFullYear date1) (Some year)
           || (num_eqb (getUTCFullYear date1) (Some year)
               && num_gtb (getUTCMonth date1) (Some startMonth))
        then
          let date2 := Date_UTC (Some year) (Some startMonth) (Some 1) in
          let dayDiff :=
            num_rem (num_add (num_sub (Some startDayOfWeek) (getUTCDay date2))
                             (Some 7)) (Some 7) in
          Some (setUTCDate date2 (num_add (getUTCDate date2) dayDiff))
        else findFirstStartDay year startMonth startDayOfWeek fuel' date1
    end
  else Some date.
Proof. destruct fuel; reflexivity. Qed.

(** The number of days from [t] to the next day of the week
    [startDayOfWeek]. *)
Definition daysToStartDay (t : Z) : Z := (startDayOfWeek - WeekDay t) mod 7.

(** The first loop stops on the first [startDayOfWeek] on or after the first
    of the month, whichever of its two exits is taken. *)
Lemma findFirstStartDay_spec t0 :
  0 <= startDayOfWeek <= 6 ->
  - maxTime + 7 * msPerDay <= t0 <= maxTime - 7 * msPerDay ->
  Date_UTC (Some year) (Some startMonth) (Some 1) = Some t0 ->
  forall fuel j,
    0 <= j <= daysToStartDay t0 ->
    daysToStartDay t0 - j <= Z.of_nat fuel ->
    findFirstStartDay year startMonth startDayOfWeek fuel
      (Some (t0 + j * msPerDay))
    = Some (Some (t0 + daysToStartDay t0 * msPerDay)).
Proof.
  intros Hsw Ht0 HUTC.
  assert (0 <= daysToStartDay t0 <= 6) as HK by (unfold daysToStartDay; lia).
  induction fuel as [ | fuel IH]; intros j Hj Hfuel;
    rewrite findFirstStartDay_eq;
    unfold getUTCDay, option_map, num_eqb;
    rewrite WeekDay_shift;
    pose proof (WeekDay_range t0) as HW;
    destruct (Z.eqb_spec ((WeekDay t0 + j) mod 7) startDayOfWeek) as [E | NE];
    simpl negb; cbv iota.
  - replace j with (daysToStartDay t0) by (unfold daysToStartDay in *; lia).
    reflexivity.
  - exfalso. unfold daysToStartDay in *. lia.
  - replace j with (daysToStartDay t0) by (unfold daysToStartDay in *; lia).
    reflexivity.
  - assert (j < daysToStartDay t0) as Hlt by (unfold daysToStartDay in *; lia).
    cbv zeta. rewrite advanceDays_Some.
    replace (t0 + j * msPerDay + 1 * msPerDay) with (t0 + (j + 1) * msPerDay)
      by lia.
    rewrite TimeClip_Some by (unfold msPerDay in *; lia).
    destruct (_ || _).
    + rewrite HUTC. unfold getUTCDay, getUTCDate, option_map, num_sub, num_add,
        num_rem. simpl (7 =? 0). cbv iota.
      rewrite setUTCDate_Some.
      rewrite Z.rem_mod_nonneg by lia.
      replace ((startDayOfWeek - WeekDay t0 + 7) mod 7)
        with (daysToStartDay t0) by (unfold daysToStartDay; lia).
      rewrite TimeClip_Some by (unfold msPerDay in *; lia). reflexivity.
    + apply IH; lia.
Qed.

Lemma emitWeeks_eq holidayList fuel date :
  emitWeeks LocalTZA year holidayList fuel date =
  if num_eqb (getUTCFullYear date) (Some year) then
    match fuel with
    | O => None
    | S fuel' =>
        let startDate := date in
        let endDate := advanceDays date 6 in
        let isMarkedAsHolidayPeriod :=
          isWeekInHolidayPeriod startDate endDate (Some year) in
        let weekObj :=
          {| startDate := startDate;
             endDate := endDate;
             assignedTo := if isMarkedAsHolidayPeriod
                           then Status HolidayPeriod else Null;
             hasHoliday :=
               weekContainsHoliday LocalTZA startDate endDate holidayList;
             isHolidayPeriod := isMarkedAsHolidayPeriod;
             notes := [] |} in
        match emitWeeks LocalTZA year holidayList fuel' (advanceDays date 7) with
        | Some newSchedule => Some (weekObj :: newSchedule)
        | None => None
        end
    end
  else Some [].
Proof. destruct fuel; reflexivity. Qed.

(** What the generator writes into each week. *)
Definition generated_week (holidayList : list Holiday) (w : Week) : Prop :=
  isHolidayPeriod w = isWeekInHolidayPeriod (startDate w) (endDate w) (Some year)
  /\ assignedTo w = (if isHolidayPeriod w then Status HolidayPeriod else Null)
  /\ hasHoliday w
     = weekContainsHoliday LocalTZA (startDate w) (endDate w) holidayList
  /\ notes w = [].

Lemma emitWeeks_fields holidayList fuel :
  forall date ws,
    emitWeeks LocalTZA year holidayList fuel date = Some ws ->
    Forall (generated_week holidayList) ws.
Proof.
  induction fuel as [ | fuel IH]; intros date ws; rewrite emitWeeks_eq;
    destruct (num_eqb _ _); try discriminate;
    try (intros E; inversion E; constructor).
  cbv zeta.
  destruct (emitWeeks LocalTZA year holidayList fuel (advanceDays date 7))
    as [rest | ] eqn:R; [ | discriminate].
  intros E. inversion E. constructor.
  - repeat split; reflexivity.
  - eapply IH, R.
Qed.

(** Weeks in a row from time [t]: each starts 7 days after the one before
    it, ends 6 days after its start, and starts within [year]. *)
Inductive week_chain : Z -> list Week -> Prop :=
| week_chain_nil t : week_chain t []
| week_chain_cons t w ws :
    startDate w = Some t ->
    endDate w = Some (t + 6 * msPerDay) ->
    YearFromTime t = year ->
    week_chain (t + 7 * msPerDay) ws ->
    week_chain t (w :: ws).

Lemma emitWeeks_chain holidayList :
  -271820 <= year <= 275759 ->
  forall fuel t,
    DayFromYear (year + 1) - Day t <= 7 * Z.of_nat fuel ->
    exists ws, emitWeeks LocalTZA year holidayList fuel (Some t) = Some ws
               /\ week_chain t ws.
Proof.
  intros Hy. induction fuel as [ | fuel IH]; intros t Hfuel;
    rewrite emitWeeks_eq; unfold getUTCFullYear, option_map, num_eqb;
    destruct (Z.eqb_spec (YearFromTime t) year) as [E | NE];
    try (eexists; split; [reflexivity | constructor]).
  - exfalso. pose proof (YearFromDay_spec (Day t)) as S.
    unfold YearFromTime in E. rewrite E in S. lia.
  - cbv zeta. rewrite !advanceDays_Some.
    pose proof (year_in_range t ltac:(lia)) as R.
    rewrite !TimeClip_Some by (unfold msPerDay in *; lia).
    destruct (IH (t + 7 * msPerDay)) as [ws [Hws Hchain]].
    { rewrite Day_shift. lia. }
    rewrite Hws. eexists; split; [reflexivity | ].
    constructor; auto.
Qed.

Lemma week_chain_In t ws w :
  week_chain t ws -> In w ws ->
  exists s, startDate w = Some s /\ endDate w = Some (s + 6 * msPerDay)
            /\ YearFromTime s = year.
Proof.
  induction 1 as [ | t w' ws Hs He Hy Hc IH]; intros Hin; [destruct Hin | ].
  destruct Hin as [<- | Hin]; eauto.
Qed.

Lemma week_chain_next t (ws : list Week) i w1 w2 :
  week_chain t ws -> ws !! i = Some w1 -> ws !! S i = Some w2 ->
  exists s, startDate w1 = Some s /\ startDate w2 = Some (s + 7 * msPerDay).
Proof.
  intros Hc. revert i. induction Hc as [ | t w ws Hs He Hy Hc IH]; intros i H1 H2.
  - discriminate.
  - destruct i as [ | i].
    + simpl in H1, H2. inversion H1; subst w1.
      inversion Hc as [ | ? w' ws' Hs' He' Hy' Hc' ]; subst;
        [discriminate | ].
      simpl in H2. inversion H2; subst w2. exists t. split; assumption.
    + simpl in H1, H2. eauto.
Qed.

Lemma week_chain_dates t ws ws' :
  week_chain t ws ->
  Forall2 (fun w w' => startDate w' = startDate w /\ endDate w' = endDate w)
          ws ws' ->
  week_chain t ws'.
Proof.
  intros Hc. revert ws'.
  induction Hc as [ | t w ws Hs He Hy Hc IH]; intros ws' HF; inversion HF; subst.
  - constructor.
  - match goal with H : _ /\ _ |- _ => destruct H as [Es Ee] end.
    constructor; [congruence | congruence | assumption | auto].
Qed.

End GenerateFacts.

(** ** What the assignment pass keeps of a week *)

Section AssignKeeps.

Variables (LocalTZA : Z) (people : list Person) (holidayList : list Holiday).

(** The pass changes the assignment and the holiday flag only, and leaves a
    week of the holiday period as it is. *)
Definition kept_week (w w' : Week) : Prop :=
  startDate w' = startDate w /\ endDate w' = endDate w
  /\ isHolidayPeriod w' = isHolidayPeriod w /\ notes w' = notes w
  /\ (isHolidayPeriod w = true -> w' = w).

Lemma assignWeek_kept counts index w :
  kept_week w (fst (assignWeek LocalTZA people holidayList counts index w)).
Proof.
  unfold assignWeek, kept_week.
  destruct (isHolidayPeriod w) eqn:E.
  - simpl. auto.
  - destruct (Array_sort _ _); simpl; repeat split; auto; discriminate.
Qed.

Lemma assignWeeks_kept weeks :
  forall counts index,
    Forall2 kept_week weeks
      (fst (assignWeeks LocalTZA people holidayList counts index weeks)).
Proof.
  induction weeks as [ | w weeks IH]; intros counts index; simpl.
  - constructor.
  - pose proof (assignWeek_kept counts index w) as K.
    destruct (assignWeek LocalTZA people holidayList counts index w)
      as [w' counts'].
    specialize (IH counts' (index + 1)).
    destruct (assignWeeks LocalTZA people holidayList counts' (index + 1) weeks)
      as [rest' counts''].
    constructor; assumption.
Qed.

Lemma assignPeopleToWeeks_kept weeks :
  Forall2 kept_week weeks
    (fst (assignPeopleToWeeks LocalTZA people weeks holidayList)).
Proof.
  unfold assignPeopleToWeeks.
  pose proof (assignWeeks_kept weeks (initCounts people (Some NegInfinity)) 0)
    as K.
  destruct (assignWeeks _ _ _ _ _ _) as [updated counts']. exact K.
Qed.

End AssignKeeps.

(** ** The generated schedule *)

Section GeneratedSchedule.
Import JSDate JSDateFacts.

Variables (LocalTZA : Z) (people : list Person).
Variables (year startMonth startDayOfWeek : Z).
Variable holidayList : list Holiday.

Hypothesis year_range : -271820 <= year <= 275759.
Hypothesis month_range : 0 <= startMonth <= 11.
Hypothesis weekday_range : 0 <= startDayOfWeek <= 6.

(** The generator returns: the weeks it emits form a chain from the first
    [startDayOfWeek] of the start month, and the schedule it stores is the
    outcome of the assignment pass on them. *)
Lemma generateSchedule_emits fuel :
  (54 <= fuel)%nat ->
  exists t0 newSchedule,
    Date_UTC (Some year) (Some startMonth) (Some 1) = Some t0
    /\ YearFromTime t0 = fullYear year
    /\ emitWeeks LocalTZA year holidayList fuel
         (Some (t0 + daysToStartDay startDayOfWeek t0 * msPerDay))
       = Some newSchedule
    /\ week_chain year (t0 + daysToStartDay startDayOfWeek t0 * msPerDay)
         newSchedule
    /\ Forall (generated_week LocalTZA year holidayList) newSchedule
    /\ generateSchedule LocalTZA people year startMonth startDayOfWeek fuel
         holidayList
       = Some (assignPeopleToWeeks LocalTZA people newSchedule holidayList).
Proof.
  intros Hfuel.
  destruct (Date_UTC_first year startMonth year_range month_range)
    as [t0 [HUTC [HY HT]]].
  pose proof (year_in_range t0) as R. rewrite HY in R.
  specialize (R (fullYear_range year year_range)).
  assert (0 <= daysToStartDay startDayOfWeek t0 <= 6) as HK
    by (unfold daysToStartDay; lia).
  pose proof (findFirstStartDay_spec year startMonth startDayOfWeek t0
                weekday_range R HUTC fuel 0 ltac:(lia) ltac:(lia)) as F.
  rewrite Z.mul_0_l, Z.add_0_r in F.
  set (a := t0 + daysToStartDay startDayOfWeek t0 * msPerDay) in *.
  destruct (emitWeeks_chain LocalTZA year holidayList year_range fuel a)
    as [ws [Hws Hchain]].
  { unfold a. rewrite Day_shift.
    pose proof (YearFromDay_spec (Day t0)) as S.
    unfold YearFromTime in HY. rewrite HY in S.
    pose proof (DayFromYear_step year) as St.
    pose proof (DaysInYear_range year) as D.
    pose proof (DayFromYear_mono (year + 1) (fullYear year)) as M.
    unfold fullYear in *. destruct (_ && _) eqn:Q; lia. }
  exists t0, ws. repeat split; auto.
  - eapply emitWeeks_fields, Hws.
  - unfold generateSchedule. rewrite HUTC, F, Hws. reflexivity.
Qed.

(** When the first [startDayOfWeek] of the start month lies in the year,
    it starts the first week of the schedule. *)
Lemma generateSchedule_first_week fuel t0 :
  (54 <= fuel)%nat ->
  Date_UTC (Some year) (Some startMonth) (Some 1) = Some t0 ->
  YearFromTime (t0 + daysToStartDay startDayOfWeek t0 * msPerDay) = year ->
  exists w ws counts,
    generateSchedule LocalTZA people year startMonth startDayOfWeek fuel
      holidayList = Some (w :: ws, counts)
    /\ startDate w = Some (t0 + daysToStartDay startDayOfWeek t0 * msPerDay).
Proof.
  intros Hfuel HUTC HY.
  destruct (generateSchedule_emits fuel Hfuel)
    as [t0' [ws [HUTC' [_ [Hemit [_ [_ Hgen]]]]]]].
  assert (t0' = t0) as -> by congruence.
  set (a := t0 + daysToStartDay startDayOfWeek t0 * msPerDay) in *.
  destruct fuel as [ | fuel]; [lia | ].
  rewrite emitWeeks_eq in Hemit.
  unfold getUTCFullYear, option_map, num_eqb in Hemit.
  rewrite HY, Z.eqb_refl in Hemit. cbv zeta in Hemit.
  destruct (emitWeeks LocalTZA year holidayList fuel (advanceDays (Some a) 7))
    as [rest | ]; [ | discriminate].
  match type of Hemit with
  | Some (?x :: _) = _ =>
      assert (startDate x = Some a) as Hwk by reflexivity;
      revert Hemit Hwk; generalize x; intros wk Hemit Hwk
  end.
  assert (ws = wk :: rest) as -> by congruence.
  pose proof (assignPeopleToWeeks_kept LocalTZA people holidayList
                (wk :: rest)) as K.
  rewrite Hgen.
  destruct (assignPeopleToWeeks LocalTZA people (wk :: rest) holidayList)
    as [schedule counts].
  simpl in K. inversion K as [ | w0 w ws0 ws [Hs _] Hrest]; subst.
  exists w, ws, counts. split; [reflexivity | congruence].
Qed.

End GeneratedSchedule.

(** ** The holiday period *)

Section HolidayPeriodFacts.
Import JSDate JSDateFacts.

Lemma Date_UTC_valid y m d :
  -271820 <= y <= 275760 -> 0 <= m <= 11 -> 1 <= d <= 31 ->
  (y = 275760 -> m = 0) ->
  exists t, Date_UTC (Some y) (Some m) (Some d) = Some t
            /\ - maxTime + 7 * msPerDay <= t <= maxTime - 7 * msPerDay.
Proof.
  intros Hy Hm Hd Hlast. unfold Date_UTC. fold (fullYear y).
  assert (-271820 <= fullYear y <= 275760
          /\ (fullYear y = 275760 -> m = 0)) as [Hy' Hlast'].
  { unfold fullYear. destruct (_ && _) eqn:Q; lia. }
  set (t := MakeDate (MakeDay (fullYear y) m d) 0).
  assert (- maxTime + 7 * msPerDay <= t <= maxTime - 7 * msPerDay) as B.
  { unfold t, MakeDate, MakeDay. cbv zeta.
    replace (m / 12) with 0 by lia. replace (m mod 12) with m by lia.
    rewrite !Z.add_0_r.
    pose proof (InLeapYear_range (fullYear y)) as L.
    assert (0 <= MonthStart m (InLeapYear (fullYear y))
            <= 334 + InLeapYear (fullYear y)
            /\ (m = 0 -> MonthStart m (InLeapYear (fullYear y)) = 0)) as [M M0].
    { unfold MonthStart. case_cmp; lia. }
    pose proof (DayFromYear_mono (-271820) (fullYear y) ltac:(lia)) as Lo.
    change (DayFromYear (-271820)) with (-99999744) in Lo.
    destruct (Z.eq_dec (fullYear y) 275760) as [E | NE].
    - rewrite M0 by auto. rewrite E.
      change (DayFromYear 275760) with 99999744.
      unfold maxTime, msPerDay. lia.
    - pose proof (DayFromYear_mono (fullYear y + 1) 275760 ltac:(lia)) as Hi.
      change (DayFromYear 275760) with 99999744 in Hi.
      rewrite DayFromYear_step in Hi.
      assert (InLeapYear (fullYear y) + 365 = DaysInYear (fullYear y)) as D.
      { unfold InLeapYear.
        destruct (DaysInYear_range (fullYear y)) as [E | E]; rewrite E;
          reflexivity. }
      unfold maxTime, msPerDay. lia. }
  exists t. split; [ | exact B].
  apply TimeClip_Some. unfold msPerDay in B. lia.
Qed.

(** The Monday on or before a date, the Friday on or after it. *)
Lemma getMondayBefore_Some t :
  - maxTime + 7 * msPerDay <= t <= maxTime - 7 * msPerDay ->
  getMondayBefore (Some t) = Some (t - ((WeekDay t + 6) mod 7) * msPerDay).
Proof.
  intros B. unfold getMondayBefore. cbv zeta.
  unfold getUTCDay, getUTCDate, option_map, num_eqb, num_sub, num_add.
  pose proof (WeekDay_range t) as W.
  destruct (Z.eqb_spec (WeekDay t) 0) as [E | NE];
    rewrite setUTCDate_Some;
    rewrite TimeClip_Some by (unfold msPerDay in *; lia);
    f_equal; unfold msPerDay; lia.
Qed.

Lemma getFridayAfter_Some t :
  - maxTime + 7 * msPerDay <= t <= maxTime - 7 * msPerDay ->
  getFridayAfter (Some t) = Some (t + ((5 - WeekDay t) mod 7) * msPerDay).
Proof.
  intros B. unfold getFridayAfter. cbv zeta.
  unfold getUTCDay, getUTCDate, option_map, num_eqb, num_sub, num_add.
  pose proof (WeekDay_range t) as W.
  destruct (Z.eqb_spec (WeekDay t) 6) as [E | NE];
    rewrite setUTCDate_Some;
    rewrite TimeClip_Some by (unfold msPerDay in *; lia);
    f_equal; unfold msPerDay; lia.
Qed.

(** For a representable year the holiday period is computed, from the
    Monday on or before Christmas to the Friday on or after New Year. *)
Lemma getHolidayPeriod_Some year :
  -271820 <= year <= 275759 ->
  exists christmas newYear pstart pend,
    Date_UTC (Some year) (Some 11) (Some 25) = Some christmas
    /\ Date_UTC (Some (year + 1)) (Some 0) (Some 1) = Some newYear
    /\ getMondayBefore (Some christmas) = Some pstart
    /\ getFridayAfter (Some newYear) = Some pend
    /\ getHolidayPeriod (Some year) = Some (Some pstart, Some pend)
    /\ WeekDay pstart = 1
    /\ christmas - 6 * msPerDay <= pstart <= christmas
    /\ WeekDay pend = 5
    /\ newYear <= pend <= newYear + 6 * msPerDay.
Proof.
  intros Hy.
  destruct (Date_UTC_valid year 11 25) as [c [Hc Bc]]; try lia.
  destruct (Date_UTC_valid (year + 1) 0 1) as [n [Hn Bn]]; try lia.
  exists c, n, (c - ((WeekDay c + 6) mod 7) * msPerDay),
    (n + ((5 - WeekDay n) mod 7) * msPerDay).
  pose proof (getMondayBefore_Some c Bc) as Mb.
  pose proof (getFridayAfter_Some n Bn) as Fa.
  pose proof (WeekDay_range c) as Wc. pose proof (WeekDay_range n) as Wn.
  repeat split; auto.
  - unfold getHolidayPeriod. cbv zeta. simpl num_add.
    rewrite Hc, Hn, Mb, Fa. reflexivity.
  - replace (c - (WeekDay c + 6) mod 7 * msPerDay)
      with (c + (- ((WeekDay c + 6) mod 7)) * msPerDay) by lia.
    rewrite WeekDay_shift. lia.
  - unfold msPerDay. lia.
  - unfold msPerDay. lia.
  - rewrite WeekDay_shift. lia.
  - unfold msPerDay. lia.
  - unfold msPerDay. lia.
Qed.

End HolidayPeriodFacts.

(** ** The generated schedule: week spans, holiday period, first week *)

Section GeneratorClaims.
Import JSDate JSDateFacts.

(** C3. For every representable year, start month 0..11 and start weekday
    0..6 the generator returns a schedule in which every week ends 6 days
    after its start and starts within the configured year, and in which each
    week starts 7 days after the week before it: the start dates increase
    strictly, without gap or overlap. *)
Theorem generateSchedule_weeks_contiguous
    (LocalTZA : Z) (people : list Person) (year startMonth startDayOfWeek : Z)
    (holidayList : list Holiday) (fuel : nat) :
  -271820 <= year <= 275759 ->
  0 <= startMonth <= 11 ->
  0 <= startDayOfWeek <= 6 ->
  (54 <= fuel)%nat ->
  exists schedule counts,
    generateSchedule LocalTZA people year startMonth startDayOfWeek fuel
      holidayList = Some (schedule, counts)
    /\ (forall w, In w schedule ->
          exists s, startDate w = Some s
                    /\ endDate w = Some (s + 6 * msPerDay)
                    /\ getUTCFullYear (startDate w) = Some year)
    /\ (forall i w1 w2,
          schedule !! i = Some w1 -> schedule !! S i = Some w2 ->
          exists s, startDate w1 = Some s
                    /\ startDate w2 = Some (s + 7 * msPerDay)).
Proof.
  intros Hy Hm Hw Hfuel.
  destruct (generateSchedule_emits LocalTZA people year startMonth
              startDayOfWeek holidayList Hy Hm Hw fuel Hfuel)
    as [t0 [ws [_ [_ [_ [Hchain [_ Hgen]]]]]]].
  pose proof (assignPeopleToWeeks_kept LocalTZA people holidayList ws) as K.
  destruct (assignPeopleToWeeks LocalTZA people ws holidayList)
    as [schedule counts].
  simpl in K.
  assert (week_chain year
            (t0 + daysToStartDay startDayOfWeek t0 * msPerDay) schedule)
    as Hchain'.
  { eapply week_chain_dates; [exact Hchain | ].
    eapply Forall2_impl; [exact K | ].
    intros w w' [Hs [He _]]. split; assumption. }
  exists schedule, counts. split; [exact Hgen | split].
  - intros w Hin.
    destruct (week_chain_In year _ _ w Hchain' Hin) as [s [Hs [He Hyr]]].
    exists s. repeat split; auto. rewrite Hs. simpl. now rewrite Hyr.
  - intros i w1 w2 H1 H2. eapply week_chain_next; eauto.
Qed.

Lemma generateSchedule_weeks_contiguous_witness :
  exists schedule counts,
    generateSchedule 0 [] 2025 0 2 60 [] = Some (schedule, counts)
    /\ (forall w, In w schedule ->
          exists s, startDate w = Some s
                    /\ endDate w = Some (s + 6 * msPerDay)
                    /\ getUTCFullYear (startDate w) = Some 2025)
    /\ (forall i w1 w2,
          schedule !! i = Some w1 -> schedule !! S i = Some w2 ->
          exists s, startDate w1 = Some s
                    /\ startDate w2 = Some (s + 7 * msPerDay)).
Proof.
  apply (generateSchedule_weeks_contiguous 0 [] 2025 0 2 [] 60); lia.
Defined.

(** C4. In the generated schedule a week is flagged as holiday period
    exactly when its span overlaps the interval from the Monday on or before
    Dec 25 of the year to the Friday on or after Jan 1 of the next year
    (start <= period end and end >= period start), and a flagged week keeps
    the assignment "Holiday Period" through the assignment pass. *)
Theorem generateSchedule_holiday_period
    (LocalTZA : Z) (people : list Person) (year startMonth startDayOfWeek : Z)
    (holidayList : list Holiday) (fuel : nat) :
  -271820 <= year <= 275759 ->
  0 <= startMonth <= 11 ->
  0 <= startDayOfWeek <= 6 ->
  (54 <= fuel)%nat ->
  exists schedule counts christmas newYear pstart pend,
    generateSchedule LocalTZA people year startMonth startDayOfWeek fuel
      holidayList = Some (schedule, counts)
    /\ Date_UTC (Some year) (Some 11) (Some 25) = Some christmas
    /\ Date_UTC (Some (year + 1)) (Some 0) (Some 1) = Some newYear
    /\ getMondayBefore (Some christmas) = Some pstart
    /\ getFridayAfter (Some newYear) = Some pend
    /\ (WeekDay pstart = 1 /\ christmas - 6 * msPerDay <= pstart <= christmas)
    /\ (WeekDay pend = 5 /\ newYear <= pend <= newYear + 6 * msPerDay)
    /\ forall w, In w schedule ->
         exists s e,
           startDate w = Some s /\ endDate w = Some e
           /\ (isHolidayPeriod w = true <-> s <= pend /\ e >= pstart)
           /\ (isHolidayPeriod w = true -> assignedTo w = Status HolidayPeriod)
           /\ (forall personId, assignedTo w = PersonId personId ->
                 isHolidayPeriod w = false).
Proof.
  intros Hy Hm Hw Hfuel.
  destruct (generateSchedule_emits LocalTZA people year startMonth
              startDayOfWeek holidayList Hy Hm Hw fuel Hfuel)
    as [t0 [ws [_ [_ [_ [Hchain [Hfields Hgen]]]]]]].
  destruct (getHolidayPeriod_Some year Hy)
    as [c [n [ps [pe [Hc [Hn [Hps [Hpe [Hper [W1 [B1 [W2 B2]]]]]]]]]]]].
  pose proof (assignPeopleToWeeks_kept LocalTZA people holidayList ws) as K.
  destruct (assignPeopleToWeeks LocalTZA people ws holidayList)
    as [schedule counts].
  simpl in K.
  exists schedule, counts, c, n, ps, pe.
  repeat (split; [assumption || (split; assumption) | ]).
  intros w' Hin.
  apply list_elem_of_In, list_elem_of_lookup in Hin. destruct Hin as [i Hi].
  destruct (Forall2_lookup_r _ _ _ _ _ K Hi) as [w [Hwi [Ks [Ke [Kh [_ Kw]]]]]].
  assert (In w ws) as Hin
    by (apply list_elem_of_In, list_elem_of_lookup; eauto).
  destruct (week_chain_In year _ _ w Hchain Hin) as [s [Hs [He _]]].
  rewrite List.Forall_forall in Hfields.
  destruct (Hfields w Hin) as [Fp [Fa _]].
  assert (isHolidayPeriod w = (s <=? pe) && (ps <=? s + 6 * msPerDay)) as Fl.
  { rewrite Fp. unfold isWeekInHolidayPeriod. rewrite Hper, Hs, He.
    reflexivity. }
  exists s, (s + 6 * msPerDay).
  split; [congruence | split; [congruence | ] ].
  rewrite Kh. split; [ | split].
  - rewrite Fl, andb_true_iff, Z.leb_le, Z.leb_le. lia.
  - intros Hb. rewrite (Kw Hb), Fa, Hb. reflexivity.
  - intros personId Ha. destruct (isHolidayPeriod w) eqn:Hb; [ | reflexivity].
    rewrite (Kw eq_refl), Fa in Ha. discriminate.
Qed.

Lemma generateSchedule_holiday_period_witness :
  exists schedule counts christmas newYear pstart pend,
    generateSchedule 0 [] 2025 0 2 60 [] = Some (schedule, counts)
    /\ Date_UTC (Some 2025) (Some 11) (Some 25) = Some christmas
    /\ Date_UTC (Some (2025 + 1)) (Some 0) (Some 1) = Some newYear
    /\ getMondayBefore (Some christmas) = Some pstart
    /\ getFridayAfter (Some newYear) = Some pend
    /\ (WeekDay pstart = 1 /\ christmas - 6 * msPerDay <= pstart <= christmas)
    /\ (WeekDay pend = 5 /\ newYear <= pend <= newYear + 6 * msPerDay)
    /\ forall w, In w schedule ->
         exists s e,
           startDate w = Some s /\ endDate w = Some e
           /\ (isHolidayPeriod w = true <-> s <= pend /\ e >= pstart)
           /\ (isHolidayPeriod w = true -> assignedTo w = Status HolidayPeriod)
           /\ (forall personId, assignedTo w = PersonId personId ->
                 isHolidayPeriod w = false).
Proof.
  apply (generateSchedule_holiday_period 0 [] 2025 0 2 [] 60); lia.
Defined.

(** C9. For year 2025, start month 0 and start weekday 2 the first
    generated week starts on 2025-01-07, and the holiday period of 2025 runs
    from 2025-12-22, the Monday before 2025-12-25, to 2026-01-02, the Friday
    after 2026-01-01. *)
Theorem generateSchedule_example_2025
    (LocalTZA : Z) (people : list Person) (holidayList : list Holiday)
    (fuel : nat) :
  (54 <= fuel)%nat ->
  (exists w ws counts,
     generateSchedule LocalTZA people 2025 0 2 fuel holidayList
     = Some (w :: ws, counts)
     /\ startDate w = Date_UTC (Some 2025) (Some 0) (Some 7)
     /\ formatDateYYYYMMDD (startDate w) = lit "2025-01-07")
  /\ getMondayBefore (Date_UTC (Some 2025) (Some 11) (Some 25))
     = Date_UTC (Some 2025) (Some 11) (Some 22)
  /\ getFridayAfter (Date_UTC (Some 2026) (Some 0) (Some 1))
     = Date_UTC (Some 2026) (Some 0) (Some 2)
  /\ getHolidayPeriod (Some 2025)
     = Some (Date_UTC (Some 2025) (Some 11) (Some 22),
             Date_UTC (Some 2026) (Some 0) (Some 2)).
Proof.
  intros Hfuel.
  split; [ | repeat split; vm_compute; reflexivity].
  destruct (generateSchedule_first_week LocalTZA people 2025 0 2 holidayList
              ltac:(lia) ltac:(lia) ltac:(lia) fuel 1735689600000 Hfuel)
    as [w [ws [counts [Hgen Hs]]]].
  - vm_compute. reflexivity.
  - vm_compute. reflexivity.
  - exists w, ws, counts. split; [exact Hgen | ].
    rewrite Hs. split; vm_compute; reflexivity.
Qed.

Lemma generateSchedule_example_2025_witness :
  (exists w ws counts,
     generateSchedule 0 [] 2025 0 2 60 [] = Some (w :: ws, counts)
     /\ startDate w = Date_UTC (Some 2025) (Some 0) (Some 7)
     /\ formatDateYYYYMMDD (startDate w) = lit "2025-01-07")
  /\ getMondayBefore (Date_UTC (Some 2025) (Some 11) (Some 25))
     = Date_UTC (Some 2025) (Some 11) (Some 22)
  /\ getFridayAfter (Date_UTC (Some 2026) (Some 0) (Some 1))
     = Date_UTC (Some 2026) (Some 0) (Some 2)
  /\ getHolidayPeriod (Some 2025)
     = Some (Date_UTC (Some 2025) (Some 11) (Some 22),
             Date_UTC (Some 2026) (Some 0) (Some 2)).
Proof.
  apply (generateSchedule_example_2025 0 [] [] 60); lia.
Defined.

End GeneratorClaims.

(** ** The fair assignment pass *)

Section SortFacts.

Context {A : Type} (comparefn : A -> A -> xnum).

Let before (a b : A) : Prop := xnum_neg (comparefn a b) = true.

Hypothesis before_trans : forall a b c, before a b -> before b c -> before a c.
Hypothesis before_negtrans :
  forall a b c, ~ before a b -> ~ before b c -> ~ before a c.

(** The first element of the sorted array is the first of the least
    elements of the array: it comes before every element that precedes it
    in the array, and no element that follows it comes before it. *)
Lemma Array_sort_head (l : list A) :
  l <> [] ->
  exists front m back rest,
    l = front ++ m :: back
    /\ Array_sort comparefn l = m :: rest
    /\ (forall q, In q front -> before m q)
    /\ (forall q, In q back -> ~ before q m).
Proof.
  induction l as [ | x l IH]; intros Hne; [congruence | ].
  destruct l as [ | y l].
  - exists [], x, [], []. simpl. repeat split; intros q [].
  - destruct IH as [front [m [back [rest [Hl [Hs [Hf Hb]]]]]]]; [congruence | ].
    change (Array_sort comparefn (x :: y :: l))
      with (sort_insert comparefn x (Array_sort comparefn (y :: l))).
    rewrite Hs. simpl sort_insert.
    destruct (xnum_neg (comparefn m x)) eqn:E.
    + exists (x :: front), m, back, (sort_insert comparefn x rest).
      rewrite Hl. repeat split; auto.
      intros q [<- | Hq]; [exact E | auto].
    + exists [], x, (y :: l), (m :: rest).
      repeat split; [intros q [] | ].
      assert (~ before m x) as Nmx by (unfold before; rewrite E; discriminate).
      intros q Hq. rewrite Hl in Hq. apply in_app_or in Hq.
      destruct Hq as [Hq | [<- | Hq]].
      * intros Hqx. apply Nmx. eapply before_trans; [apply Hf, Hq | exact Hqx].
      * exact Nmx.
      * apply before_negtrans with m; auto.
Qed.

End SortFacts.

(** The sort key of a person: the counts, compared in the order total,
    holiday, last assignment, where never assigned ([-Infinity]) is the
    least last assignment. *)
Definition lastKey (c : Counts) : xnum := default NegInfinity (lastAssigned c).

Definition last_lt (a b : xnum) : Prop :=
  match a, b with
  | NegInfinity, Finite _ => True
  | Finite x, Finite y => x < y
  | _, _ => False
  end.

Definition key_lt (ca cb : Counts) : Prop :=
  total ca < total cb
  \/ (total ca = total cb
      /\ (holiday ca < holiday cb
          \/ (holiday ca = holiday cb /\ last_lt (lastKey ca) (lastKey cb)))).

(** During the pass the last assignment is [-Infinity] or a week index. *)
Definition key_wf (c : Counts) : Prop :=
  lastKey c = NegInfinity \/ exists i, lastKey c = Finite i.

Lemma last_lt_trans a b c : last_lt a b -> last_lt b c -> last_lt a c.
Proof. destruct a, b, c; simpl; try tauto; lia. Qed.

Lemma key_lt_trans a b c : key_lt a b -> key_lt b c -> key_lt a c.
Proof.
  unfold key_lt. intros H1 H2.
  pose proof (last_lt_trans (lastKey a) (lastKey b) (lastKey c)).
  intuition lia.
Qed.

Lemma key_lt_negtrans a b c :
  key_wf a -> key_wf b -> key_wf c ->
  ~ key_lt a b -> ~ key_lt b c -> ~ key_lt a c.
Proof.
  unfold key_lt, key_wf.
  intros [Ha | [i Ha]] [Hb | [j Hb]] [Hc | [k Hc]] H1 H2;
    rewrite Ha, Hb, Hc in *; simpl in *; lia.
Qed.

Section AssignFacts.

Variables (LocalTZA : Z) (people : list Person) (holidayList : list Holiday).

Lemma compareCounts_neg (counts : HolidayCounts) a b :
  key_wf (counts !!! id a) -> key_wf (counts !!! id b) ->
  xnum_neg (compareCounts counts a b) = true
  <-> key_lt (counts !!! id a) (counts !!! id b).
Proof.
  unfold compareCounts, key_lt, key_wf, lastKey. cbv zeta.
  set (ca := counts !!! id a). set (cb := counts !!! id b).
  intros [Ha | [i Ha]] [Hb | [j Hb]];
    destruct (Z.eqb_spec (total ca) (total cb)) as [E1 | N1];
    destruct (Z.eqb_spec (holiday ca) (holiday cb)) as [E2 | N2];
    simpl negb; cbv iota; rewrite ?Ha, ?Hb; simpl; rewrite ?Z.ltb_lt;
    split; (try discriminate); try lia; intuition (try lia; discriminate).
Qed.

(** The counts of the pass: every roster member has an entry, and every
    last assignment is [-Infinity] or a week index. *)
Definition pass_counts (counts : HolidayCounts) : Prop :=
  (forall p, In p people -> is_Some (counts !! id p))
  /\ (forall i, key_wf (counts !!! i)).

Lemma initCounts_lookup last i :
  initCounts people last !! i
  = if existsb (fun p => id p =? i) people
    then Some {| total := 0; holiday := 0; lastAssigned := last |}
    else None.
Proof.
  unfold initCounts.
  assert (forall (l : list Person) (m : HolidayCounts),
            fold_left (fun (counts : HolidayCounts) person =>
                         <[id person := {| total := 0; holiday := 0;
                                           lastAssigned := last |}]> counts)
                      l m !! i
            = if existsb (fun p => id p =? i) l
              then Some {| total := 0; holiday := 0; lastAssigned := last |}
              else m !! i) as G.
  { induction l as [ | p l IH]; intros m; simpl; [reflexivity | ].
    rewrite IH. destruct (existsb _ l); [now rewrite orb_true_r | ].
    rewrite orb_false_r. destruct (Z.eqb_spec (id p) i) as [-> | N].
    - apply lookup_insert_eq.
    - now apply lookup_insert_ne. }
  rewrite G. now rewrite lookup_empty.
Qed.

Lemma initCounts_pass : pass_counts (initCounts people (Some NegInfinity)).
Proof.
  split.
  - intros p Hp. rewrite initCounts_lookup.
    assert (existsb (fun q => id q =? id p) people = true) as ->.
    { apply existsb_exists. exists p. split; [exact Hp | apply Z.eqb_refl]. }
    eauto.
  - intros i. rewrite lookup_total_alt, initCounts_lookup.
    destruct (existsb _ _); left; reflexivity.
Qed.

Lemma availablePeople_In week p :
  In p (availablePeople LocalTZA people week) -> In p people.
Proof. unfold availablePeople. rewrite filter_In. tauto. Qed.

(** One step of the pass on a week outside the holiday period for which
    somebody is available. *)
Lemma assignWeek_selects counts index week :
  pass_counts counts ->
  isHolidayPeriod week = false ->
  availablePeople LocalTZA people week <> [] ->
  exists front p back c,
    availablePeople LocalTZA people week = front ++ p :: back
    /\ counts !! id p = Some c
    /\ (forall q, In q front -> key_lt c (counts !!! id q))
    /\ (forall q, In q back -> ~ key_lt (counts !!! id q) c)
    /\ assignWeek LocalTZA people holidayList counts index week
       = ({| startDate := startDate week; endDate := endDate week;
             assignedTo := PersonId (id p);
             hasHoliday :=
               weekContainsHoliday LocalTZA (startDate week) (endDate week)
                 holidayList;
             isHolidayPeriod := isHolidayPeriod week;
             notes := notes week |},
          <[id p := {| total := total c + 1;
                       holiday :=
                         if weekContainsHoliday LocalTZA (startDate week)
                              (endDate week) holidayList
                         then holiday c + 1 else holiday c;
                       lastAssigned := Some (Finite index) |}]> counts).
Proof.
  intros [Hdom Hwf] Hhp Hne.
  destruct (Array_sort_head (compareCounts counts)) with
    (l := availablePeople LocalTZA people week)
    as [front [p [back [rest [Hl [Hs [Hf Hb]]]]]]]; auto.
  - intros a b c. rewrite !compareCounts_neg by auto. apply key_lt_trans.
  - intros a b c. rewrite !compareCounts_neg by auto.
    apply key_lt_negtrans; auto.
  - assert (In p people) as Hp.
    { eapply availablePeople_In. rewrite Hl. apply in_elt. }
    destruct (Hdom p Hp) as [c Hc].
    assert (counts !!! id p = c) as Hc' by now apply lookup_total_correct.
    exists front, p, back, c. split; [exact Hl | split; [exact Hc | ] ].
    split; [ | split].
    + intros q Hq. rewrite <- Hc'. apply compareCounts_neg; auto.
    + intros q Hq. rewrite <- Hc'. rewrite <- compareCounts_neg by auto.
      apply Hb, Hq.
    + unfold assignWeek. rewrite Hhp, Hs. cbv zeta. rewrite Hc'. reflexivity.
Qed.

Lemma assignWeek_pass counts index week :
  pass_counts counts ->
  pass_counts (snd (assignWeek LocalTZA people holidayList counts index week)).
Proof.
  intros Hpass. destruct (isHolidayPeriod week) eqn:Hhp.
  - unfold assignWeek. rewrite Hhp. exact Hpass.
  - destruct (availablePeople LocalTZA people week) as [ | a l] eqn:Hav.
    + unfold assignWeek. rewrite Hhp, Hav. exact Hpass.
    + destruct (assignWeek_selects counts index week Hpass Hhp)
        as [front [p [back [c [_ [_ [_ [_ ->]]]]]]]]; [congruence | ].
      destruct Hpass as [Hdom Hwf]. simpl. split.
      * intros q Hq. rewrite lookup_insert_is_Some.
        destruct (Z.eq_dec (id p) (id q)); [now left | right; auto].
      * intros i. destruct (Z.eq_dec (id p) i) as [-> | N].
        -- rewrite lookup_total_insert_eq. right. exists index. reflexivity.
        -- rewrite lookup_total_insert_ne by exact N. apply Hwf.
Qed.

Lemma assignWeeks_pass weeks :
  forall counts index,
    pass_counts counts ->
    pass_counts
      (snd (assignWeeks LocalTZA people holidayList counts index weeks)).
Proof.
  induction weeks as [ | w weeks IH]; intros counts index Hpass; simpl; auto.
  pose proof (assignWeek_pass counts index w Hpass) as H1.
  destruct (assignWeek LocalTZA people holidayList counts index w)
    as [w' counts'].
  specialize (IH counts' (index + 1) H1).
  destruct (assignWeeks LocalTZA people holidayList counts' (index + 1) weeks)
    as [rest' counts'']. exact IH.
Qed.

(** The pass on a schedule in two parts. *)
Lemma assignWeeks_app pre post :
  forall counts index,
    assignWeeks LocalTZA people holidayList counts index (pre ++ post)
    = let '(pre', counts') :=
        assignWeeks LocalTZA people holidayList counts index pre in
      let '(post', counts'') :=
        assignWeeks LocalTZA people holidayList counts'
          (index + Z.of_nat (length pre)) post in
      (pre' ++ post', counts'').
Proof.
  induction pre as [ | w pre IH]; intros counts index.
  - simpl. rewrite Z.add_0_r.
    destruct (assignWeeks _ _ _ _ _ post); reflexivity.
  - simpl app. simpl assignWeeks.
    destruct (assignWeek LocalTZA people holidayList counts index w)
      as [w' counts'].
    rewrite IH.
    destruct (assignWeeks LocalTZA people holidayList counts' (index + 1) pre)
      as [pre' counts''].
    replace (index + 1 + Z.of_nat (length pre))
      with (index + Z.of_nat (length (w :: pre))) by (simpl length; lia).
    destruct (assignWeeks _ _ _ _ _ post); reflexivity.
Qed.

Lemma assignWeeks_length weeks :
  forall counts index,
    length (fst (assignWeeks LocalTZA people holidayList counts index weeks))
    = length weeks.
Proof.
  intros counts index.
  pose proof (assignWeeks_kept LocalTZA people holidayList weeks counts index)
    as K.
  symmetry. eapply Forall2_length, K.
Qed.

(** The counts of the pass after the weeks [pre]. *)
Definition countsAfter (pre : list Week) : HolidayCounts :=
  snd (assignWeeks LocalTZA people holidayList
         (initCounts people (Some NegInfinity)) 0 pre).

End AssignFacts.

Section AssignClaims.

(** C1. In the assignment pass, a week outside the holiday period for which
    somebody is available goes to the available person whose counts so far
    are least in the order total, holiday, last assignment; among equals the
    first in roster order wins.  That person's total is then incremented,
    the holiday count is incremented exactly when the week contains a
    holiday, and the last assignment becomes the position of the week. *)
Theorem assignPeopleToWeeks_selects_least
    (LocalTZA : Z) (people : list Person) (holidayList : list Holiday)
    (pre post : list Week) (week : Week) :
  isHolidayPeriod week = false ->
  availablePeople LocalTZA people week <> [] ->
  let counts := countsAfter LocalTZA people holidayList pre in
  let weekHasHoliday :=
    weekContainsHoliday LocalTZA (startDate week) (endDate week) holidayList in
  exists front p back c,
    availablePeople LocalTZA people week = front ++ p :: back
    /\ counts !! id p = Some c
    /\ (forall q, In q front -> key_lt c (counts !!! id q))
    /\ (forall q, In q back -> ~ key_lt (counts !!! id q) c)
    /\ fst (assignPeopleToWeeks LocalTZA people (pre ++ week :: post)
              holidayList) !! length pre
       = Some {| startDate := startDate week; endDate := endDate week;
                 assignedTo := PersonId (id p);
                 hasHoliday := weekHasHoliday;
                 isHolidayPeriod := isHolidayPeriod week;
                 notes := notes week |}
    /\ countsAfter LocalTZA people holidayList (pre ++ [week])
       = <[id p := {| total := total c + 1;
                      holiday := if weekHasHoliday then holiday c + 1
                                 else holiday c;
                      lastAssigned := Some (Finite (Z.of_nat (length pre))) |}]>
           counts.
Proof.
  intros Hhp Hne counts weekHasHoliday.
  assert (pass_counts people counts) as Hpass.
  { apply assignWeeks_pass, initCounts_pass. }
  destruct (assignWeek_selects LocalTZA people holidayList counts
              (Z.of_nat (length pre)) week Hpass Hhp Hne)
    as [front [p [back [c [Hl [Hc [Hf [Hb Hstep]]]]]]]].
  exists front, p, back, c.
  repeat (split; [assumption | ]).
  split.
  - unfold assignPeopleToWeeks. rewrite assignWeeks_app.
    pose proof (assignWeeks_length LocalTZA people holidayList pre
                  (initCounts people (Some NegInfinity)) 0) as Hlen.
    fold (countsAfter LocalTZA people holidayList pre).
    unfold counts in Hstep.
    unfold countsAfter in *.
    destruct (assignWeeks LocalTZA people holidayList
                (initCounts people (Some NegInfinity)) 0 pre)
      as [pre' counts'].
    simpl fst in Hlen. simpl snd in Hstep.
    simpl assignWeeks. rewrite Z.add_0_l, Hstep.
    destruct (assignWeeks LocalTZA people holidayList _ _ post)
      as [post' counts''].
    simpl fst. rewrite lookup_app_r by lia.
    rewrite Hlen, Nat.sub_diag. reflexivity.
  - unfold countsAfter at 1. rewrite assignWeeks_app.
    unfold counts in Hstep. unfold counts, countsAfter in *.
    destruct (assignWeeks LocalTZA people holidayList
                (initCounts people (Some NegInfinity)) 0 pre)
      as [pre' counts'].
    simpl snd in *. simpl assignWeeks. rewrite Z.add_0_l, Hstep. reflexivity.
Qed.

Definition example_week : Week :=
  {| startDate := Date_UTC (Some 2025) (Some 0) (Some 7);
     endDate := Date_UTC (Some 2025) (Some 0) (Some 13);
     assignedTo := Null; hasHoliday := false; isHolidayPeriod := false;
     notes := [] |}.

Definition example_people : list Person :=
  [ {| id := 1; name := lit "Person 1"; leave := [] |};
    {| id := 2; name := lit "Person 2"; leave := [] |} ].

Lemma assignPeopleToWeeks_selects_least_witness :
  let counts := countsAfter 0 example_people [] [] in
  let weekHasHoliday :=
    weekContainsHoliday 0 (startDate example_week) (endDate example_week) [] in
  exists front p back c,
    availablePeople 0 example_people example_week = front ++ p :: back
    /\ counts !! id p = Some c
    /\ (forall q, In q front -> key_lt c (counts !!! id q))
    /\ (forall q, In q back -> ~ key_lt (counts !!! id q) c)
    /\ fst (assignPeopleToWeeks 0 example_people ([] ++ example_week :: [])
              []) !! length (@nil Week)
       = Some {| startDate := startDate example_week;
                 endDate := endDate example_week;
                 assignedTo := PersonId (id p);
                 hasHoliday := weekHasHoliday;
                 isHolidayPeriod := isHolidayPeriod example_week;
                 notes := notes example_week |}
    /\ countsAfter 0 example_people [] ([] ++ [example_week])
       = <[id p := {| total := total c + 1;
                      holiday := if weekHasHoliday then holiday c + 1
                                 else holiday c;
                      lastAssigned :=
                        Some (Finite (Z.of_nat (length (@nil Week)))) |}]>
           counts.
Proof.
  apply (assignPeopleToWeeks_selects_least 0 example_people [] [] []
           example_week).
  - reflexivity.
  - vm_compute. discriminate.
Defined.

End AssignClaims.

(** ** Leave *)

(** A leave interval overlaps the span of a week: it starts on or before
    the end date and ends on or after the start date. *)
Definition leave_overlaps (l : Leave) (week : Week) : bool :=
  Date_leb (Date_parse (leave_start l ++ timeSuffix)) (endDate week)
  && Date_geb (Date_parse (leave_end l ++ timeSuffix)) (startDate week).

(** A roster with one person, on leave on 2025-01-13, and a host five hours
    west of UTC. *)
Definition leave_people : list Person :=
  [ {| id := 1; name := lit "Person 1";
       leave := [ {| leave_start := lit "2025-01-13";
                     leave_end := lit "2025-01-13" |} ] |} ].

Definition hoursWestOfUTC5 : Z := -18000000.

(** C2 (the code departs from it). Five hours west of UTC the schedule
    generated for 2025 (weeks from Tuesday) gives the week 2025-01-07 ..
    2025-01-13 to a person whose leave on 2025-01-13 overlaps it:
    [isPersonOnLeave] compares the leave with the local calendar dates of
    the week, which are a day early there. *)
Theorem assignPeopleToWeeks_assigns_person_on_leave :
  exists schedule counts w p l,
    generateSchedule hoursWestOfUTC5 leave_people 2025 0 2 60 []
    = Some (schedule, counts)
    /\ schedule !! O = Some w
    /\ formatDateYYYYMMDD (startDate w) = lit "2025-01-07"
    /\ formatDateYYYYMMDD (endDate w) = lit "2025-01-13"
    /\ In p leave_people
    /\ assignedTo w = PersonId (id p)
    /\ In l (leave p)
    /\ leave_overlaps l w = true
    /\ isPersonOnLeave hoursWestOfUTC5 leave_people (id p) (startDate w)
         (endDate w) = false.
Proof.
  eexists _, _, _, _, _.
  split; [vm_compute; reflexivity | ].
  split; [reflexivity | ].
  split; [vm_compute; reflexivity | ].
  split; [vm_compute; reflexivity | ].
  split; [left; reflexivity | ].
  split; [reflexivity | ].
  split; [left; reflexivity | ].
  split; vm_compute; reflexivity.
Qed.

(** ** The aggregate recount *)

Section RecountFacts.

Variable people : list Person.

(** The number of weeks assigned to person [i], and of those among them
    that contain a holiday. *)
Definition weeksAssigned (i : Z) (schedule : list Week) : Z :=
  Z.of_nat (length (List.filter
    (fun w => match assignedTo w with PersonId n => n =? i | _ => false end)
    schedule)).

Definition holidayWeeksAssigned (i : Z) (schedule : list Week) : Z :=
  Z.of_nat (length (List.filter
    (fun w => match assignedTo w with
              | PersonId n => (n =? i) && hasHoliday w
              | _ => false
              end)
    schedule)).

Definition recountStep (counts : HolidayCounts) (week : Week) : HolidayCounts :=
  match assignedTo week with
  | PersonId personId =>
      match counts !! personId with
      | Some c =>
          <[personId := {| total := total c + 1;
                           holiday := if hasHoliday week then holiday c + 1
                                      else holiday c;
                           lastAssigned := lastAssigned c |}]> counts
      | None => counts
      end
  | _ => counts
  end.

Lemma recount_fold schedule :
  forall (counts : HolidayCounts) i,
    fold_left recountStep schedule counts !! i
    = match counts !! i with
      | Some c =>
          Some {| total := total c + weeksAssigned i schedule;
                  holiday := holiday c + holidayWeeksAssigned i schedule;
                  lastAssigned := lastAssigned c |}
      | None => None
      end.
Proof.
  induction schedule as [ | w schedule IH]; intros counts i.
  - simpl. destruct (counts !! i) as [[t h l] | ]; [ | reflexivity].
    unfold weeksAssigned, holidayWeeksAssigned. simpl.
    now rewrite !Z.add_0_r.
  - simpl fold_left. rewrite IH.
    unfold recountStep, weeksAssigned, holidayWeeksAssigned. simpl List.filter.
    destruct (assignedTo w) as [n | s | ].
    + destruct (Z.eqb_spec n i) as [-> | N].
      * destruct (counts !! i) as [c | ] eqn:Hc; [ | now rewrite Hc].
        rewrite lookup_insert_eq. simpl.
        destruct (hasHoliday w); simpl length; f_equal; f_equal; lia.
      * destruct (counts !! n) as [c | ] eqn:Hc;
          [rewrite lookup_insert_ne by exact N | ]; reflexivity.
    + reflexivity.
    + reflexivity.
Qed.

(** The recount gives every roster member the number of weeks assigned to
    them and the number of those that contain a holiday. *)
Lemma recalculateAssignments_lookup schedule i :
  recalculateAssignments people schedule !! i
  = if existsb (fun p => id p =? i) people
    then Some {| total := weeksAssigned i schedule;
                 holiday := holidayWeeksAssigned i schedule;
                 lastAssigned := None |}
    else None.
Proof.
  unfold recalculateAssignments.
  change (fold_left _ schedule (initCounts people None))
    with (fold_left recountStep schedule (initCounts people None)).
  rewrite recount_fold, initCounts_lookup.
  destruct (existsb _ people); reflexivity.
Qed.

End RecountFacts.

(** C6. The recount derives the counts from the assignments alone: every
    roster member gets the number of weeks assigned to them and the number
    of those with the holiday flag set; it changes nothing else in the state,
    the schedule in particular; running it twice gives the state of running
    it once. *)
Theorem recalculateAssignments_idempotent (st : State) :
  runRecalculateAssignments (runRecalculateAssignments st)
  = runRecalculateAssignments st
  /\ schedule (runRecalculateAssignments st) = schedule st
  /\ people (runRecalculateAssignments st) = people st
  /\ holidayCounts (runRecalculateAssignments st)
     = recalculateAssignments (people st) (schedule st)
  /\ forall i,
       holidayCounts (runRecalculateAssignments st) !! i
       = if existsb (fun p => id p =? i) (people st)
         then Some {| total := weeksAssigned i (schedule st);
                      holiday := holidayWeeksAssigned i (schedule st);
                      lastAssigned := None |}
         else None.
Proof.
  repeat split; try reflexivity.
  intros i. apply recalculateAssignments_lookup.
Qed.

(** ** CSV import *)

Section ImportFacts.

Variables (LocalTZA : Z) (st : State).

Lemma str_eqb_eq (a b : str) : str_eqb a b = true <-> a = b.
Proof. unfold str_eqb. apply bool_decide_eq_true. Qed.

Lemma str_eqb_neq (a b : str) : str_eqb a b = false <-> a <> b.
Proof. unfold str_eqb. apply bool_decide_eq_false. Qed.

(** The lines of the file that are not blank: the header line and the data
    lines. *)
Definition csvLines (csvContent : str) : list str :=
  List.filter (fun line => negb (str_eqb (trim line) []))
              (splitLines csvContent).

(** The cells of the header line, as the import compares them. *)
Definition headerCells (headerLine : str) : list str :=
  map trim (split comma headerLine).

(** The column of a header in a file with the expected headers. *)
Definition headerIndex (header : str) : nat :=
  match indexOf header CSV_HEADERS with
  | Some index => index
  | None => O
  end.

Definition emptyFileError : str := lit "File is empty or could not be read.".
Definition noDataRowError : str :=
  lit "CSV file must contain headers and at least one data row.".
Definition headerError : str :=
  lit "Invalid CSV headers. Expected: " ++ join (lit ", ") CSV_HEADERS.
Definition noValidRowError : str :=
  lit "No valid schedule data could be imported from the CSV.".

Lemma header_check (headers : list str) :
  negb (length headers =? length CSV_HEADERS)%nat
  || negb (forallb (fun '(h, h') => str_eqb h' h) (combine CSV_HEADERS headers))
  = false
  <-> headers = CSV_HEADERS.
Proof.
  split.
  - intros H. apply orb_false_elim in H. destruct H as [Hlen Hall].
    apply negb_false_iff in Hlen, Hall. apply Nat.eqb_eq in Hlen.
    destruct headers as [ | h1 [ | h2 [ | h3 [ | h4 [ | h5 [ | h6 l]]]]]];
      try discriminate.
    simpl in Hall. rewrite !andb_true_iff, !str_eqb_eq in Hall.
    destruct Hall as [-> [-> [-> [-> [-> _]]]]]. reflexivity.
  - intros ->. vm_compute. reflexivity.
Qed.

(** The outcome of the [try] block, case by case. *)
Lemma parseScheduleCSV_empty :
  parseScheduleCSV LocalTZA st [] = (inl emptyFileError, []).
Proof. reflexivity. Qed.

Lemma parseScheduleCSV_no_data csvContent :
  (length (csvLines csvContent) < 2)%nat ->
  exists message,
    parseScheduleCSV LocalTZA st csvContent = (inl message, [])
    /\ (message = emptyFileError \/ message = noDataRowError).
Proof.
  intros Hlen. destruct csvContent as [ | c csv].
  - exists emptyFileError. split; [reflexivity | now left].
  - exists noDataRowError. split; [ | now right].
    unfold parseScheduleCSV. fold (csvLines (c :: csv)).
    destruct (csvLines (c :: csv)) as [ | h [ | d l]]; try reflexivity.
    simpl in Hlen. lia.
Qed.

Lemma parseScheduleCSV_bad_header csvContent headerLine dataLines :
  csvLines csvContent = headerLine :: dataLines ->
  (2 <= length (csvLines csvContent))%nat ->
  headerCells headerLine <> CSV_HEADERS ->
  parseScheduleCSV LocalTZA st csvContent = (inl headerError, []).
Proof.
  intros Hlines Hlen Hbad.
  destruct csvContent as [ | c csv]; [discriminate | ].
  unfold parseScheduleCSV. fold (csvLines (c :: csv)).
  rewrite Hlines in *. destruct dataLines as [ | d l]; [simpl in Hlen; lia | ].
  cbv zeta. fold (headerCells headerLine).
  destruct (negb (length (headerCells headerLine) =? length CSV_HEADERS)%nat
            || negb (forallb (fun '(h, h') => str_eqb h' h)
                       (combine CSV_HEADERS (headerCells headerLine)))) eqn:E.
  - reflexivity.
  - apply header_check in E. contradiction.
Qed.

Lemma parseScheduleCSV_rows csvContent headerLine dataLines :
  csvLines csvContent = headerLine :: dataLines ->
  dataLines <> [] ->
  headerCells headerLine = CSV_HEADERS ->
  parseScheduleCSV LocalTZA st csvContent
  = (match fst (importRows LocalTZA st headerIndex O dataLines) with
     | [] => inl noValidRowError
     | importedSchedule => inr importedSchedule
     end,
     snd (importRows LocalTZA st headerIndex O dataLines)).
Proof.
  intros Hlines Hne Hhdr.
  destruct csvContent as [ | c csv]; [discriminate | ].
  unfold parseScheduleCSV. fold (csvLines (c :: csv)).
  rewrite Hlines. destruct dataLines as [ | d l]; [congruence | ].
  cbv zeta. fold (headerCells headerLine). rewrite Hhdr.
  replace (negb (length CSV_HEADERS =? length CSV_HEADERS)%nat
           || negb (forallb (fun '(h, h') => str_eqb h' h)
                      (combine CSV_HEADERS CSV_HEADERS)))
    with false by (vm_compute; reflexivity).
  replace (List.find _ CSV_HEADERS) with (@None str)
    by (vm_compute; reflexivity).
  fold headerIndex.
  destruct (importRows LocalTZA st headerIndex 0 (d :: l)) as [imported warnings].
  simpl. destruct imported; reflexivity.
Qed.

(** The week of a row does not depend on the number of the row. *)
Lemma importRow_week colIndices i j line :
  fst (importRow LocalTZA st colIndices i line)
  = fst (importRow LocalTZA st colIndices j line).
Proof.
  unfold importRow. cbv zeta.
  destruct (negb _); [reflexivity | ].
  destruct (_ || _); [reflexivity | ].
  destruct (getPersonIdFromName st _). reflexivity.
Qed.

(** The imported schedule holds the weeks of the rows that are retained, in
    the order of the rows. *)
Lemma importRows_weeks colIndices dataLines :
  forall i,
    fst (importRows LocalTZA st colIndices i dataLines)
    = omap (fun line => fst (importRow LocalTZA st colIndices O line))
           dataLines.
Proof.
  induction dataLines as [ | line rest IH]; intros i; [reflexivity | ].
  simpl importRows. rewrite (surjective_pairing (importRow _ _ _ i line)).
  rewrite (surjective_pairing (importRows _ _ _ (S i) rest)).
  rewrite IH, (importRow_week colIndices i O). simpl.
  destruct (fst (importRow LocalTZA st colIndices 0 line)); reflexivity.
Qed.

(** Every warning of a row is among the warnings of the import. *)
Lemma importRows_warnings colIndices dataLines :
  forall i j line warning,
    dataLines !! j = Some line ->
    In warning (snd (importRow LocalTZA st colIndices (i + j) line)) ->
    In warning (snd (importRows LocalTZA st colIndices i dataLines)).
Proof.
  induction dataLines as [ | l rest IH]; intros i j line warning Hj Hin;
    [discriminate | ].
  simpl importRows. rewrite (surjective_pairing (importRow _ _ _ i l)).
  rewrite (surjective_pairing (importRows _ _ _ (S i) rest)). simpl.
  apply in_or_app. destruct j as [ | j].
  - left. simpl in Hj. injection Hj as ->. now rewrite Nat.add_0_r in Hin.
  - right. simpl in Hj. apply (IH (S i) j line); [exact Hj | ].
    now replace (S i + j)%nat with (i + S j)%nat by lia.
Qed.

End ImportFacts.

Section ImportRowFacts.

Variables (LocalTZA : Z) (st : State).

(** What the import makes of a row of five values. *)
Lemma importRow_values i line s e a h n :
  parseLine line = [s; e; a; h; n] ->
  importRow LocalTZA st headerIndex i line
  = let startDate := Date_parse (s ++ timeSuffix) in
    let endDate := Date_parse (e ++ timeSuffix) in
    if isNaN (getTime startDate) || isNaN (getTime endDate)
    then (None, [InvalidDateFormat (i + 1) s e])
    else
      let isHolidayPeriod :=
        isWeekInHolidayPeriod startDate endDate (getUTCFullYear startDate) in
      (Some {| startDate := startDate;
               endDate := endDate;
               assignedTo := if isHolidayPeriod then Status HolidayPeriod
                             else fst (getPersonIdFromName st a);
               hasHoliday :=
                 weekContainsHoliday LocalTZA startDate endDate (holidays st);
               isHolidayPeriod := isHolidayPeriod;
               notes := n |},
       snd (getPersonIdFromName st a)).
Proof.
  intros Hv. unfold importRow. rewrite Hv. cbv zeta.
  change (negb (length [s; e; a; h; n] =? length CSV_HEADERS)%nat) with false.
  cbv iota.
  change (headerIndex (lit "Week Start Date")) with 0%nat.
  change (headerIndex (lit "Week End Date")) with 1%nat.
  change (headerIndex (lit "Assigned To")) with 2%nat.
  change (headerIndex (lit "Notes")) with 4%nat.
  simpl nth.
  destruct (_ || _); [reflexivity | ].
  destruct (getPersonIdFromName st a). reflexivity.
Qed.

Lemma five_values (values : list str) :
  length values = 5%nat ->
  exists s e a h n, values = [s; e; a; h; n].
Proof.
  destruct values as [ | s [ | e [ | a [ | h [ | n [ | x l]]]]]];
    try discriminate.
  intros _. eauto 6.
Qed.

(** The weeks of the rows that the import retains. *)
Definition retainedWeeks (dataLines : list str) : list Week :=
  omap (fun line => fst (importRow LocalTZA st headerIndex O line)) dataLines.

(** A retained week carries the holiday-period flag recomputed from its
    dates, and the status Holiday Period when the flag is set. *)
Lemma importRow_holiday_period i line w :
  fst (importRow LocalTZA st headerIndex i line) = Some w ->
  isHolidayPeriod w
  = isWeekInHolidayPeriod (startDate w) (endDate w)
      (getUTCFullYear (startDate w))
  /\ (isHolidayPeriod w = true -> assignedTo w = Status HolidayPeriod).
Proof.
  destruct (Nat.eq_dec (length (parseLine line)) 5%nat) as [E | N].
  - destruct (five_values _ E) as [s [e [a [h [n Hv]]]]].
    rewrite (importRow_values i line s e a h n Hv). cbv zeta.
    destruct (_ || _); [discriminate | ].
    simpl fst. intros [= <-]. simpl. split; [reflexivity | ].
    intros ->. reflexivity.
  - unfold importRow. cbv zeta.
    replace (length (parseLine line) =? length CSV_HEADERS)%nat with false
      by (symmetry; apply Nat.eqb_neq; exact N).
    discriminate.
Qed.

Lemma parseScheduleCSV_retained csvContent headerLine dataLines :
  csvLines csvContent = headerLine :: dataLines ->
  dataLines <> [] ->
  headerCells headerLine = CSV_HEADERS ->
  parseScheduleCSV LocalTZA st csvContent
  = (match retainedWeeks dataLines with
     | [] => inl noValidRowError
     | importedSchedule => inr importedSchedule
     end,
     snd (importRows LocalTZA st headerIndex O dataLines)).
Proof.
  intros Hlines Hne Hhdr.
  rewrite (parseScheduleCSV_rows LocalTZA st csvContent headerLine dataLines
             Hlines Hne Hhdr).
  now rewrite importRows_weeks.
Qed.

(** A successful parse: the header is the expected one, and the imported
    schedule holds the weeks of the retained rows. *)
Lemma parseScheduleCSV_inr csvContent importedSchedule :
  fst (parseScheduleCSV LocalTZA st csvContent) = inr importedSchedule ->
  exists headerLine dataLines,
    csvLines csvContent = headerLine :: dataLines
    /\ headerCells headerLine = CSV_HEADERS
    /\ importedSchedule = retainedWeeks dataLines
    /\ importedSchedule <> [].
Proof.
  intros H.
  destruct (csvLines csvContent) as [ | headerLine dataLines] eqn:Hlines.
  - destruct (parseScheduleCSV_no_data LocalTZA st csvContent)
      as [m [Hm _]]; [rewrite Hlines; simpl; lia | ].
    rewrite Hm in H. discriminate.
  - destruct dataLines as [ | d l].
    + destruct (parseScheduleCSV_no_data LocalTZA st csvContent)
        as [m [Hm _]]; [rewrite Hlines; simpl; lia | ].
      rewrite Hm in H. discriminate.
    + destruct (list_eq_dec (headerCells headerLine) CSV_HEADERS) as [E | N].
      * rewrite (parseScheduleCSV_retained csvContent headerLine
                   (d :: l) Hlines ltac:(discriminate) E) in H.
        exists headerLine, (d :: l).
        destruct (retainedWeeks (d :: l)) eqn:R; cbn [fst] in H;
          [discriminate | ].
        injection H as <-. repeat split; auto; discriminate.
      * rewrite (parseScheduleCSV_bad_header LocalTZA st csvContent headerLine
                   (d :: l) Hlines ltac:(rewrite Hlines; simpl; lia) N) in H.
        discriminate.
Qed.

Lemma retainedWeeks_In dataLines w :
  In w (retainedWeeks dataLines) ->
  exists line, In line dataLines
               /\ fst (importRow LocalTZA st headerIndex O line) = Some w.
Proof.
  unfold retainedWeeks. intros H.
  apply list_elem_of_In, list_elem_of_omap in H.
  destruct H as [line [Hl Hw]]. exists line. split; [ | exact Hw].
  now apply list_elem_of_In.
Qed.

End ImportRowFacts.

(** A state to run the examples in: the roster the component starts with
    and no schedule. *)
Definition example_state : State :=
  {| appTitle := lit "Duty Rotation Scheduler";
     isEditingTitle := false;
     tempTitle := lit "Duty Rotation Scheduler";
     year := 2025; startDayOfWeek := 2; startMonth := 0;
     people := [ {| id := 1; name := lit "Person 1"; leave := [] |};
                 {| id := 2; name := lit "Person 2"; leave := [] |};
                 {| id := 3; name := lit "Person 3"; leave := [] |} ];
     newPersonName := [];
     schedule := [];
     holidays := [];
     holidayCounts := ∅;
     leaveDate := []; leaveEndDate := [];
     selectedPersonIdForLeave := None;
     showLeaveForm := false; showNotesModal := false;
     currentWeekIndexForNotes := None; currentNotes := [] |}.

Section ImportClaims.

(** C7, as the code has it. An import fails as a whole, with an error
    message and the state left as it was, when the file is empty, when it
    has fewer than two lines that are not blank, when the cells of the header
    line, trimmed, are not exactly the five expected names in their order,
    or when every data row is skipped. *)
Theorem importScheduleCSV_fails_atomically
    (LocalTZA : Z) (st : State) (csvContent : str) :
  csvContent = []
  \/ (length (csvLines csvContent) < 2)%nat
  \/ (exists headerLine dataLines,
        csvLines csvContent = headerLine :: dataLines
        /\ headerCells headerLine <> CSV_HEADERS)
  \/ (exists headerLine dataLines,
        csvLines csvContent = headerLine :: dataLines
        /\ forall line, In line dataLines ->
             fst (importRow LocalTZA st headerIndex O line) = None) ->
  exists message,
    fst (parseScheduleCSV LocalTZA st csvContent) = inl message
    /\ In message [emptyFileError; noDataRowError; headerError; noValidRowError]
    /\ nextState (importScheduleCSV LocalTZA st csvContent) = st
    /\ alertMessage (importScheduleCSV LocalTZA st csvContent)
       = lit "Error importing schedule from CSV: " ++ message
         ++ lit ". Please check file format and headers.".
Proof.
  intros H.
  assert (exists message,
            fst (parseScheduleCSV LocalTZA st csvContent) = inl message
            /\ In message
                 [emptyFileError; noDataRowError; headerError; noValidRowError])
    as [message [Hm Hin]].
  { assert (forall csv, (length (csvLines csv) < 2)%nat ->
              exists message,
                fst (parseScheduleCSV LocalTZA st csv) = inl message
                /\ In message [emptyFileError; noDataRowError; headerError;
                               noValidRowError]) as Short.
    { intros csv Hlen.
      destruct (parseScheduleCSV_no_data LocalTZA st csv Hlen)
        as [m [Hm [-> | ->]]]; rewrite Hm; eexists; (split; [reflexivity | ]);
        simpl; auto. }
    assert (forall headerLine dataLines,
              csvLines csvContent = headerLine :: dataLines ->
              headerCells headerLine <> CSV_HEADERS ->
              exists message,
                fst (parseScheduleCSV LocalTZA st csvContent) = inl message
                /\ In message [emptyFileError; noDataRowError; headerError;
                               noValidRowError]) as Header.
    { intros headerLine dataLines Hlines Hbad.
      destruct dataLines as [ | d l].
      - apply Short. rewrite Hlines. simpl. lia.
      - rewrite (parseScheduleCSV_bad_header LocalTZA st csvContent headerLine
                   (d :: l) Hlines ltac:(rewrite Hlines; simpl; lia) Hbad).
        eexists; split; [reflexivity | simpl; auto]. }
    destruct H as [-> | [Hlen | [[headerLine [dataLines [Hlines Hbad]]]
                                | [headerLine [dataLines [Hlines Hskip]]]]]].
    - exists emptyFileError. split; [reflexivity | simpl; auto].
    - apply Short, Hlen.
    - eapply Header; eauto.
    - destruct dataLines as [ | d l].
      + apply Short. rewrite Hlines. simpl. lia.
      + destruct (list_eq_dec (headerCells headerLine) CSV_HEADERS) as [E | N];
          [ | eapply Header; eauto].
        rewrite (parseScheduleCSV_retained LocalTZA st csvContent headerLine
                   (d :: l) Hlines ltac:(discriminate) E).
        assert (retainedWeeks LocalTZA st (d :: l) = []) as ->.
        { unfold retainedWeeks. generalize (d :: l) Hskip. intros lines Hs.
          induction lines as [ | x lines IH]; [reflexivity | ].
          simpl. rewrite (Hs x (or_introl eq_refl)). apply IH.
          intros line Hl. apply Hs. now right. }
        exists noValidRowError. split; [reflexivity | simpl; auto]. }
  exists message. split; [exact Hm | split; [exact Hin | ] ].
  unfold importScheduleCSV.
  destruct (parseScheduleCSV LocalTZA st csvContent) as [[m | imported] warnings];
    simpl in Hm; [ | discriminate].
  injection Hm as ->. split; reflexivity.
Qed.

Lemma importScheduleCSV_fails_atomically_witness :
  exists message,
    fst (parseScheduleCSV 0 example_state []) = inl message
    /\ In message [emptyFileError; noDataRowError; headerError; noValidRowError]
    /\ nextState (importScheduleCSV 0 example_state []) = example_state
    /\ alertMessage (importScheduleCSV 0 example_state [])
       = lit "Error importing schedule from CSV: " ++ message
         ++ lit ". Please check file format and headers.".
Proof.
  apply (importScheduleCSV_fails_atomically 0 example_state []).
  left. reflexivity.
Defined.

(** A file whose header line pads two of the names with spaces, followed by
    one data row. *)
Definition padded_header_csv : str :=
  lit " Week Start Date , Week End Date,Assigned To,Holidays,Notes"
  ++ [LF] ++ lit "2025-01-07,2025-01-13,Person 2,,".

(** C7 as stated fails: a header line that is not exactly the five names
    (two of them are padded with spaces) is accepted, and the import replaces
    the schedule. *)
Lemma importScheduleCSV_accepts_padded_header :
  exists headerLine dataLines w,
    csvLines padded_header_csv = headerLine :: dataLines
    /\ headerLine <> join [comma] CSV_HEADERS
    /\ split comma headerLine <> CSV_HEADERS
    /\ fst (parseScheduleCSV 0 example_state padded_header_csv) = inr [w]
    /\ assignedTo w = PersonId 2
    /\ schedule (nextState (importScheduleCSV 0 example_state padded_header_csv))
       = [w]
    /\ nextState (importScheduleCSV 0 example_state padded_header_csv)
       <> example_state.
Proof.
  eexists _, _, _.
  split; [vm_compute; reflexivity | ].
  split; [vm_compute; discriminate | ].
  split; [vm_compute; discriminate | ].
  split; [vm_compute; reflexivity | ].
  split; [reflexivity | ].
  split; [vm_compute; reflexivity | ].
  vm_compute. discriminate.
Qed.

(** C8. In a file with the expected header, a data row that does not parse
    into five values, or whose start or end date does not parse, is skipped
    with a warning that names the row; the imported schedule holds the weeks
    of the other rows, in order, and the import succeeds as soon as one row
    is retained. *)
Theorem importScheduleCSV_skips_bad_rows
    (LocalTZA : Z) (st : State) (csvContent headerLine : str)
    (dataLines : list str) :
  csvLines csvContent = headerLine :: dataLines ->
  headerCells headerLine = CSV_HEADERS ->
  let outcome := importScheduleCSV LocalTZA st csvContent in
  let week line := fst (importRow LocalTZA st headerIndex O line) in
  (forall i line,
     dataLines !! i = Some line ->
     length (parseLine line) <> 5%nat ->
     week line = None
     /\ In (IncorrectColumns (i + 1) (length (parseLine line)) line)
           (consoleWarnings outcome))
  /\ (forall i line s e a h n,
        dataLines !! i = Some line ->
        parseLine line = [s; e; a; h; n] ->
        Date_parse (s ++ timeSuffix) = None
        \/ Date_parse (e ++ timeSuffix) = None ->
        week line = None
        /\ In (InvalidDateFormat (i + 1) s e) (consoleWarnings outcome))
  /\ (forall pre bad post,
        dataLines = pre ++ bad :: post ->
        week bad = None ->
        retainedWeeks LocalTZA st dataLines
        = retainedWeeks LocalTZA st pre ++ retainedWeeks LocalTZA st post)
  /\ (retainedWeeks LocalTZA st dataLines <> [] ->
      fst (parseScheduleCSV LocalTZA st csvContent)
      = inr (retainedWeeks LocalTZA st dataLines)
      /\ schedule (nextState outcome) = retainedWeeks LocalTZA st dataLines).
Proof.
  intros Hlines Hhdr outcome week.
  assert (dataLines <> [] ->
          parseScheduleCSV LocalTZA st csvContent
          = (match retainedWeeks LocalTZA st dataLines with
             | [] => inl noValidRowError
             | importedSchedule => inr importedSchedule
             end,
             snd (importRows LocalTZA st headerIndex O dataLines))) as Hparse.
  { intros Hne. now apply parseScheduleCSV_retained with headerLine. }
  assert (forall i line warning,
            dataLines !! i = Some line ->
            In warning (snd (importRow LocalTZA st headerIndex i line)) ->
            In warning (consoleWarnings outcome)) as Hwarn.
  { intros i line warning Hi Hin.
    assert (dataLines <> []) as Hne by (intros ->; discriminate).
    unfold outcome, importScheduleCSV. rewrite (Hparse Hne).
    assert (In warning (snd (importRows LocalTZA st headerIndex O dataLines)))
      as Hw by (eapply (importRows_warnings _ _ _ _ O i); eauto).
    destruct (retainedWeeks LocalTZA st dataLines); exact Hw. }
  split; [ | split; [ | split] ].
  - intros i line Hi Hlen.
    assert (forall j, importRow LocalTZA st headerIndex j line
                      = (None, [IncorrectColumns (j + 1)
                                  (length (parseLine line)) line])) as Hrow.
    { intros j. unfold importRow. cbv zeta.
      replace (length (parseLine line) =? length CSV_HEADERS)%nat with false
        by (symmetry; apply Nat.eqb_neq; exact Hlen).
      reflexivity. }
    split; [unfold week; now rewrite Hrow | ].
    apply (Hwarn i line); [exact Hi | ]. rewrite Hrow. now left.
  - intros i line s e a h n Hi Hv Hbad.
    assert (forall j, importRow LocalTZA st headerIndex j line
                      = (None, [InvalidDateFormat (j + 1) s e])) as Hrow.
    { intros j. rewrite (importRow_values LocalTZA st j line s e a h n Hv).
      cbv zeta. destruct Hbad as [-> | ->]; simpl;
        [reflexivity | now rewrite orb_true_r]. }
    split; [unfold week; now rewrite Hrow | ].
    apply (Hwarn i line); [exact Hi | ]. rewrite Hrow. now left.
  - intros pre bad post -> Hbad. unfold retainedWeeks.
    rewrite omap_app. simpl. unfold week in Hbad. now rewrite Hbad.
  - intros Hret.
    assert (dataLines <> []) as Hne by (intros ->; apply Hret; reflexivity).
    unfold outcome, importScheduleCSV. rewrite (Hparse Hne).
    destruct (retainedWeeks LocalTZA st dataLines) eqn:R; [congruence | ].
    split; reflexivity.
Qed.

(** A file with a row of four values, a row with an invalid date and a
    valid row. *)
Definition bad_rows_csv : str :=
  lit "Week Start Date,Week End Date,Assigned To,Holidays,Notes"
  ++ [LF] ++ lit "2025-01-07,2025-01-13,Person 1,"
  ++ [LF] ++ lit "2025-01-14,someday,Person 1,,"
  ++ [LF] ++ lit "2025-01-21,2025-01-27,Person 2,,".

Lemma importScheduleCSV_skips_bad_rows_witness :
  let dataLines := [lit "2025-01-07,2025-01-13,Person 1,";
                    lit "2025-01-14,someday,Person 1,,";
                    lit "2025-01-21,2025-01-27,Person 2,,"] in
  let outcome := importScheduleCSV 0 example_state bad_rows_csv in
  let week line := fst (importRow 0 example_state headerIndex O line) in
  (forall i line,
     dataLines !! i = Some line ->
     length (parseLine line) <> 5%nat ->
     week line = None
     /\ In (IncorrectColumns (i + 1) (length (parseLine line)) line)
           (consoleWarnings outcome))
  /\ (forall i line s e a h n,
        dataLines !! i = Some line ->
        parseLine line = [s; e; a; h; n] ->
        Date_parse (s ++ timeSuffix) = None
        \/ Date_parse (e ++ timeSuffix) = None ->
        week line = None
        /\ In (InvalidDateFormat (i + 1) s e) (consoleWarnings outcome))
  /\ (forall pre bad post,
        dataLines = pre ++ bad :: post ->
        week bad = None ->
        retainedWeeks 0 example_state dataLines
        = retainedWeeks 0 example_state pre
          ++ retainedWeeks 0 example_state post)
  /\ (retainedWeeks 0 example_state dataLines <> [] ->
      fst (parseScheduleCSV 0 example_state bad_rows_csv)
      = inr (retainedWeeks 0 example_state dataLines)
      /\ schedule (nextState outcome) = retainedWeeks 0 example_state dataLines).
Proof.
  apply (importScheduleCSV_skips_bad_rows 0 example_state bad_rows_csv
           (lit "Week Start Date,Week End Date,Assigned To,Holidays,Notes"));
    vm_compute; reflexivity.
Defined.

(** C10. Every week of an imported schedule carries the holiday-period flag
    recomputed from its dates and the year of its start date, and when the
    span overlaps that holiday period the assignment is the status Holiday
    Period, whatever the row named. *)
Theorem importScheduleCSV_forces_holiday_period
    (LocalTZA : Z) (st : State) (csvContent : str)
    (importedSchedule : list Week) :
  fst (parseScheduleCSV LocalTZA st csvContent) = inr importedSchedule ->
  schedule (nextState (importScheduleCSV LocalTZA st csvContent))
  = importedSchedule
  /\ forall w,
       In w importedSchedule ->
       isHolidayPeriod w
       = isWeekInHolidayPeriod (startDate w) (endDate w)
           (getUTCFullYear (startDate w))
       /\ (forall pstart pend,
             getHolidayPeriod (getUTCFullYear (startDate w))
             = Some (pstart, pend) ->
             Date_leb (startDate w) pend = true ->
             Date_geb (endDate w) pstart = true ->
             assignedTo w = Status HolidayPeriod).
Proof.
  intros Hparse. split.
  - unfold importScheduleCSV.
    destruct (parseScheduleCSV LocalTZA st csvContent) as [[m | imported] ws];
      simpl in Hparse; [discriminate | ].
    injection Hparse as ->. reflexivity.
  - intros w Hin.
    destruct (parseScheduleCSV_inr LocalTZA st csvContent importedSchedule
                Hparse) as [headerLine [dataLines [_ [_ [-> _]]]]].
    destruct (retainedWeeks_In LocalTZA st dataLines w Hin) as [line [_ Hw]].
    destruct (importRow_holiday_period LocalTZA st O line w Hw) as [Hflag Hst].
    split; [exact Hflag | ].
    intros pstart pend Hper Hle Hge. apply Hst. rewrite Hflag.
    unfold isWeekInHolidayPeriod. rewrite Hper, Hle, Hge. reflexivity.
Qed.

(** A file whose only row names Person 1 for a week of the holiday
    period. *)
Definition holiday_row_csv : str :=
  lit "Week Start Date,Week End Date,Assigned To,Holidays,Notes"
  ++ [LF] ++ lit "2025-12-23,2025-12-29,Person 1,,".

Definition holiday_row_week : Week :=
  {| startDate := Date_UTC (Some 2025) (Some 11) (Some 23);
     endDate := Date_UTC (Some 2025) (Some 11) (Some 29);
     assignedTo := Status HolidayPeriod;
     hasHoliday := false; isHolidayPeriod := true; notes := [] |}.

Lemma importScheduleCSV_forces_holiday_period_witness :
  schedule (nextState (importScheduleCSV 0 example_state holiday_row_csv))
  = [holiday_row_week]
  /\ forall w,
       In w [holiday_row_week] ->
       isHolidayPeriod w
       = isWeekInHolidayPeriod (startDate w) (endDate w)
           (getUTCFullYear (startDate w))
       /\ (forall pstart pend,
             getHolidayPeriod (getUTCFullYear (startDate w))
             = Some (pstart, pend) ->
             Date_leb (startDate w) pend = true ->
             Date_geb (endDate w) pstart = true ->
             assignedTo w = Status HolidayPeriod).
Proof.
  apply (importScheduleCSV_forces_holiday_period 0 example_state
           holiday_row_csv [holiday_row_week]).
  vm_compute. reflexivity.
Defined.

End ImportClaims.

(** ** Strings of the CSV codec *)

Section StringFacts.

Lemma char_eqb_eq a b : char_eqb a b = true <-> a = b.
Proof. apply Ascii.eqb_eq. Qed.

Lemma char_eqb_neq a b : char_eqb a b = false <-> a <> b.
Proof. apply Ascii.eqb_neq. Qed.

Lemma char_eqb_refl a : char_eqb a a = true.
Proof. now apply char_eqb_eq. Qed.

Lemma includes_false s c : includes s c = false <-> ~ In c s.
Proof.
  unfold includes. split.
  - intros H Hin. assert (existsb (char_eqb c) s = true) as E.
    { apply existsb_exists. exists c. split; [exact Hin | apply char_eqb_refl]. }
    congruence.
  - intros H. destruct (existsb (char_eqb c) s) eqn:E; [ | reflexivity].
    apply existsb_exists in E. destruct E as [x [Hin Hx]].
    apply char_eqb_eq in Hx. subst x. contradiction.
Qed.

Lemma includes_true s c : includes s c = true <-> In c s.
Proof.
  unfold includes. rewrite existsb_exists. split.
  - intros [x [Hin Hx]]. apply char_eqb_eq in Hx. now subst x.
  - intros Hin. exists c. split; [exact Hin | apply char_eqb_refl].
Qed.

(** The string without its double quotes. *)
Definition dropQuotes (s : str) : str :=
  List.filter (fun c => negb (char_eqb c quote)) s.

Lemma dropQuotes_id s : ~ In quote s -> dropQuotes s = s.
Proof.
  unfold dropQuotes. induction s as [ | c s IH]; intros H; [reflexivity | ].
  simpl. destruct (char_eqb c quote) eqn:E.
  - apply char_eqb_eq in E. subst c. exfalso. apply H. now left.
  - simpl. f_equal. apply IH. intros Hin. apply H. now right.
Qed.

Lemma dropQuotes_no_quote s : ~ In quote (dropQuotes s).
Proof.
  unfold dropQuotes. rewrite filter_In. intros [_ H].
  now rewrite char_eqb_refl in H.
Qed.

Lemma dropQuotes_app a b : dropQuotes (a ++ b) = dropQuotes a ++ dropQuotes b.
Proof. unfold dropQuotes. apply List.filter_app. Qed.

(** [trim] *)

Lemma trimStart_head s c r : trimStart s = c :: r -> isSpace c = false.
Proof.
  induction s as [ | x s IH]; simpl; [discriminate | ].
  destruct (isSpace x) eqn:E; [exact IH | ].
  intros [= <- _]. exact E.
Qed.

Lemma trimStart_id s :
  match s with c :: _ => isSpace c = false | [] => True end ->
  trimStart s = s.
Proof. destruct s as [ | c s]; simpl; [reflexivity | ]. now intros ->. Qed.

Lemma trimStart_suffix s : exists front, s = front ++ trimStart s.
Proof.
  induction s as [ | c s [front IH]]; [now exists [] | ].
  simpl. destruct (isSpace c).
  - exists (c :: front). simpl. now f_equal.
  - now exists [].
Qed.

Lemma trimStart_In s c : In c (trimStart s) -> In c s.
Proof.
  destruct (trimStart_suffix s) as [front E]. intros H.
  rewrite E. apply in_or_app. now right.
Qed.

Lemma trim_In s c : In c (trim s) -> In c s.
Proof.
  unfold trim. rewrite <- in_rev. intros H.
  apply trimStart_In in H. rewrite <- in_rev in H.
  now apply trimStart_In in H.
Qed.

(** A trimmed string does not start and does not end with white space. *)
Lemma trim_first s c r : trim s = c :: r -> isSpace c = false.
Proof.
  unfold trim. intros H.
  destruct (trimStart_suffix (rev (trimStart s))) as [front E].
  apply (f_equal (@rev ascii)) in E. rewrite rev_involutive, rev_app_distr in E.
  rewrite H in E.
  destruct (trimStart s) as [ | x t] eqn:T; [discriminate | ].
  injection E as <- _. eapply trimStart_head, T.
Qed.

Lemma trim_last s l c : trim s = l ++ [c] -> isSpace c = false.
Proof.
  unfold trim. intros H.
  apply (f_equal (@rev ascii)) in H.
  rewrite rev_involutive, rev_app_distr in H. simpl in H.
  eapply trimStart_head, H.
Qed.

Lemma trim_nil : trim [] = [].
Proof. reflexivity. Qed.

(** A string without white space at its ends is its own trim. *)
Lemma trim_id s :
  match s with c :: _ => isSpace c = false | [] => True end ->
  match rev s with c :: _ => isSpace c = false | [] => True end ->
  trim s = s.
Proof.
  intros H1 H2. unfold trim.
  rewrite (trimStart_id s H1), (trimStart_id (rev s) H2).
  apply rev_involutive.
Qed.

Lemma trim_no_space s : (forall c, In c s -> isSpace c = false) -> trim s = s.
Proof.
  intros H. apply trim_id.
  - destruct s; [exact I | apply H; now left].
  - destruct (rev s) as [ | c r] eqn:E; [exact I | ].
    apply H. apply in_rev. rewrite E. now left.
Qed.

(** A string that is not blank has a character that is not white space. *)
Lemma trim_not_blank s c :
  In c s -> isSpace c = false -> trim s <> [].
Proof.
  intros Hin Hc.
  assert (forall t, In c t -> trimStart t <> []) as G.
  { induction t as [ | x t IH]; simpl; [tauto | ].
    intros [-> | Ht]; [now rewrite Hc | ].
    destruct (isSpace x); [auto | discriminate]. }
  unfold trim. intros E.
  apply (f_equal (@rev ascii)) in E. rewrite rev_involutive in E. simpl in E.
  assert (In c (rev (trimStart s))) as Hin'.
  { rewrite <- in_rev.
    clear E. induction s as [ | x s IH]; simpl in *; [tauto | ].
    destruct Hin as [-> | Hin]; [rewrite Hc; now left | ].
    destruct (isSpace x); [auto | now right]. }
  exact (G _ Hin' E).
Qed.

(** [unescapeCSV] leaves a string without double quotes alone. *)
Lemma unescapeCSV_no_quote s : ~ In quote s -> unescapeCSV s = s.
Proof.
  intros H. unfold unescapeCSV.
  destruct s as [ | c s]; [reflexivity | ].
  simpl startsWithQuote. destruct (char_eqb c quote) eqn:E; [ | reflexivity].
  apply char_eqb_eq in E. subst c. exfalso. apply H. now left.
Qed.

End StringFacts.

(** ** The scanner on an exported row *)

Section ScannerFacts.

Lemma scan_plain f :
  forall rest values cur inQuotes,
    ~ In quote f -> ~ In comma f ->
    scanLine (f ++ rest) values cur inQuotes
    = scanLine rest values (cur ++ f) inQuotes.
Proof.
  induction f as [ | c f IH]; intros rest values cur inQuotes Hq Hc.
  - now rewrite app_nil_r.
  - simpl.
    replace (char_eqb c quote) with false
      by (symmetry; apply char_eqb_neq; intros ->; apply Hq; now left).
    replace (char_eqb c comma) with false
      by (symmetry; apply char_eqb_neq; intros ->; apply Hc; now left).
    simpl. rewrite IH.
    + now rewrite <- app_assoc.
    + intros H. apply Hq. now right.
    + intros H. apply Hc. now right.
Qed.

(** Inside quotes the scanner copies everything but the double quotes,
    which cancel in pairs. *)
Lemma scan_quoted f :
  forall rest values cur,
    scanLine (doubleQuotes f ++ rest) values cur true
    = scanLine rest values (cur ++ dropQuotes f) true.
Proof.
  induction f as [ | c f IH]; intros rest values cur.
  - simpl. now rewrite app_nil_r.
  - unfold doubleQuotes, dropQuotes in *. simpl flat_map. simpl List.filter.
    destruct (char_eqb c quote) eqn:E.
    + simpl. rewrite IH. reflexivity.
    + simpl. rewrite E, andb_false_r. rewrite IH.
      now rewrite <- app_assoc.
Qed.

(** The scanner reads an escaped field as the field without its double
    quotes. *)
Lemma scan_escaped f rest values :
  scanLine (escapeCSV f ++ rest) values [] false
  = scanLine rest values (dropQuotes f) false.
Proof.
  unfold escapeCSV. cbv zeta.
  destruct (includes f comma || includes f LF || includes f quote) eqn:E.
  - rewrite <- !app_assoc. simpl.
    rewrite scan_quoted. reflexivity.
  - apply orb_false_elim in E. destruct E as [E Hq].
    apply orb_false_elim in E. destruct E as [Hc _].
    apply includes_false in Hq, Hc.
    rewrite scan_plain by assumption. simpl app.
    now rewrite dropQuotes_id.
Qed.

(** What the scanner returns for a field. *)
Definition scannedField (f : str) : str := unescapeCSV (trim (dropQuotes f)).

Lemma scannedField_eq f : scannedField f = trim (dropQuotes f).
Proof.
  unfold scannedField. apply unescapeCSV_no_quote.
  intros H. apply trim_In in H. exact (dropQuotes_no_quote f H).
Qed.

Lemma scan_row fields :
  fields <> [] ->
  forall values,
    scanLine (join [comma] (map escapeCSV fields)) values [] false
    = values ++ map scannedField fields.
Proof.
  induction fields as [ | f fields IH]; intros Hne values; [congruence | ].
  destruct fields as [ | g fields].
  - simpl join. rewrite <- (app_nil_r (escapeCSV f)), scan_escaped.
    reflexivity.
  - change (join [comma] (map escapeCSV (f :: g :: fields)))
      with (escapeCSV f ++ [comma]
            ++ join [comma] (map escapeCSV (g :: fields))).
    rewrite scan_escaped. simpl app.
    change (scanLine (comma :: ?l) ?v ?c false)
      with (scanLine l (v ++ [unescapeCSV (trim c)]) [] false).
    rewrite IH by discriminate.
    rewrite <- app_assoc. reflexivity.
Qed.

(** The scanner gives back the fields of an exported row, each without its
    double quotes and trimmed. *)
Lemma parseLine_escaped fields :
  fields <> [] ->
  parseLine (join [comma] (map escapeCSV fields))
  = map (fun f => trim (dropQuotes f)) fields.
Proof.
  intros Hne. unfold parseLine. rewrite scan_row by exact Hne. simpl.
  apply map_ext. apply scannedField_eq.
Qed.

End ScannerFacts.

(** ** Lines *)

Section LineFacts.

(** A line that [split] gives back: no line feed in it, no carriage return
    at its end. *)
Definition endsWithoutCR (line : str) : Prop :=
  match rev line with c :: _ => c <> CR | [] => True end.

Definition wholeLine (line : str) : Prop :=
  ~ In LF line /\ endsWithoutCR line.

Lemma endsWithoutCR_tail x y line :
  endsWithoutCR (x :: y :: line) -> endsWithoutCR (y :: line).
Proof.
  unfold endsWithoutCR. simpl rev.
  destruct (rev line ++ [y]) as [ | c r] eqn:E.
  - destruct (rev line); discriminate.
  - simpl. auto.
Qed.

Lemma splitLinesFrom_line line :
  forall cur rest,
    wholeLine line ->
    splitLinesFrom (line ++ LF :: rest) cur
    = (rev cur ++ line) :: splitLinesFrom rest [].
Proof.
  induction line as [ | x line IH]; intros cur rest [HLF Hend].
  - simpl. now rewrite app_nil_r.
  - assert (x <> LF) as Hx by (intros ->; apply HLF; now left).
    assert (~ In LF line) as HLF' by (intros H; apply HLF; now right).
    simpl app. simpl splitLinesFrom.
    replace (char_eqb x LF) with false by (symmetry; now apply char_eqb_neq).
    assert (splitLinesFrom (line ++ LF :: rest) (x :: cur)
            = (rev cur ++ x :: line) :: splitLinesFrom rest []) as Hgo.
    { destruct line as [ | y line].
      - reflexivity.
      - rewrite IH; [ | split; [exact HLF' | eapply endsWithoutCR_tail; eauto] ].
        simpl rev. now rewrite <- app_assoc. }
    destruct (char_eqb x CR) eqn:E; [ | exact Hgo].
    destruct line as [ | y line].
    + apply char_eqb_eq in E. subst x. exfalso. now apply Hend.
    + simpl app. cbv beta iota.
      replace (char_eqb y LF) with false
        by (symmetry; apply char_eqb_neq; intros ->; apply HLF'; now left).
      exact Hgo.
Qed.

Lemma splitLinesFrom_last line :
  forall cur, ~ In LF line -> splitLinesFrom line cur = [rev cur ++ line].
Proof.
  induction line as [ | x line IH]; intros cur HLF.
  - simpl. now rewrite app_nil_r.
  - assert (x <> LF) as Hx by (intros ->; apply HLF; now left).
    assert (~ In LF line) as HLF' by (intros H; apply HLF; now right).
    simpl splitLinesFrom.
    replace (char_eqb x LF) with false by (symmetry; now apply char_eqb_neq).
    assert (splitLinesFrom line (x :: cur) = [rev cur ++ x :: line]) as Hgo.
    { rewrite IH by exact HLF'. simpl rev. now rewrite <- app_assoc. }
    destruct (char_eqb x CR); [ | exact Hgo].
    destruct line as [ | y line]; [exact Hgo | ].
    cbv beta iota.
    replace (char_eqb y LF) with false
      by (symmetry; apply char_eqb_neq; intros ->; apply HLF'; now left).
    exact Hgo.
Qed.

(** Splitting the joined lines gives the lines back. *)
Lemma splitLines_join lines :
  lines <> [] -> Forall wholeLine lines ->
  splitLines (join [LF] lines) = lines.
Proof.
  unfold splitLines.
  induction lines as [ | line lines IH]; intros Hne Hall; [congruence | ].
  inversion Hall as [ | ? ? Hline Hrest]; subst.
  destruct lines as [ | line' lines].
  - simpl join. rewrite splitLinesFrom_last by apply Hline. reflexivity.
  - change (join [LF] (line :: line' :: lines))
      with (line ++ LF :: join [LF] (line' :: lines)).
    rewrite splitLinesFrom_line by exact Hline.
    rewrite IH by (congruence || assumption). reflexivity.
Qed.

End LineFacts.

(** ** Printing and parsing dates *)

Section DateStringFacts.
Import JSDate JSDateFacts.

(** The decimal digits of a year 1000..9999 and of a month or a day of the
    month, checked by evaluation over the whole range. *)
Definition fourDigits (y : Z) : bool :=
  match Number_toString y with
  | [a; b; c; d] =>
      match digit a, digit b, digit c, digit d with
      | Some va, Some vb, Some vc, Some vd =>
          10 * (10 * (10 * (10 * 0 + va) + vb) + vc) + vd =? y
      | _, _, _, _ => false
      end
  | _ => false
  end.

Definition twoDigits (n : Z) : bool :=
  match padStart2 (Number_toString n) with
  | [a; b] =>
      match digit a, digit b with
      | Some va, Some vb => 10 * (10 * 0 + va) + vb =? n
      | _, _ => false
      end
  | _ => false
  end.

Lemma range_forallb (P : Z -> bool) lo n :
  forallb P (map (fun i => lo + Z.of_nat i) (seq 0 n)) = true ->
  forall y, lo <= y < lo + Z.of_nat n -> P y = true.
Proof.
  intros H y Hy. rewrite forallb_forall in H. apply H.
  apply in_map_iff. exists (Z.to_nat (y - lo)). split; [lia | ].
  apply in_seq. lia.
Qed.

Lemma fourDigits_years y : 1000 <= y <= 9999 -> fourDigits y = true.
Proof.
  intros Hy. apply (range_forallb fourDigits 1000 (Z.to_nat 9000)); [ | lia].
  vm_compute. reflexivity.
Qed.

Lemma twoDigits_days n : 1 <= n <= 31 -> twoDigits n = true.
Proof.
  intros Hn. apply (range_forallb twoDigits 1 31); [ | lia].
  vm_compute. reflexivity.
Qed.

(** A digit is none of the characters the codec treats specially. *)
Definition plainChar (c : ascii) : Prop :=
  isSpace c = false /\ c <> quote /\ c <> comma /\ c <> LF
  /\ c <> "+"%char /\ c <> "-"%char.

Lemma digit_plain c v : digit c = Some v -> plainChar c.
Proof.
  destruct c as [[] [] [] [] [] [] [] []]; vm_compute; intros E;
    try discriminate; repeat split; discriminate.
Qed.

(** The time values the round trip covers: a UTC midnight in the years
    1000..9999. *)
Definition calendarDate (t : Z) : Prop :=
  TimeWithinDay t = 0 /\ 1000 <= YearFromTime t <= 9999.

Lemma formatDateYYYYMMDD_shape t :
  calendarDate t ->
  exists a b c d e f g h va vb vc vd ve vf vg vh,
    formatDateYYYYMMDD (Some t)
    = [a; b; c; d; "-"%char; e; f; "-"%char; g; h]
    /\ digit a = Some va /\ digit b = Some vb /\ digit c = Some vc
    /\ digit d = Some vd /\ digit e = Some ve /\ digit f = Some vf
    /\ digit g = Some vg /\ digit h = Some vh
    /\ 10 * (10 * (10 * (10 * 0 + va) + vb) + vc) + vd = YearFromTime t
    /\ 10 * (10 * 0 + ve) + vf = MonthFromTime t + 1
    /\ 10 * (10 * 0 + vg) + vh = DateFromTime t.
Proof.
  intros [Hmid Hyear].
  pose proof (fourDigits_years _ Hyear) as HY.
  pose proof (MonthFromTime_range t) as RM.
  pose proof (DateFromTime_range t) as RD.
  pose proof (twoDigits_days (MonthFromTime t + 1) ltac:(lia)) as HM.
  pose proof (twoDigits_days (DateFromTime t) ltac:(lia)) as HD.
  unfold formatDateYYYYMMDD. cbv zeta.
  unfold getTime, isNaN, getUTCFullYear, getUTCMonth, getUTCDate, option_map.
  unfold fourDigits in HY. unfold twoDigits in HM, HD.
  destruct (Number_toString (YearFromTime t))
    as [ | a [ | b [ | c [ | d [ | x l]]]]]; try discriminate.
  destruct (padStart2 (Number_toString (MonthFromTime t + 1)))
    as [ | e [ | f [ | x l]]]; try discriminate.
  destruct (padStart2 (Number_toString (DateFromTime t)))
    as [ | g [ | h [ | x l]]]; try discriminate.
  destruct (digit a) as [va | ] eqn:Ea; try discriminate.
  destruct (digit b) as [vb | ] eqn:Eb; try discriminate.
  destruct (digit c) as [vc | ] eqn:Ec; try discriminate.
  destruct (digit d) as [vd | ] eqn:Ed; try discriminate.
  destruct (digit e) as [ve | ] eqn:Ee; try discriminate.
  destruct (digit f) as [vf | ] eqn:Ef; try discriminate.
  destruct (digit g) as [vg | ] eqn:Eg; try discriminate.
  destruct (digit h) as [vh | ] eqn:Eh; try discriminate.
  apply Z.eqb_eq in HY, HM, HD.
  exists a, b, c, d, e, f, g, h, va, vb, vc, vd, ve, vf, vg, vh.
  repeat split; auto.
Qed.

Lemma parseYear_digits a b c d va vb vc vd rest :
  digit a = Some va -> digit b = Some vb -> digit c = Some vc ->
  digit d = Some vd ->
  parseYear (a :: b :: c :: d :: rest)
  = Some (10 * (10 * (10 * (10 * 0 + va) + vb) + vc) + vd, rest).
Proof.
  intros Ha Hb Hc Hd.
  destruct (digit_plain a va Ha) as (_ & _ & _ & _ & Hplus & Hminus).
  unfold parseYear.
  replace (char_eqb a "+") with false by (symmetry; now apply char_eqb_neq).
  replace (char_eqb a "-") with false by (symmetry; now apply char_eqb_neq).
  simpl digits. now rewrite Ha, Hb, Hc, Hd.
Qed.

Lemma digits_two e f ve vf rest :
  digit e = Some ve -> digit f = Some vf ->
  digits 2 (e :: f :: rest) 0 = Some (10 * (10 * 0 + ve) + vf, rest).
Proof. intros He Hf. simpl digits. now rewrite He, Hf. Qed.

Lemma dash_not_suffix rest :
  str_eqb ("-"%char :: rest) timeSuffix = false.
Proof. apply str_eqb_neq. discriminate. Qed.

(** Parsing the printed date gives the date back. *)
Lemma Date_parse_format t :
  calendarDate t ->
  Date_parse (formatDateYYYYMMDD (Some t) ++ timeSuffix) = Some t.
Proof.
  intros Hcal.
  destruct (formatDateYYYYMMDD_shape t Hcal)
    as (a & b & c & d & e & f & g & h & va & vb & vc & vd & ve & vf & vg & vh
        & -> & Ha & Hb & Hc & Hd & He & Hf & Hg & Hh & HY & HM & HD).
  destruct Hcal as [Hmid Hyear].
  pose proof (MonthFromTime_range t) as RM.
  pose proof (DateFromTime_range t) as RD.
  unfold Date_parse. simpl app.
  rewrite (parseYear_digits a b c d va vb vc vd _ Ha Hb Hc Hd), HY.
  rewrite dash_not_suffix.
  replace (char_eqb "-" "-") with true by reflexivity. cbv beta iota.
  rewrite (digits_two e f ve vf _ He Hf), HM.
  replace ((1 <=? MonthFromTime t + 1) && (MonthFromTime t + 1 <=? 12))
    with true by (symmetry; apply andb_true_iff; lia).
  rewrite dash_not_suffix. cbv beta iota.
  rewrite (digits_two g h vg vh _ Hg Hh), HD.
  replace ((1 <=? DateFromTime t) && (DateFromTime t <=? 31)
           && str_eqb timeSuffix timeSuffix)
    with true
    by (symmetry; rewrite !andb_true_iff, str_eqb_eq; repeat split; lia).
  replace (MonthFromTime t + 1 - 1) with (MonthFromTime t) by lia.
  pose proof (MakeDay_of_time t 0) as MD. rewrite !Z.add_0_r in MD.
  rewrite MD.
  assert (MakeDate (Day t) 0 = t) as ->.
  { unfold MakeDate, Day, TimeWithinDay, msPerDay in *. lia. }
  apply TimeClip_Some.
  pose proof (year_in_range t ltac:(lia)) as R. unfold msPerDay in R. lia.
Qed.

(** The printed date is its own scanned field. *)
Lemma formatDateYYYYMMDD_plain t :
  calendarDate t ->
  forall ch, In ch (formatDateYYYYMMDD (Some t)) ->
    isSpace ch = false /\ ch <> quote /\ ch <> comma /\ ch <> LF /\ ch <> CR.
Proof.
  intros Hcal.
  destruct (formatDateYYYYMMDD_shape t Hcal)
    as (a & b & c & d & e & f & g & h & va & vb & vc & vd & ve & vf & vg & vh
        & -> & Ha & Hb & Hc & Hd & He & Hf & Hg & Hh & _).
  assert (forall x v, digit x = Some v ->
            isSpace x = false /\ x <> quote /\ x <> comma /\ x <> LF
            /\ x <> CR) as P.
  { intros x v Hx. destruct (digit_plain x v Hx) as (S & Q & C & L & _).
    repeat split; auto. intros ->. discriminate. }
  intros ch Hin. simpl in Hin.
  repeat (destruct Hin as [<- | Hin];
          [first [ eapply P; eassumption
                 | (repeat split; discriminate) ] | ]).
  destruct Hin.
Qed.

End DateStringFacts.

(** ** Export followed by import *)

Section RoundTripFacts.
Import JSDate JSDateFacts.

Variables (LocalTZA : Z) (st : State).

Lemma In_doubleQuotes c f : In c (doubleQuotes f) -> In c f.
Proof.
  unfold doubleQuotes. rewrite in_flat_map. intros [x [Hx Hc]].
  destruct (char_eqb x quote) eqn:E.
  - apply char_eqb_eq in E. subst x.
    destruct Hc as [<- | [<- | []]]; exact Hx.
  - destruct Hc as [<- | []]. exact Hx.
Qed.

Lemma In_escapeCSV c f : In c (escapeCSV f) -> c = quote \/ In c f.
Proof.
  unfold escapeCSV. cbv zeta.
  destruct (_ || _); [ | now right].
  rewrite !in_app_iff. simpl.
  intros [[<- | []] | [H | [<- | []]]]; auto.
  right. now apply In_doubleQuotes.
Qed.

Lemma In_join c sep l :
  In c (join sep l) -> In c sep \/ exists x, In x l /\ In c x.
Proof.
  induction l as [ | x l IH]; [intros [] | ].
  destruct l as [ | y l].
  - simpl. intros H. right. exists x. split; [now left | exact H].
  - change (join sep (x :: y :: l)) with (x ++ sep ++ join sep (y :: l)).
    rewrite !in_app_iff. intros [H | [H | H]].
    + right. exists x. split; [now left | exact H].
    + now left.
    + destruct (IH H) as [Hs | [z [Hz Hc]]]; [now left | ].
      right. exists z. split; [now right | exact Hc].
Qed.

(** The cell of the holidays of a week. *)
Definition holidaysCell (week : Week) : str :=
  join [LF] (map (fun h => date h ++ lit ": " ++ holiday_name h)
                 (getHolidaysInWeek LocalTZA st (startDate week)
                    (endDate week))).

(** The fields of the row of a week. *)
Definition exportFields (week : Week) : list str :=
  [formatDateYYYYMMDD (startDate week); formatDateYYYYMMDD (endDate week);
   getPersonName st (assignedTo week); holidaysCell week; notes week].

Lemma exportRow_fields week :
  exportRow LocalTZA st week = join [comma] (map escapeCSV (exportFields week)).
Proof. reflexivity. Qed.

(** A name or a note that the codec gives back: it is trimmed and holds no
    double quote and no line feed. *)
Definition cleanField (f : str) : Prop :=
  trim f = f /\ ~ In quote f /\ ~ In LF f.

(** The weeks the round trip covers. *)
Definition exportable (week : Week) : Prop :=
  (exists s, startDate week = Some s /\ calendarDate s)
  /\ (exists e, endDate week = Some e /\ calendarDate e)
  /\ cleanField (getPersonName st (assignedTo week))
  /\ cleanField (notes week)
  /\ ~ In LF (holidaysCell week).

(** What the import makes of the row of a week. *)
Definition reimported (week : Week) : Week :=
  let isHolidayPeriod :=
    isWeekInHolidayPeriod (startDate week) (endDate week)
      (getUTCFullYear (startDate week)) in
  {| startDate := startDate week;
     endDate := endDate week;
     assignedTo :=
       if isHolidayPeriod then Status HolidayPeriod
       else fst (getPersonIdFromName st (getPersonName st (assignedTo week)));
     hasHoliday :=
       weekContainsHoliday LocalTZA (startDate week) (endDate week)
         (holidays st);
     isHolidayPeriod := isHolidayPeriod;
     notes := notes week |}.

Lemma clean_scanned f : cleanField f -> trim (dropQuotes f) = f.
Proof. intros [Ht [Hq _]]. now rewrite dropQuotes_id. Qed.

Lemma date_scanned t :
  calendarDate t ->
  trim (dropQuotes (formatDateYYYYMMDD (Some t))) = formatDateYYYYMMDD (Some t).
Proof.
  intros Hcal. pose proof (formatDateYYYYMMDD_plain t Hcal) as P.
  rewrite dropQuotes_id.
  - apply trim_no_space. intros c Hc. apply P, Hc.
  - intros Hq. destruct (P quote Hq) as (_ & N & _). now apply N.
Qed.

Lemma parseLine_exportRow week :
  exportable week ->
  parseLine (exportRow LocalTZA st week)
  = [formatDateYYYYMMDD (startDate week); formatDateYYYYMMDD (endDate week);
     getPersonName st (assignedTo week);
     trim (dropQuotes (holidaysCell week)); notes week].
Proof.
  intros ([s [Hs Cs]] & [e [He Ce]] & Hname & Hnotes & _).
  rewrite exportRow_fields, parseLine_escaped
    by (unfold exportFields; discriminate).
  unfold exportFields. simpl map. rewrite Hs, He.
  rewrite (date_scanned s Cs), (date_scanned e Ce).
  now rewrite (clean_scanned _ Hname), (clean_scanned _ Hnotes).
Qed.

(** The row of an exportable week is retained as its reimported week. *)
Lemma importRow_exportRow i week :
  exportable week ->
  fst (importRow LocalTZA st headerIndex i (exportRow LocalTZA st week))
  = Some (reimported week).
Proof.
  intros Hex.
  rewrite (importRow_values LocalTZA st i _ _ _ _ _ _
             (parseLine_exportRow week Hex)).
  destruct Hex as ([s [Hs Cs]] & [e [He Ce]] & _).
  cbv zeta. unfold reimported. cbv zeta. rewrite Hs, He.
  rewrite (Date_parse_format s Cs), (Date_parse_format e Ce).
  reflexivity.
Qed.

Lemma exportRow_wholeLine week :
  exportable week -> wholeLine (exportRow LocalTZA st week).
Proof.
  intros ([s [Hs Cs]] & [e [He Ce]] & Hname & Hnotes & Hcell).
  split.
  - rewrite exportRow_fields. intros H.
    apply In_join in H. destruct H as [[E | []] | [x [Hx H]]];
      [discriminate | ].
    apply in_map_iff in Hx. destruct Hx as [f [<- Hf]].
    apply In_escapeCSV in H. destruct H as [E | H]; [discriminate | ].
    unfold exportFields in Hf. rewrite Hs, He in Hf.
    destruct Hf as [<- | [<- | [<- | [<- | [<- | []]]]]].
    + destruct (formatDateYYYYMMDD_plain s Cs LF H) as (_ & _ & _ & N & _).
      now apply N.
    + destruct (formatDateYYYYMMDD_plain e Ce LF H) as (_ & _ & _ & N & _).
      now apply N.
    + now apply Hname.
    + now apply Hcell.
    + now apply Hnotes.
  - rewrite exportRow_fields. unfold exportFields.
    simpl map.
    change (join [comma] (?a :: ?b :: ?c :: ?d :: [?n]))
      with (a ++ [comma] ++ b ++ [comma] ++ c ++ [comma] ++ d ++ [comma] ++ n).
    unfold endsWithoutCR. rewrite !rev_app_distr.
    destruct Hnotes as (Ht & Hq & _).
    destruct (rev (escapeCSV (notes week))) as [ | c r] eqn:R.
    + simpl. discriminate.
    + simpl. intros ->.
      assert (escapeCSV (notes week) = rev r ++ [CR]) as E.
      { rewrite <- (rev_involutive (escapeCSV (notes week))), R. reflexivity. }
      unfold escapeCSV in E. cbv zeta in E.
      destruct (_ || _).
      * rewrite app_assoc in E. apply app_inj_tail in E.
        destruct E as [_ E]. discriminate.
      * rewrite <- Ht in E. apply trim_last in E. discriminate.
Qed.

Lemma exportRow_not_blank week :
  negb (str_eqb (trim (exportRow LocalTZA st week)) []) = true.
Proof.
  apply negb_true_iff, str_eqb_neq.
  apply trim_not_blank with comma; [ | reflexivity].
  rewrite exportRow_fields. unfold exportFields. simpl map.
  change (join [comma] (?a :: ?b :: ?l)) with (a ++ [comma] ++ join [comma] (b :: l)).
  rewrite !in_app_iff. right. left. now left.
Qed.

Lemma filter_all {A} (P : A -> bool) l :
  (forall x, In x l -> P x = true) -> List.filter P l = l.
Proof.
  induction l as [ | x l IH]; intros H; [reflexivity | ].
  simpl. rewrite (H x (or_introl eq_refl)). f_equal. apply IH.
  intros y Hy. apply H. now right.
Qed.

Definition headerRow : str := join [comma] CSV_HEADERS.

Lemma headerRow_wholeLine : wholeLine headerRow.
Proof.
  split.
  - apply includes_false. vm_compute. reflexivity.
  - vm_compute. discriminate.
Qed.

(** The lines of the exported file are the header row and the rows of the
    weeks. *)
Lemma csvLines_export (weeks : list Week) :
  Forall exportable weeks ->
  csvLines (join [LF] (headerRow :: map (exportRow LocalTZA st) weeks))
  = headerRow :: map (exportRow LocalTZA st) weeks.
Proof.
  intros Hall. unfold csvLines.
  rewrite splitLines_join; [ | discriminate | ].
  - apply filter_all. intros line [<- | Hin].
    + vm_compute. reflexivity.
    + apply in_map_iff in Hin. destruct Hin as [w [<- _]].
      apply exportRow_not_blank.
  - constructor; [apply headerRow_wholeLine | ].
    apply List.Forall_forall. intros line Hin.
    apply in_map_iff in Hin. destruct Hin as [w [<- Hw]].
    apply exportRow_wholeLine.
    rewrite List.Forall_forall in Hall. now apply Hall.
Qed.

Lemma retainedWeeks_export (weeks : list Week) :
  Forall exportable weeks ->
  retainedWeeks LocalTZA st (map (exportRow LocalTZA st) weeks)
  = map reimported weeks.
Proof.
  unfold retainedWeeks.
  induction 1 as [ | w weeks Hw Hall IH]; [reflexivity | ].
  simpl. rewrite (importRow_exportRow O w Hw). simpl. f_equal. exact IH.
Qed.

(** Export followed by import of a schedule of exportable weeks. *)
Lemma export_import :
  schedule st <> [] ->
  Forall exportable (schedule st) ->
  exists csvContent,
    exportScheduleCSV LocalTZA st = Some csvContent
    /\ fst (parseScheduleCSV LocalTZA st csvContent)
       = inr (map reimported (schedule st)).
Proof.
  intros Hne Hall.
  exists (join [LF] (headerRow :: map (exportRow LocalTZA st) (schedule st))).
  split.
  - unfold exportScheduleCSV. destruct (schedule st); [congruence | reflexivity].
  - rewrite (parseScheduleCSV_retained LocalTZA st _ headerRow
               (map (exportRow LocalTZA st) (schedule st))).
    + rewrite (retainedWeeks_export _ Hall).
      destruct (schedule st); [congruence | reflexivity].
    + apply csvLines_export, Hall.
    + destruct (schedule st); [congruence | discriminate].
    + vm_compute. reflexivity.
Qed.

(** *** Names and ids *)

Lemma find_some_id n p :
  List.find (fun q => id q =? n) (people st) = Some p ->
  In p (people st) /\ id p = n.
Proof.
  intros H. apply find_some in H. destruct H as [Hin E].
  apply Z.eqb_eq in E. auto.
Qed.

(** A roster member's id comes back through the name when no roster member
    with another id bears the same name up to case. *)
Lemma resolve_person n p :
  List.find (fun q => id q =? n) (people st) = Some p ->
  (forall q, In q (people st) ->
     toLowerCase (name q) = toLowerCase (name p) -> id q = n) ->
  fst (getPersonIdFromName st (getPersonName st (PersonId n))) = PersonId n.
Proof.
  intros Hfind Huniq. unfold getPersonName. rewrite Hfind.
  unfold getPersonIdFromName.
  destruct (List.find (fun q => str_eqb _ _) (people st)) as [q | ] eqn:F.
  - apply find_some in F. destruct F as [Hq E]. apply str_eqb_eq in E.
    simpl. f_equal. now apply Huniq.
  - exfalso. destruct (find_some_id n p Hfind) as [Hp _].
    apply (find_none _ _ F) in Hp. apply str_eqb_neq in Hp. now apply Hp.
Qed.

(** A name that no roster member bears up to case resolves to itself when
    it is one of the status strings, to null when it is empty or anything
    else. *)
Lemma resolve_no_person nm :
  (forall q, In q (people st) -> toLowerCase (name q) <> toLowerCase nm) ->
  fst (getPersonIdFromName st nm)
  = if str_eqb nm HolidayPeriod || str_eqb nm NoOneAvailable
       || str_eqb nm (lit "Unassigned")
    then Status nm else Null.
Proof.
  intros Hno. unfold getPersonIdFromName.
  destruct (List.find _ (people st)) as [q | ] eqn:F.
  - apply find_some in F. destruct F as [Hq E]. apply str_eqb_eq in E.
    exfalso. exact (Hno q Hq E).
  - destruct nm as [ | c nm].
    + reflexivity.
    + replace (str_eqb (c :: nm) []) with false
        by (symmetry; apply str_eqb_neq; discriminate).
      rewrite orb_false_r. destruct (_ || _); reflexivity.
Qed.

End RoundTripFacts.

Section RoundTripClaim.

(** C5, as the code has it. For a schedule that is not empty and whose
    weeks are exportable (valid UTC-midnight dates in the years 1000..9999;
    exported name and notes trimmed, without double quote or line feed; no
    line feed in the holidays cell), exporting and then importing with the
    same roster and holidays gives one week per week, in order, with the
    same start date, end date and notes.  The holiday-period flag is
    recomputed from the dates; a flagged week gets the status Holiday
    Period; any other week gets what the exported name resolves to: the same
    id for a roster member whose name no member with another id bears up to
    case, and for a name no member bears, the name itself as a status when it
    is Holiday Period, No one available or Unassigned, and null otherwise. *)
Theorem exportScheduleCSV_importScheduleCSV_roundtrip
    (LocalTZA : Z) (st : State) :
  schedule st <> [] ->
  Forall (exportable LocalTZA st) (schedule st) ->
  exists csvContent importedSchedule,
    exportScheduleCSV LocalTZA st = Some csvContent
    /\ fst (parseScheduleCSV LocalTZA st csvContent) = inr importedSchedule
    /\ schedule (nextState (importScheduleCSV LocalTZA st csvContent))
       = importedSchedule
    /\ Forall2
         (fun w w' =>
            startDate w' = startDate w
            /\ endDate w' = endDate w
            /\ notes w' = notes w
            /\ isHolidayPeriod w'
               = isWeekInHolidayPeriod (startDate w) (endDate w)
                   (getUTCFullYear (startDate w))
            /\ (isHolidayPeriod w' = true ->
                assignedTo w' = Status HolidayPeriod)
            /\ (isHolidayPeriod w' = false ->
                (forall n p,
                   assignedTo w = PersonId n ->
                   List.find (fun q => id q =? n) (people st) = Some p ->
                   (forall q, In q (people st) ->
                      toLowerCase (name q) = toLowerCase (name p) ->
                      id q = n) ->
                   assignedTo w' = PersonId n)
                /\ ((forall q, In q (people st) ->
                       toLowerCase (name q)
                       <> toLowerCase (getPersonName st (assignedTo w))) ->
                    assignedTo w'
                    = let nm := getPersonName st (assignedTo w) in
                      if str_eqb nm HolidayPeriod || str_eqb nm NoOneAvailable
                         || str_eqb nm (lit "Unassigned")
                      then Status nm else Null)))
         (schedule st) importedSchedule.
Proof.
  intros Hne Hall.
  destruct (export_import LocalTZA st Hne Hall) as [csvContent [Hexp Hparse]].
  exists csvContent, (map (reimported LocalTZA st) (schedule st)).
  split; [exact Hexp | split; [exact Hparse | split] ].
  - unfold importScheduleCSV.
    destruct (parseScheduleCSV LocalTZA st csvContent) as [[m | imported] ws];
      simpl in Hparse; [discriminate | ].
    injection Hparse as ->. reflexivity.
  - clear. induction (schedule st) as [ | w l IH]; constructor; [ | exact IH].
    unfold reimported. cbv zeta. simpl.
    repeat (split; [reflexivity | ]).
    split.
    + intros ->. reflexivity.
    + intros ->. split.
      * intros n p Ha Hfind Huniq. rewrite Ha.
        now apply resolve_person with p.
      * intros Hno. cbv zeta. now apply resolve_no_person.
Qed.

(** A schedule of two weeks: one assigned to Person 2 with a note, one
    unassigned. *)
Definition roundtrip_state : State :=
  setSchedule example_state
    [ {| startDate := Date_UTC (Some 2025) (Some 0) (Some 7);
         endDate := Date_UTC (Some 2025) (Some 0) (Some 13);
         assignedTo := PersonId 2; hasHoliday := false;
         isHolidayPeriod := false; notes := lit "swap with Person 1, maybe" |};
      {| startDate := Date_UTC (Some 2025) (Some 0) (Some 14);
         endDate := Date_UTC (Some 2025) (Some 0) (Some 20);
         assignedTo := Null; hasHoliday := false;
         isHolidayPeriod := false; notes := [] |} ].

Lemma roundtrip_state_exportable :
  Forall (exportable 0 roundtrip_state) (schedule roundtrip_state).
Proof.
  assert (forall f, trim f = f -> includes f quote = false ->
            includes f LF = false -> cleanField f) as Clean.
  { intros f Ht Hq Hl. repeat split; [exact Ht | | ];
      now apply includes_false. }
  repeat constructor;
    try (eexists; split; [vm_compute; reflexivity | ]; split;
         [vm_compute; reflexivity
         | vm_compute; split; intros E; discriminate E]);
    try (apply Clean; vm_compute; reflexivity);
    apply includes_false; vm_compute; reflexivity.
Defined.

Lemma exportScheduleCSV_importScheduleCSV_roundtrip_witness :
  exists csvContent importedSchedule,
    exportScheduleCSV 0 roundtrip_state = Some csvContent
    /\ fst (parseScheduleCSV 0 roundtrip_state csvContent)
       = inr importedSchedule
    /\ schedule (nextState (importScheduleCSV 0 roundtrip_state csvContent))
       = importedSchedule
    /\ Forall2
         (fun w w' =>
            startDate w' = startDate w
            /\ endDate w' = endDate w
            /\ notes w' = notes w
            /\ isHolidayPeriod w'
               = isWeekInHolidayPeriod (startDate w) (endDate w)
                   (getUTCFullYear (startDate w))
            /\ (isHolidayPeriod w' = true ->
                assignedTo w' = Status HolidayPeriod)
            /\ (isHolidayPeriod w' = false ->
                (forall n p,
                   assignedTo w = PersonId n ->
                   List.find (fun q => id q =? n) (people roundtrip_state)
                   = Some p ->
                   (forall q, In q (people roundtrip_state) ->
                      toLowerCase (name q) = toLowerCase (name p) ->
                      id q = n) ->
                   assignedTo w' = PersonId n)
                /\ ((forall q, In q (people roundtrip_state) ->
                       toLowerCase (name q)
                       <> toLowerCase
                            (getPersonName roundtrip_state (assignedTo w))) ->
                    assignedTo w'
                    = let nm := getPersonName roundtrip_state (assignedTo w) in
                      if str_eqb nm HolidayPeriod || str_eqb nm NoOneAvailable
                         || str_eqb nm (lit "Unassigned")
                      then Status nm else Null)))
         (schedule roundtrip_state) importedSchedule.
Proof.
  apply (exportScheduleCSV_importScheduleCSV_roundtrip 0 roundtrip_state).
  - vm_compute. discriminate.
  - exact roundtrip_state_exportable.
Defined.

(** A schedule of one week whose notes take two lines. *)
Definition two_line_notes : str := lit "call Person 1" ++ [LF] ++ lit "first".

Definition two_line_state : State :=
  setSchedule example_state
    [ {| startDate := Date_UTC (Some 2025) (Some 0) (Some 7);
         endDate := Date_UTC (Some 2025) (Some 0) (Some 13);
         assignedTo := PersonId 2; hasHoliday := false;
         isHolidayPeriod := false; notes := two_line_notes |} ].

(** C5 as stated fails: the notes of a week do not come back when they hold
    a line feed; the import keeps the first line only and skips the rest as a
    row of its own. *)
Lemma exportScheduleCSV_importScheduleCSV_loses_notes :
  exists csvContent w',
    exportScheduleCSV 0 two_line_state = Some csvContent
    /\ fst (parseScheduleCSV 0 two_line_state csvContent) = inr [w']
    /\ notes w' = lit "call Person 1"
    /\ notes w' <> two_line_notes
    /\ snd (parseScheduleCSV 0 two_line_state csvContent)
       = [IncorrectColumns 2 1 (lit "first" ++ [quote])].
Proof.
  eexists _, _.
  split; [vm_compute; reflexivity | ].
  split; [vm_compute; reflexivity | ].
  split; [reflexivity | ].
  split; [vm_compute; discriminate | ].
  vm_compute. reflexivity.
Qed.

End RoundTripClaim.

(** * Further properties *)

(** ** Calendar helpers *)

Section CalendarExtras.
Import JSDate JSDateFacts.

(** The Monday helper returns the Monday on or before the date, at the same
    time of day: the date itself on a Monday, and at most six days earlier
    otherwise. *)
Theorem getMondayBefore_is_monday (t : Z) :
  - maxTime + 7 * msPerDay <= t <= maxTime - 7 * msPerDay ->
  exists m,
    getMondayBefore (Some t) = Some m
    /\ WeekDay m = 1
    /\ t - 6 * msPerDay <= m <= t
    /\ TimeWithinDay m = TimeWithinDay t
    /\ (WeekDay t = 1 -> m = t).
Proof.
  intros B. exists (t - ((WeekDay t + 6) mod 7) * msPerDay).
  pose proof (WeekDay_range t) as W.
  split; [now apply getMondayBefore_Some | ].
  split.
  { replace (t - (WeekDay t + 6) mod 7 * msPerDay)
      with (t + (- ((WeekDay t + 6) mod 7)) * msPerDay) by lia.
    rewrite WeekDay_shift. lia. }
  split; [unfold msPerDay; lia | ].
  split; [unfold TimeWithinDay, msPerDay; lia | ].
  intros E. rewrite E. change ((1 + 6) mod 7) with 0. lia.
Qed.

Lemma getMondayBefore_is_monday_witness :
  exists m,
    getMondayBefore (Some 1766620800000) = Some m
    /\ WeekDay m = 1
    /\ 1766620800000 - 6 * msPerDay <= m <= 1766620800000
    /\ TimeWithinDay m = TimeWithinDay 1766620800000
    /\ (WeekDay 1766620800000 = 1 -> m = 1766620800000).
Proof.
  apply (getMondayBefore_is_monday 1766620800000).
  unfold maxTime, msPerDay. lia.
Defined.

(** The Friday helper returns the Friday on or after the date, at the same
    time of day: the date itself on a Friday, six days later on a Saturday;
    it never moves backward. *)
Theorem getFridayAfter_is_friday (t : Z) :
  - maxTime + 7 * msPerDay <= t <= maxTime - 7 * msPerDay ->
  exists f,
    getFridayAfter (Some t) = Some f
    /\ WeekDay f = 5
    /\ t <= f <= t + 6 * msPerDay
    /\ TimeWithinDay f = TimeWithinDay t
    /\ (WeekDay t = 5 -> f = t)
    /\ (WeekDay t = 6 -> f = t + 6 * msPerDay).
Proof.
  intros B. exists (t + ((5 - WeekDay t) mod 7) * msPerDay).
  pose proof (WeekDay_range t) as W.
  split; [now apply getFridayAfter_Some | ].
  split; [rewrite WeekDay_shift; lia | ].
  split; [unfold msPerDay; lia | ].
  split; [unfold TimeWithinDay, msPerDay; lia | ].
  split; intros E; rewrite E.
  - change ((5 - 5) mod 7) with 0. lia.
  - change ((5 - 6) mod 7) with 6. lia.
Qed.

Lemma getFridayAfter_is_friday_witness :
  exists f,
    getFridayAfter (Some 1767225600000) = Some f
    /\ WeekDay f = 5
    /\ 1767225600000 <= f <= 1767225600000 + 6 * msPerDay
    /\ TimeWithinDay f = TimeWithinDay 1767225600000
    /\ (WeekDay 1767225600000 = 5 -> f = 1767225600000)
    /\ (WeekDay 1767225600000 = 6 -> f = 1767225600000 + 6 * msPerDay).
Proof.
  apply (getFridayAfter_is_friday 1767225600000).
  unfold maxTime, msPerDay. lia.
Defined.

Lemma Date_UTC_day y m d t :
  Date_UTC (Some y) (Some m) (Some d) = Some t ->
  Day t = MakeDay (fullYear y) m d /\ TimeWithinDay t = 0.
Proof.
  unfold Date_UTC. fold (fullYear y). intros H.
  apply TimeClip_inv in H. destruct H as [-> _].
  split; [apply Day_MakeDate | ].
  unfold TimeWithinDay, MakeDate, msPerDay. lia.
Qed.

Lemma midnight_eq t u : TimeWithinDay t = 0 -> TimeWithinDay u = 0 ->
  Day t = Day u -> t = u.
Proof. unfold TimeWithinDay, Day, msPerDay. lia. Qed.

(** For a year that [Date.UTC] takes as it is, the holiday period runs from
    a Monday to a Friday, contains Dec 25 and Jan 1, which are seven days
    apart, and lasts 12 days (11 days from start to end) or 19 days, the
    latter when Dec 25 falls on a Saturday or a Sunday. *)
Theorem getHolidayPeriod_shape (year : Z) :
  -271820 <= year <= 275759 ->
  year < -1 \/ 99 < year ->
  exists christmas pstart pend,
    Date_UTC (Some year) (Some 11) (Some 25) = Some christmas
    /\ Date_UTC (Some (year + 1)) (Some 0) (Some 1)
       = Some (christmas + 7 * msPerDay)
    /\ getHolidayPeriod (Some year) = Some (Some pstart, Some pend)
    /\ WeekDay pstart = 1 /\ WeekDay pend = 5
    /\ pstart <= christmas
    /\ christmas + 7 * msPerDay <= pend
    /\ (pend - pstart = 11 * msPerDay \/ pend - pstart = 18 * msPerDay)
    /\ (pend - pstart = 18 * msPerDay
        <-> WeekDay christmas = 6 \/ WeekDay christmas = 0).
Proof.
  intros Hy Hq.
  destruct (Date_UTC_valid year 11 25) as [c [Hc Bc]]; try lia.
  destruct (Date_UTC_valid (year + 1) 0 1) as [n [Hn Bn]]; try lia.
  assert (n = c + 7 * msPerDay) as ->.
  { destruct (Date_UTC_day _ _ _ _ Hc) as [Dc Mc].
    destruct (Date_UTC_day _ _ _ _ Hn) as [Dn Mn].
    apply midnight_eq; [exact Mn | unfold TimeWithinDay, msPerDay in *; lia | ].
    replace (c + 7 * msPerDay) with (c + 7 * msPerDay)%Z by reflexivity.
    rewrite Day_shift, Dn, Dc.
    assert (fullYear year = year) as ->
      by (unfold fullYear; destruct (Z.leb_spec 0 year);
          destruct (Z.leb_spec year 99); simpl; lia).
    assert (fullYear (year + 1) = year + 1) as ->
      by (unfold fullYear; destruct (Z.leb_spec 0 (year + 1));
          destruct (Z.leb_spec (year + 1) 99); simpl; lia).
    unfold MakeDay. cbv zeta.
    change (0 / 12) with 0. change (0 mod 12) with 0.
    change (11 / 12) with 0. change (11 mod 12) with 11.
    rewrite !Z.add_0_r, DayFromYear_step.
    change (MonthStart 0 ?l) with 0.
    change (MonthStart 11 ?l) with (334 + l).
    unfold InLeapYear.
    destruct (DaysInYear_range year) as [E | E]; rewrite E; simpl; lia. }
  exists c, (c - ((WeekDay c + 6) mod 7) * msPerDay),
    (c + 7 * msPerDay + ((5 - WeekDay (c + 7 * msPerDay)) mod 7) * msPerDay).
  pose proof (getMondayBefore_Some c Bc) as Mb.
  pose proof (getFridayAfter_Some _ Bn) as Fa.
  pose proof (WeekDay_range c) as Wc.
  assert (WeekDay (c + 7 * msPerDay) = WeekDay c) as Wn
    by (rewrite WeekDay_shift; lia).
  rewrite Wn in *.
  split; [exact Hc | split; [exact Hn | ] ].
  split.
  { unfold getHolidayPeriod. cbv zeta. simpl num_add.
    rewrite Hc, Hn, Mb, Fa. reflexivity. }
  split.
  { replace (c - (WeekDay c + 6) mod 7 * msPerDay)
      with (c + (- ((WeekDay c + 6) mod 7)) * msPerDay) by lia.
    rewrite WeekDay_shift. lia. }
  split.
  { replace (c + 7 * msPerDay + (5 - WeekDay c) mod 7 * msPerDay)
      with (c + (7 + (5 - WeekDay c) mod 7) * msPerDay) by lia.
    rewrite WeekDay_shift. lia. }
  unfold msPerDay. repeat split; try lia.
Qed.

Lemma getHolidayPeriod_shape_witness :
  exists christmas pstart pend,
    Date_UTC (Some 2025) (Some 11) (Some 25) = Some christmas
    /\ Date_UTC (Some (2025 + 1)) (Some 0) (Some 1)
       = Some (christmas + 7 * msPerDay)
    /\ getHolidayPeriod (Some 2025) = Some (Some pstart, Some pend)
    /\ WeekDay pstart = 1 /\ WeekDay pend = 5
    /\ pstart <= christmas
    /\ christmas + 7 * msPerDay <= pend
    /\ (pend - pstart = 11 * msPerDay \/ pend - pstart = 18 * msPerDay)
    /\ (pend - pstart = 18 * msPerDay
        <-> WeekDay christmas = 6 \/ WeekDay christmas = 0).
Proof. apply (getHolidayPeriod_shape 2025); lia. Defined.

End CalendarExtras.

(** ** The generated schedule from the first week to the last *)

Section GenerateExtras.
Import JSDate JSDateFacts.

Variables (LocalTZA : Z) (year : Z) (holidayList : list Holiday).

Hypothesis year_range : -271820 <= year <= 275759.

Lemma week_chain_lookup t ws :
  week_chain year t ws ->
  forall i w, ws !! i = Some w ->
    startDate w = Some (t + 7 * Z.of_nat i * msPerDay)
    /\ YearFromTime (t + 7 * Z.of_nat i * msPerDay) = year.
Proof.
  induction 1 as [ | t w0 ws Hs He Hy Hc IH]; intros i w Hi; [discriminate | ].
  destruct i as [ | i].
  - simpl in Hi. injection Hi as <-.
    replace (t + 7 * Z.of_nat 0 * msPerDay) with t by lia. auto.
  - simpl in Hi. destruct (IH i w Hi) as [Hs' Hy'].
    replace (t + 7 * Z.of_nat (S i) * msPerDay)
      with (t + 7 * msPerDay + 7 * Z.of_nat i * msPerDay) by lia.
    auto.
Qed.

(** The second loop stops at the first start date outside the year. *)
Lemma emitWeeks_stop fuel :
  forall t ws,
    emitWeeks LocalTZA year holidayList fuel (Some t) = Some ws ->
    YearFromTime (t + 7 * Z.of_nat (length ws) * msPerDay) <> year.
Proof.
  assert (forall t ws, YearFromTime t <> year -> Some (@nil Week) = Some ws ->
            YearFromTime (t + 7 * Z.of_nat (length ws) * msPerDay) <> year)
    as Hnil.
  { intros t ws NE H. assert (ws = []) as -> by congruence.
    simpl length. now replace (t + 7 * Z.of_nat 0 * msPerDay) with t by lia. }
  induction fuel as [ | fuel IH]; intros t ws; rewrite emitWeeks_eq;
    unfold getUTCFullYear, option_map, num_eqb;
    destruct (Z.eqb_spec (YearFromTime t) year) as [E | NE];
    cbv beta iota zeta.
  - intros H. congruence.
  - now apply Hnil.
  - rewrite !advanceDays_Some.
    pose proof (year_in_range t ltac:(lia)) as R.
    rewrite !TimeClip_Some by (unfold msPerDay in *; lia).
    destruct (emitWeeks LocalTZA year holidayList fuel
                (Some (t + 7 * msPerDay))) as [rest | ] eqn:Hrest;
      [ | intros H; congruence].
    match goal with
    | |- Some (?x :: _) = _ -> _ => generalize x
    end.
    intros wk H. assert (ws = wk :: rest) as -> by congruence.
    simpl length.
    replace (t + 7 * Z.of_nat (S (length rest)) * msPerDay)
      with (t + 7 * msPerDay + 7 * Z.of_nat (length rest) * msPerDay) by lia.
    eapply IH, Hrest.
  - now apply Hnil.
Qed.

End GenerateExtras.

Section GenerateCoverage.
Import JSDate JSDateFacts.

(** For a year that [Date.UTC] takes as it is, the schedule starts with the
    first [startDayOfWeek] on or after the first of the start month, every
    week starts on that day of the week, seven days after the week before
    it, and the week after the last one would start in the next year.  It
    has at most 53 weeks, and 52 or 53 when it starts in January. *)
Theorem generateSchedule_covers_year
    (LocalTZA : Z) (people : list Person) (year startMonth startDayOfWeek : Z)
    (holidayList : list Holiday) (fuel : nat) :
  -271820 <= year <= 275759 ->
  year < 0 \/ 99 < year ->
  0 <= startMonth <= 11 ->
  0 <= startDayOfWeek <= 6 ->
  (54 <= fuel)%nat ->
  exists schedule counts first offset,
    generateSchedule LocalTZA people year startMonth startDayOfWeek fuel
      holidayList = Some (schedule, counts)
    /\ Date_UTC (Some year) (Some startMonth) (Some 1) = Some first
    /\ 0 <= offset <= 6
    /\ (1 <= length schedule <= 53)%nat
    /\ (startMonth = 0 -> (52 <= length schedule)%nat)
    /\ (forall i w,
          schedule !! i = Some w ->
          startDate w = Some (first + (offset + 7 * Z.of_nat i) * msPerDay)
          /\ getUTCDay (startDate w) = Some startDayOfWeek
          /\ getUTCFullYear (startDate w) = Some year)
    /\ YearFromTime
         (first + (offset + 7 * Z.of_nat (length schedule)) * msPerDay)
       = year + 1.
Proof.
  intros Hy Hq Hm Hw Hfuel.
  destruct (generateSchedule_emits LocalTZA people year startMonth
              startDayOfWeek holidayList Hy Hm Hw fuel Hfuel)
    as [t0 [ws [HUTC [HY0 [Hemit [Hchain [_ Hgen]]]]]]].
  assert (fullYear year = year) as FY
    by (unfold fullYear; destruct (Z.leb_spec 0 year);
        destruct (Z.leb_spec year 99); simpl; lia).
  rewrite FY in HY0.
  set (k := daysToStartDay startDayOfWeek t0) in *.
  assert (0 <= k <= 6) as Hk by (unfold k, daysToStartDay; lia).
  destruct (Date_UTC_day _ _ _ _ HUTC) as [D0 M0]. rewrite FY in D0.
  (* the day number of the first of the month within the year *)
  assert (DayFromYear year <= Day t0 <= DayFromYear year + 335
          /\ (startMonth = 0 -> Day t0 = DayFromYear year)) as [B0 B00].
  { rewrite D0. unfold MakeDay. cbv zeta.
    replace (startMonth / 12) with 0 by lia.
    replace (startMonth mod 12) with startMonth by lia.
    rewrite Z.add_0_r.
    pose proof (InLeapYear_range year).
    unfold MonthStart. case_cmp; lia. }
  pose proof (DayFromYear_step year) as St.
  pose proof (DaysInYear_range year) as Dy.
  pose proof (DayFromYear_step (year + 1)) as St1.
  pose proof (DaysInYear_range (year + 1)) as Dy1.
  replace (year + 1 + 1) with (year + 2) in St1 by lia.
  pose proof (emitWeeks_stop LocalTZA year holidayList Hy fuel _ _ Hemit)
    as Hstop.
  pose proof (week_chain_lookup year _ _ Hchain) as Hlook.
  set (a := t0 + k * msPerDay) in *.
  assert (Day a = Day t0 + k) as Da by (unfold a; apply Day_shift).
  (* the first start date lies in the year, so there is a first week *)
  assert (ws <> []) as Hne.
  { intros ->. simpl length in Hstop.
    replace (a + 7 * Z.of_nat 0 * msPerDay) with a in Hstop by lia.
    apply Hstop. unfold YearFromTime. apply YearFromDay_unique. lia. }
  assert (forall n, YearFromTime (a + 7 * Z.of_nat n * msPerDay) = year ->
                    Day t0 + k + 7 * Z.of_nat n < DayFromYear (year + 1)) as Hin.
  { intros n Hn. unfold YearFromTime in Hn.
    pose proof (YearFromDay_spec (Day (a + 7 * Z.of_nat n * msPerDay))) as S.
    rewrite Hn in S.
    replace (a + 7 * Z.of_nat n * msPerDay)
      with (a + (7 * Z.of_nat n) * msPerDay) in S by lia.
    rewrite Day_shift, Da in S. lia. }
  assert (DayFromYear (year + 1) <= Day t0 + k + 7 * Z.of_nat (length ws))
    as Hout.
  { destruct (Z.lt_ge_cases (Day t0 + k + 7 * Z.of_nat (length ws))
                (DayFromYear (year + 1))) as [L | G]; [ | exact G].
    exfalso. apply Hstop. unfold YearFromTime. apply YearFromDay_unique.
    replace (a + 7 * Z.of_nat (length ws) * msPerDay)
      with (a + (7 * Z.of_nat (length ws)) * msPerDay) by lia.
    rewrite Day_shift, Da. lia. }
  assert (Day t0 + k + 7 * (Z.of_nat (length ws) - 1) < DayFromYear (year + 1))
    as Hlast.
  { destruct ws as [ | w0 ws0] eqn:Ews; [congruence | ].
    destruct (lookup_lt_is_Some_2 (w0 :: ws0) (length ws0)) as [wl Hwl];
      [simpl; lia | ].
    destruct (Hlook _ _ Hwl) as [_ Hyl]. apply Hin in Hyl.
    simpl length. lia. }
  pose proof (assignPeopleToWeeks_kept LocalTZA people holidayList ws) as K.
  destruct (assignPeopleToWeeks LocalTZA people ws holidayList)
    as [schedule counts].
  simpl in K. pose proof (Forall2_length _ _ _ K) as Hlen.
  exists schedule, counts, t0, k.
  split; [exact Hgen | split; [exact HUTC | split; [exact Hk | ] ] ].
  rewrite <- Hlen.
  assert (length ws <> 0%nat) as Hlen0 by (destruct ws; simpl; congruence).
  split; [lia | ]. split; [intros ->; specialize (B00 eq_refl); lia | ].
  split.
  - intros i w' Hi.
    destruct (Forall2_lookup_r _ _ _ _ _ K Hi) as [w [Hwi [Ks _]]].
    destruct (Hlook _ _ Hwi) as [Hs Hyr].
    replace (a + 7 * Z.of_nat i * msPerDay)
      with (t0 + (k + 7 * Z.of_nat i) * msPerDay) in Hs, Hyr
      by (unfold a; lia).
    rewrite Ks, Hs. split; [reflexivity | ].
    unfold getUTCDay, getUTCFullYear, option_map. rewrite Hyr.
    split; [ | reflexivity]. f_equal.
    rewrite WeekDay_shift. pose proof (WeekDay_range t0).
    unfold k, daysToStartDay. lia.
  - unfold YearFromTime. apply YearFromDay_unique.
    rewrite Day_shift. replace (year + 1 + 1) with (year + 2) by lia. lia.
Qed.

Lemma generateSchedule_covers_year_witness :
  exists schedule counts first offset,
    generateSchedule 0 [] 2025 0 2 60 [] = Some (schedule, counts)
    /\ Date_UTC (Some 2025) (Some 0) (Some 1) = Some first
    /\ 0 <= offset <= 6
    /\ (1 <= length schedule <= 53)%nat
    /\ (0 = 0 -> (52 <= length schedule)%nat)
    /\ (forall i w,
          schedule !! i = Some w ->
          startDate w = Some (first + (offset + 7 * Z.of_nat i) * msPerDay)
          /\ getUTCDay (startDate w) = Some 2
          /\ getUTCFullYear (startDate w) = Some 2025)
    /\ YearFromTime
         (first + (offset + 7 * Z.of_nat (length schedule)) * msPerDay)
       = 2025 + 1.
Proof.
  apply (generateSchedule_covers_year 0 [] 2025 0 2 [] 60); lia.
Defined.

End GenerateCoverage.

(** ** The assignment pass as a whole *)

Section PassInvariant.

Variables (LocalTZA : Z) (people : list Person) (holidayList : list Holiday).

(** The three outcomes of the pass for a week. *)
Lemma assignWeek_cases counts index week :
  pass_counts people counts ->
  let result := assignWeek LocalTZA people holidayList counts index week in
  (isHolidayPeriod week = true /\ result = (week, counts))
  \/ (isHolidayPeriod week = false
      /\ availablePeople LocalTZA people week = []
      /\ result = (withAssignedTo week (Status NoOneAvailable), counts))
  \/ (isHolidayPeriod week = false
      /\ exists front p back c,
           availablePeople LocalTZA people week = front ++ p :: back
           /\ counts !! id p = Some c
           /\ (forall q, In q front -> key_lt c (counts !!! id q))
           /\ (forall q, In q back -> ~ key_lt (counts !!! id q) c)
           /\ result
              = ({| startDate := startDate week; endDate := endDate week;
                    assignedTo := PersonId (id p);
                    hasHoliday :=
                      weekContainsHoliday LocalTZA (startDate week)
                        (endDate week) holidayList;
                    isHolidayPeriod := isHolidayPeriod week;
                    notes := notes week |},
                 <[id p := {| total := total c + 1;
                              holiday :=
                                if weekContainsHoliday LocalTZA
                                     (startDate week) (endDate week)
                                     holidayList
                                then holiday c + 1 else holiday c;
                              lastAssigned := Some (Finite index) |}]>
                   counts)).
Proof.
  intros Hpass result. unfold result.
  destruct (Bool.bool_dec (isHolidayPeriod week) true) as [Hhp | Hhp].
  - left. split; [exact Hhp | ]. unfold assignWeek. now rewrite Hhp.
  - right. apply not_true_is_false in Hhp.
    assert (availablePeople LocalTZA people week = []
            \/ availablePeople LocalTZA people week <> []) as [Hav | Hav]
      by (destruct (availablePeople LocalTZA people week);
          [now left | right; discriminate]).
    + left. split; [exact Hhp | split; [exact Hav | ] ].
      unfold assignWeek, withAssignedTo. rewrite Hav, Hhp. reflexivity.
    + right. split; [exact Hhp | ].
      apply assignWeek_selects; assumption.
Qed.


End PassInvariant.

Section PassExtras.






End PassExtras.

Section PassOutcomes.
Import JSDate JSDateFacts.

(** What the pass makes of a week: a week of the holiday period is kept as
    it is; a week for which nobody is available gets the status No one
    available and keeps its holiday flag; any other week goes to one of the
    available people, with the holiday flag recomputed. *)
Definition week_outcome (LocalTZA : Z) (people : list Person)
    (holidayList : list Holiday) (w w' : Week) : Prop :=
  (isHolidayPeriod w = true /\ w' = w)
  \/ (isHolidayPeriod w = false
      /\ availablePeople LocalTZA people w = []
      /\ w' = withAssignedTo w (Status NoOneAvailable))
  \/ (isHolidayPeriod w = false
      /\ exists p,
           In p (availablePeople LocalTZA people w)
           /\ w' = {| startDate := startDate w; endDate := endDate w;
                      assignedTo := PersonId (id p);
                      hasHoliday :=
                        weekContainsHoliday LocalTZA (startDate w) (endDate w)
                          holidayList;
                      isHolidayPeriod := isHolidayPeriod w;
                      notes := notes w |}).

Lemma assignWeeks_outcomes LocalTZA people holidayList weeks :
  forall counts index,
    pass_counts people counts ->
    Forall2 (week_outcome LocalTZA people holidayList) weeks
      (fst (assignWeeks LocalTZA people holidayList counts index weeks)).
Proof.
  induction weeks as [ | w weeks IH]; intros counts index Hpass; simpl.
  - constructor.
  - pose proof (assignWeek_cases LocalTZA people holidayList counts index w
                  Hpass) as C.
    pose proof (assignWeek_pass LocalTZA people holidayList counts index w
                  Hpass) as P1.
    cbv zeta in C.
    destruct (assignWeek LocalTZA people holidayList counts index w)
      as [w' counts'].
    specialize (IH counts' (index + 1) P1).
    destruct (assignWeeks LocalTZA people holidayList counts' (index + 1) weeks)
      as [rest' counts''].
    constructor; [ | exact IH].
    destruct C as [[Hhp E] | [[Hhp [Hav E]] | [Hhp (front & p & back & c & Hl
                                                    & _ & _ & _ & E)]]];
      injection E as -> _.
    + left. auto.
    + right. left. auto.
    + right. right. split; [exact Hhp | ]. exists p. split; [ | reflexivity].
      rewrite Hl. apply in_elt.
Qed.

Lemma week_outcomes_hold
    (LocalTZA : Z) (people : list Person) (holidayList : list Holiday)
    (currentSchedule : list Week) :
  Forall2 (week_outcome LocalTZA people holidayList) currentSchedule
    (fst (assignPeopleToWeeks LocalTZA people currentSchedule holidayList))
  /\ forall i w w',
       currentSchedule !! i = Some w ->
       fst (assignPeopleToWeeks LocalTZA people currentSchedule holidayList)
         !! i = Some w' ->
       isHolidayPeriod w = false ->
       (assignedTo w' = Status NoOneAvailable
        <-> forall p, In p people ->
              isPersonOnLeave LocalTZA people (id p) (startDate w) (endDate w)
              = true)
       /\ (forall n, assignedTo w' = PersonId n ->
             exists p, In p people /\ id p = n
                       /\ isPersonOnLeave LocalTZA people n (startDate w)
                            (endDate w) = false).
Proof.
  assert (Forall2 (week_outcome LocalTZA people holidayList) currentSchedule
            (fst (assignPeopleToWeeks LocalTZA people currentSchedule
                    holidayList))) as HF.
  { unfold assignPeopleToWeeks.
    pose proof (assignWeeks_outcomes LocalTZA people holidayList
                  currentSchedule (initCounts people (Some NegInfinity)) 0
                  (initCounts_pass people)) as H.
    destruct (assignWeeks _ _ _ _ _ _) as [updated counts']. exact H. }
  split; [exact HF | ].
  intros i w w' Hi Hi' Hhp.
  destruct (Forall2_lookup_l _ _ _ _ _ HF Hi) as [w2 [Hi2 Hout]].
  assert (w2 = w') as -> by congruence.
  assert (forall p, In p (availablePeople LocalTZA people w)
                    <-> In p people
                        /\ isPersonOnLeave LocalTZA people (id p)
                             (startDate w) (endDate w) = false) as Hav.
  { intros p. unfold availablePeople. rewrite filter_In, negb_true_iff.
    tauto. }
  destruct Hout as [[Hh _] | [[_ [He ->]] | [_ [p [Hp ->]]]]];
    [congruence | | ].
  - split.
    + split; [ | reflexivity]. intros _ p Hp.
      destruct (isPersonOnLeave LocalTZA people (id p) (startDate w)
                  (endDate w)) eqn:E; [reflexivity | ].
      assert (In p (availablePeople LocalTZA people w)) as Hin
        by (apply Hav; auto).
      rewrite He in Hin. destruct Hin.
    + simpl. intros n E. discriminate E.
  - apply Hav in Hp. destruct Hp as [Hp Hfree]. split.
    + split; [simpl; intros E; discriminate E | ].
      intros Hall. rewrite (Hall p Hp) in Hfree. discriminate.
    + simpl. intros n [= <-]. exists p. auto.
Qed.

(** Every week of the stored schedule is the outcome of its week of the
    schedule that came in: the status No one available is given exactly to
    the weeks outside the holiday period for which [isPersonOnLeave] holds
    of every roster member, and a person is only given weeks for which it
    does not hold of them. *)
Theorem assignPeopleToWeeks_outcomes
    (LocalTZA : Z) (people : list Person) (holidayList : list Holiday)
    (currentSchedule : list Week) :
  Forall2 (week_outcome LocalTZA people holidayList) currentSchedule
    (fst (assignPeopleToWeeks LocalTZA people currentSchedule holidayList))
  /\ forall i w w',
       currentSchedule !! i = Some w ->
       fst (assignPeopleToWeeks LocalTZA people currentSchedule holidayList)
         !! i = Some w' ->
       isHolidayPeriod w = false ->
       (assignedTo w' = Status NoOneAvailable
        <-> forall p, In p people ->
              isPersonOnLeave LocalTZA people (id p) (startDate w) (endDate w)
              = true)
       /\ (forall n, assignedTo w' = PersonId n ->
             exists p, In p people /\ id p = n
                       /\ isPersonOnLeave LocalTZA people n (startDate w)
                            (endDate w) = false).
Proof.
  exact (week_outcomes_hold LocalTZA people holidayList currentSchedule).
Qed.

End PassOutcomes.

Section Balance.




End Balance.

(** ** Local calendar dates: leave and holidays *)

Section LocalDates.
Import JSDate JSDateFacts.

Variable LocalTZA : Z.

(** The whole days by which the local calendar date of a UTC midnight
    differs from its UTC date: 0 at and east of UTC (less than a day), -1
    west of it. *)
Definition localDayShift : Z := LocalTZA / msPerDay.

(** A UTC midnight whose local calendar date is a date that [Date.UTC]
    takes as it is. *)
Definition plainMidnight (t : Z) : Prop :=
  TimeWithinDay t = 0
  /\ - maxTime <= t + localDayShift * msPerDay <= maxTime
  /\ (YearFromTime (t + localDayShift * msPerDay) < 0
      \/ 99 < YearFromTime (t + localDayShift * msPerDay)).

(** [Date.UTC(d.getFullYear(), d.getMonth(), d.getDate())] is the UTC
    midnight of the local calendar date. *)
Lemma local_date_UTC t :
  plainMidnight t ->
  Date_UTC (getFullYear LocalTZA (Some t)) (getMonth LocalTZA (Some t))
           (getDate LocalTZA (Some t))
  = Some (t + localDayShift * msPerDay).
Proof.
  intros (Hmid & Hrange & Hyear).
  assert (Day (t + LocalTZA) = Day (t + localDayShift * msPerDay)) as HD.
  { unfold Day, localDayShift, TimeWithinDay, msPerDay in *. lia. }
  assert (YearFromTime (t + LocalTZA)
          = YearFromTime (t + localDayShift * msPerDay)) as HY
    by (unfold YearFromTime; now rewrite HD).
  assert (MonthFromTime (t + LocalTZA)
          = MonthFromTime (t + localDayShift * msPerDay)) as HM
    by (unfold MonthFromTime, YearFromTime; now rewrite HD).
  assert (DateFromTime (t + LocalTZA)
          = DateFromTime (t + localDayShift * msPerDay)) as HDt
    by (unfold DateFromTime, MonthFromTime, YearFromTime; now rewrite HD).
  unfold getFullYear, getMonth, getDate, option_map, Date_UTC.
  rewrite HY, HM, HDt.
  set (u := t + localDayShift * msPerDay) in *.
  replace ((0 <=? YearFromTime u) && (YearFromTime u <=? 99)) with false
    by (symmetry; apply andb_false_iff; lia).
  pose proof (MakeDay_of_time u 0) as MD. rewrite !Z.add_0_r in MD.
  rewrite MD.
  assert (MakeDate (Day u) 0 = u) as ->.
  { unfold u, MakeDate, Day, TimeWithinDay, msPerDay in *. lia. }
  now apply TimeClip_Some.
Qed.

Variable people : list Person.

Lemma NoDup_id_eq (p q : Person) :
  List.NoDup (map id people) -> In p people -> In q people -> id p = id q -> p = q.
Proof.
  induction people as [ | x l IH]; intros Hnd Hp Hq E; [destruct Hp | ].
  simpl in Hnd. apply List.NoDup_cons_iff in Hnd. destruct Hnd as [Hx Hnd].
  destruct Hp as [<- | Hp], Hq as [<- | Hq]; auto.
  - exfalso. apply Hx. rewrite E. now apply in_map.
  - exfalso. apply Hx. rewrite <- E. now apply in_map.
Qed.

Lemma find_by_id p :
  List.NoDup (map id people) -> In p people ->
  List.find (fun q => id q =? id p) people = Some p.
Proof.
  intros Hnd Hp.
  destruct (List.find (fun q => id q =? id p) people) as [q | ] eqn:F.
  - apply find_some in F. destruct F as [Hq E]. apply Z.eqb_eq in E.
    f_equal. now apply NoDup_id_eq.
  - apply (find_none _ _ F) in Hp. rewrite Z.eqb_refl in Hp. discriminate.
Qed.

Lemma on_leave_local_span (p : Person) (s e : Z) :
  List.NoDup (map id people) -> In p people ->
  plainMidnight s -> plainMidnight e ->
  isPersonOnLeave LocalTZA people (id p) (Some s) (Some e) = true
  <-> exists l ls le,
        In l (leave p)
        /\ Date_parse (leave_start l ++ timeSuffix) = Some ls
        /\ Date_parse (leave_end l ++ timeSuffix) = Some le
        /\ ls <= e + localDayShift * msPerDay
        /\ s + localDayShift * msPerDay <= le.
Proof.
  intros Hnd Hp Hs He. unfold isPersonOnLeave.
  rewrite (find_by_id p Hnd Hp), existsb_exists.
  rewrite (local_date_UTC s Hs), (local_date_UTC e He).
  split.
  - intros [l [Hl H]]. apply andb_true_iff in H. destruct H as [H1 H2].
    unfold Date_leb, Date_geb, num_geb, num_leb in H1, H2.
    destruct (Date_parse (leave_start l ++ timeSuffix)) as [ls | ] eqn:E1;
      [ | discriminate].
    destruct (Date_parse (leave_end l ++ timeSuffix)) as [le | ] eqn:E2;
      [ | discriminate].
    apply Z.leb_le in H1, H2. exists l, ls, le. auto.
  - intros (l & ls & le & Hl & Els & Ele & H1 & H2).
    exists l. split; [exact Hl | ]. rewrite Els, Ele.
    unfold Date_leb, Date_geb, num_geb, num_leb.
    apply andb_true_iff. split; now apply Z.leb_le.
Qed.

(** With unique ids, a person is on leave for a week exactly when one of
    their leave intervals overlaps the span of the local calendar dates of
    the week: the span itself at and east of UTC, the span moved one day
    earlier west of UTC.  A leave whose dates do not parse never counts. *)
Theorem isPersonOnLeave_local_span (p : Person) (s e : Z) :
  List.NoDup (map id people) -> In p people ->
  plainMidnight s -> plainMidnight e ->
  isPersonOnLeave LocalTZA people (id p) (Some s) (Some e) = true
  <-> exists l ls le,
        In l (leave p)
        /\ Date_parse (leave_start l ++ timeSuffix) = Some ls
        /\ Date_parse (leave_end l ++ timeSuffix) = Some le
        /\ ls <= e + localDayShift * msPerDay
        /\ s + localDayShift * msPerDay <= le.
Proof.
  exact (on_leave_local_span p s e).
Qed.

(** A week contains a holiday exactly when the date of one of the listed
    holidays parses and lies within the span of the local calendar dates of
    the week; a holiday whose date does not parse never counts. *)
Theorem weekContainsHoliday_local_span (holidayList : list Holiday) (s e : Z) :
  plainMidnight s -> plainMidnight e ->
  weekContainsHoliday LocalTZA (Some s) (Some e) holidayList = true
  <-> exists h d,
        In h holidayList
        /\ Date_parse (date h ++ timeSuffix) = Some d
        /\ s + localDayShift * msPerDay <= d <= e + localDayShift * msPerDay.
Proof.
  intros Hs He. unfold weekContainsHoliday.
  rewrite existsb_exists.
  rewrite (local_date_UTC s Hs), (local_date_UTC e He).
  split.
  - intros [h [Hh H]]. apply andb_true_iff in H. destruct H as [H1 H2].
    unfold Date_leb, Date_geb, num_geb, num_leb in H1, H2.
    destruct (Date_parse (date h ++ timeSuffix)) as [d | ] eqn:E1;
      [ | discriminate].
    apply Z.leb_le in H1, H2. exists h, d. auto.
  - intros (h & d & Hh & Ed & H1 & H2).
    exists h. split; [exact Hh | ]. rewrite Ed.
    unfold Date_leb, Date_geb, num_geb, num_leb.
    apply andb_true_iff. split; now apply Z.leb_le.
Qed.

End LocalDates.

Lemma isPersonOnLeave_local_span_witness :
  isPersonOnLeave hoursWestOfUTC5 leave_people
    (id {| id := 1; name := lit "Person 1";
           leave := [ {| leave_start := lit "2025-01-13";
                         leave_end := lit "2025-01-13" |} ] |})
    (Some 1736208000000) (Some 1736726400000) = true
  <-> exists l ls le,
        In l (leave {| id := 1; name := lit "Person 1";
                       leave := [ {| leave_start := lit "2025-01-13";
                                     leave_end := lit "2025-01-13" |} ] |})
        /\ Date_parse (leave_start l ++ timeSuffix) = Some ls
        /\ Date_parse (leave_end l ++ timeSuffix) = Some le
        /\ ls <= 1736726400000
                  + localDayShift hoursWestOfUTC5 * JSDate.msPerDay
        /\ 1736208000000 + localDayShift hoursWestOfUTC5 * JSDate.msPerDay
           <= le.
Proof.
  apply (isPersonOnLeave_local_span hoursWestOfUTC5 leave_people).
  - repeat constructor. simpl. tauto.
  - left. reflexivity.
  - vm_compute. repeat split; try discriminate. right. reflexivity.
  - vm_compute. repeat split; try discriminate. right. reflexivity.
Defined.

Lemma weekContainsHoliday_local_span_witness :
  weekContainsHoliday 0 (Some 1736208000000) (Some 1736726400000)
    [ {| date := lit "2025-01-09"; holiday_name := lit "Day of Mourning" |} ]
  = true
  <-> exists h d,
        In h [ {| date := lit "2025-01-09";
                  holiday_name := lit "Day of Mourning" |} ]
        /\ Date_parse (date h ++ timeSuffix) = Some d
        /\ 1736208000000 + localDayShift 0 * JSDate.msPerDay <= d
           <= 1736726400000 + localDayShift 0 * JSDate.msPerDay.
Proof.
  apply (weekContainsHoliday_local_span 0).
  - vm_compute. repeat split; try discriminate. right. reflexivity.
  - vm_compute. repeat split; try discriminate. right. reflexivity.
Defined.

Section LeaveRespected.
Import JSDate JSDateFacts.

(** At and east of UTC (less than a day) and with unique ids, the pass gives
    no week outside the holiday period to a person one of whose leave
    intervals overlaps the span of the week, for weeks whose dates are UTC
    midnights outside the years 0..99. *)
Theorem assignPeopleToWeeks_respects_leave
    (LocalTZA : Z) (people : list Person) (holidayList : list Holiday)
    (currentSchedule : list Week) (i : nat) (w w' : Week) (s e : Z)
    (p : Person) (l : Leave) :
  0 <= LocalTZA < msPerDay ->
  List.NoDup (map id people) ->
  currentSchedule !! i = Some w ->
  fst (assignPeopleToWeeks LocalTZA people currentSchedule holidayList) !! i
  = Some w' ->
  isHolidayPeriod w = false ->
  startDate w = Some s -> endDate w = Some e ->
  plainMidnight LocalTZA s -> plainMidnight LocalTZA e ->
  In p people -> assignedTo w' = PersonId (id p) -> In l (leave p) ->
  startDate w' = Some s /\ endDate w' = Some e /\ leave_overlaps l w' = false.
Proof.
  intros Htz Hnd Hi Hi' Hhp Hs He Ps Pe Hp Ha Hl.
  assert (localDayShift LocalTZA = 0) as Hshift
    by (unfold localDayShift, msPerDay in *; lia).
  destruct (week_outcomes_hold LocalTZA people holidayList
              currentSchedule) as [HF Hout].
  destruct (Hout i w w' Hi Hi' Hhp) as [_ Hperson].
  destruct (Hperson (id p) Ha) as [q [Hq [Eq Hfree]]].
  pose proof (assignPeopleToWeeks_kept LocalTZA people holidayList
                currentSchedule) as K.
  destruct (Forall2_lookup_l _ _ _ _ _ K Hi) as [w2 [Hi2 [Ks [Ke _]]]].
  assert (w2 = w') as -> by congruence.
  rewrite Hs in Ks. rewrite He in Ke.
  split; [exact Ks | split; [exact Ke | ] ].
  rewrite Hs, He in Hfree.
  destruct (leave_overlaps l w') eqn:Ov; [ | reflexivity].
  exfalso.
  assert (isPersonOnLeave LocalTZA people (id p) (Some s) (Some e) = true)
    as Hon.
  { apply (on_leave_local_span LocalTZA people p s e Hnd Hp Ps Pe).
    unfold leave_overlaps in Ov. rewrite Ks, Ke in Ov.
    apply andb_true_iff in Ov. destruct Ov as [O1 O2].
    unfold Date_leb, Date_geb, num_geb, num_leb in O1, O2.
    destruct (Date_parse (leave_start l ++ timeSuffix)) as [ls | ] eqn:E1;
      [ | discriminate].
    destruct (Date_parse (leave_end l ++ timeSuffix)) as [le | ] eqn:E2;
      [ | discriminate].
    apply Z.leb_le in O1, O2.
    exists l, ls, le. rewrite Hshift. repeat split; auto; lia. }
  congruence.
Qed.

Definition leave_example_week : Week :=
  {| startDate := Some 1736208000000; endDate := Some 1736726400000;
     assignedTo := Null; hasHoliday := false; isHolidayPeriod := false;
     notes := [] |}.

Definition leave_example_people : list Person :=
  [ {| id := 1; name := lit "Person 1";
       leave := [ {| leave_start := lit "2025-01-13";
                     leave_end := lit "2025-01-13" |} ] |};
    {| id := 2; name := lit "Person 2";
       leave := [ {| leave_start := lit "2025-02-03";
                     leave_end := lit "2025-02-04" |} ] |} ].

Lemma assignPeopleToWeeks_respects_leave_witness :
  startDate (withAssignedTo leave_example_week (PersonId 2))
  = Some 1736208000000
  /\ endDate (withAssignedTo leave_example_week (PersonId 2))
     = Some 1736726400000
  /\ leave_overlaps
       {| leave_start := lit "2025-02-03"; leave_end := lit "2025-02-04" |}
       (withAssignedTo leave_example_week (PersonId 2)) = false.
Proof.
  apply (assignPeopleToWeeks_respects_leave 0 leave_example_people []
           [leave_example_week] O leave_example_week
           (withAssignedTo leave_example_week (PersonId 2))
           1736208000000 1736726400000
           {| id := 2; name := lit "Person 2";
              leave := [ {| leave_start := lit "2025-02-03";
                            leave_end := lit "2025-02-04" |} ] |}).
  - unfold msPerDay. lia.
  - repeat constructor; simpl; intuition discriminate.
  - reflexivity.
  - vm_compute. reflexivity.
  - reflexivity.
  - reflexivity.
  - reflexivity.
  - vm_compute. repeat split; try discriminate. right. reflexivity.
  - vm_compute. repeat split; try discriminate. right. reflexivity.
  - right. left. reflexivity.
  - reflexivity.
  - left. reflexivity.
Defined.

End LeaveRespected.

(** ** The CSV helpers and the scanner *)

Section CsvExtras.
Import JSDate.

Lemma undoubleQuotes_cons_plain c s :
  c <> quote -> undoubleQuotes (c :: s) = c :: undoubleQuotes s.
Proof.
  intros Hc. simpl. destruct s as [ | c' s']; [reflexivity | ].
  replace (char_eqb c quote) with false
    by (symmetry; now apply char_eqb_neq).
  reflexivity.
Qed.

Lemma undoubleQuotes_doubleQuotes s : undoubleQuotes (doubleQuotes s) = s.
Proof.
  induction s as [ | c s IH]; [reflexivity | ].
  unfold doubleQuotes in *. simpl flat_map.
  destruct (char_eqb c quote) eqn:E.
  - apply char_eqb_eq in E. subst c.
    change (undoubleQuotes ([quote; quote] ++ ?l))
      with (quote :: undoubleQuotes l).
    now rewrite IH.
  - apply char_eqb_neq in E. simpl app.
    rewrite undoubleQuotes_cons_plain by exact E. now rewrite IH.
Qed.

(** [unescapeCSV] undoes [escapeCSV], for every field. *)
Theorem unescapeCSV_escapeCSV (field : str) :
  unescapeCSV (escapeCSV field) = field.
Proof.
  unfold escapeCSV. cbv zeta.
  destruct (includes field comma || includes field LF || includes field quote)
    eqn:E.
  - unfold unescapeCSV, endsWithQuote.
    rewrite !rev_app_distr. simpl.
    rewrite removelast_app by discriminate. simpl. rewrite app_nil_r.
    apply undoubleQuotes_doubleQuotes.
  - apply orb_false_elim in E. destruct E as [_ Hq].
    apply includes_false in Hq. now apply unescapeCSV_no_quote.
Qed.

(** The scanner of the import reads a row made of escaped fields back as
    the same number of values, each the field without its double quotes and
    trimmed: commas inside a field are kept, the double quotes of a field are
    lost. *)
Theorem parseLine_drops_quotes (fields : list str) :
  fields <> [] ->
  parseLine (join [comma] (map escapeCSV fields))
  = map (fun f => trim (dropQuotes f)) fields
  /\ length (parseLine (join [comma] (map escapeCSV fields))) = length fields.
Proof.
  intros Hne. rewrite parseLine_escaped by exact Hne.
  split; [reflexivity | apply length_map].
Qed.

Lemma parseLine_drops_quotes_witness :
  parseLine (join [comma] (map escapeCSV [lit "a,b"; [quote; "c"%char]]))
  = map (fun f => trim (dropQuotes f)) [lit "a,b"; [quote; "c"%char]]
  /\ length (parseLine
               (join [comma] (map escapeCSV [lit "a,b"; [quote; "c"%char]])))
     = length [lit "a,b"; [quote; "c"%char]].
Proof.
  apply (parseLine_drops_quotes [lit "a,b"; [quote; "c"%char]]).
  discriminate.
Defined.

(** A calendar date of the years 1000..9999, printed as YYYY-MM-DD, parses
    back to itself. *)
Theorem formatDateYYYYMMDD_parses_back (t : Z) :
  TimeWithinDay t = 0 ->
  1000 <= YearFromTime t <= 9999 ->
  length (formatDateYYYYMMDD (Some t)) = 10%nat
  /\ Date_parse (formatDateYYYYMMDD (Some t) ++ timeSuffix) = Some t.
Proof.
  intros Hmid Hyear.
  assert (calendarDate t) as Hcal by (split; assumption).
  split; [ | now apply Date_parse_format].
  destruct (formatDateYYYYMMDD_shape t Hcal)
    as (a & b & c & d & e & f & g & h & va & vb & vc & vd & ve & vf & vg & vh
        & -> & _).
  reflexivity.
Qed.

Lemma formatDateYYYYMMDD_parses_back_witness :
  length (formatDateYYYYMMDD (Some 1736208000000)) = 10%nat
  /\ Date_parse (formatDateYYYYMMDD (Some 1736208000000) ++ timeSuffix)
     = Some 1736208000000.
Proof.
  apply (formatDateYYYYMMDD_parses_back 1736208000000).
  - reflexivity.
  - vm_compute. split; discriminate.
Defined.

(** *** Values of the scanner *)

Lemma trim_trim s : trim (trim s) = trim s.
Proof.
  apply trim_id.
  - destruct (trim s) as [ | c r] eqn:E; [exact I | ].
    eapply trim_first, E.
  - destruct (rev (trim s)) as [ | c r] eqn:E; [exact I | ].
    apply (trim_last s (rev r)).
    rewrite <- (rev_involutive (trim s)), E. reflexivity.
Qed.

(** A value of the scanner holds no double quote and is trimmed. *)
Definition scannedValue (v : str) : Prop := ~ In quote v /\ trim v = v.

Lemma scannedValue_trim cur : ~ In quote cur ->
  scannedValue (unescapeCSV (trim cur)).
Proof.
  intros Hq.
  assert (~ In quote (trim cur)) as Hq'
    by (intros H; apply Hq; eapply trim_In, H).
  rewrite unescapeCSV_no_quote by exact Hq'.
  split; [exact Hq' | apply trim_trim].
Qed.

Lemma scanLine_values line :
  forall values cur inQuotes,
    Forall scannedValue values -> ~ In quote cur ->
    Forall scannedValue (scanLine line values cur inQuotes).
Proof.
  induction line as [ | c line IH]; intros values cur inQuotes Hv Hq.
  - simpl. apply Forall_app. split; [exact Hv | ].
    constructor; [now apply scannedValue_trim | constructor].
  - simpl. destruct (char_eqb c quote) eqn:E; [now apply IH | ].
    destruct (char_eqb c comma && negb inQuotes).
    + apply IH; [ | intros []].
      apply Forall_app. split; [exact Hv | ].
      constructor; [now apply scannedValue_trim | constructor].
    + apply IH; [exact Hv | ].
      rewrite in_app_iff. intros [H | [E' | []]]; [now apply Hq | ].
      subst c. discriminate E.
Qed.

(** Whatever the file holds, every week of an imported schedule has a valid
    start date and a valid end date, and notes that hold no double quote and
    are trimmed. *)
Theorem importScheduleCSV_weeks_wellformed
    (LocalTZA : Z) (st : State) (csvContent : str)
    (importedSchedule : list Week) (w : Week) :
  fst (parseScheduleCSV LocalTZA st csvContent) = inr importedSchedule ->
  In w importedSchedule ->
  (exists s e, startDate w = Some s /\ endDate w = Some e)
  /\ ~ In quote (notes w)
  /\ trim (notes w) = notes w.
Proof.
  intros Hparse Hin.
  destruct (parseScheduleCSV_inr LocalTZA st csvContent importedSchedule
              Hparse) as [headerLine [dataLines [_ [_ [-> _]]]]].
  destruct (retainedWeeks_In LocalTZA st dataLines w Hin) as [line [_ Hw]].
  destruct (Nat.eq_dec (length (parseLine line)) 5%nat) as [E | N].
  - destruct (five_values _ E) as [s [e [a [h [n Hv]]]]].
    assert (scannedValue n) as [Hq Ht].
    { pose proof (scanLine_values line [] [] false ltac:(constructor)
                    ltac:(intros [])) as HF.
      fold (parseLine line) in HF. rewrite Hv in HF.
      rewrite List.Forall_forall in HF. apply HF. simpl. tauto. }
    rewrite (importRow_values LocalTZA st O line s e a h n Hv) in Hw.
    cbv zeta in Hw.
    destruct (Date_parse (s ++ timeSuffix)) as [ts | ];
      [ | cbn [isNaN getTime orb fst] in Hw; discriminate].
    destruct (Date_parse (e ++ timeSuffix)) as [te | ];
      [ | cbn [isNaN getTime orb fst] in Hw; discriminate].
    cbn [isNaN getTime orb fst] in Hw.
    match type of Hw with
    | Some ?x = _ =>
        assert (startDate x = Some ts /\ endDate x = Some te /\ notes x = n)
          as Hx by (repeat split; reflexivity);
        revert Hw Hx; generalize x; intros wk Hw Hx
    end.
    assert (wk = w) as -> by congruence.
    destruct Hx as (Hs & He & Hn). rewrite Hn.
    split; [exists ts, te; auto | auto].
  - unfold importRow in Hw. cbv zeta in Hw.
    replace (length (parseLine line) =? length CSV_HEADERS)%nat with false
      in Hw by (symmetry; apply Nat.eqb_neq; exact N).
    discriminate.
Qed.

Lemma importScheduleCSV_weeks_wellformed_witness :
  (exists s e, startDate holiday_row_week = Some s
               /\ endDate holiday_row_week = Some e)
  /\ ~ In quote (notes holiday_row_week)
  /\ trim (notes holiday_row_week) = notes holiday_row_week.
Proof.
  apply (importScheduleCSV_weeks_wellformed 0 example_state holiday_row_csv
           [holiday_row_week] holiday_row_week).
  - vm_compute. reflexivity.
  - left. reflexivity.
Defined.

(** The import does not read the Holidays column: two rows that differ in
    that column only give the same week. *)
Theorem importRow_ignores_holidays_column
    (LocalTZA : Z) (st : State) (i j : nat) (line1 line2 : str)
    (s e a h1 h2 n : str) :
  parseLine line1 = [s; e; a; h1; n] ->
  parseLine line2 = [s; e; a; h2; n] ->
  fst (importRow LocalTZA st headerIndex i line1)
  = fst (importRow LocalTZA st headerIndex j line2).
Proof.
  intros H1 H2.
  rewrite (importRow_values LocalTZA st i line1 s e a h1 n H1).
  rewrite (importRow_values LocalTZA st j line2 s e a h2 n H2).
  cbv zeta. destruct (_ || _); reflexivity.
Qed.

Lemma importRow_ignores_holidays_column_witness :
  fst (importRow 0 example_state headerIndex 0
         (lit "2025-01-07,2025-01-13,Person 1,,x"))
  = fst (importRow 0 example_state headerIndex 1
           (lit "2025-01-07,2025-01-13,Person 1,2025-01-09: Some Day,x")).
Proof.
  apply (importRow_ignores_holidays_column 0 example_state 0 1
           (lit "2025-01-07,2025-01-13,Person 1,,x")
           (lit "2025-01-07,2025-01-13,Person 1,2025-01-09: Some Day,x")
           (lit "2025-01-07") (lit "2025-01-13") (lit "Person 1")
           [] (lit "2025-01-09: Some Day") (lit "x"));
    vm_compute; reflexivity.
Defined.

End CsvExtras.

(** ** Roster, leave and notes handlers *)

Section HandlerExtras.

Lemma lookup_map {A B} (f : A -> B) (l : list A) i :
  map f l !! i = f <$> (l !! i).
Proof.
  revert i. induction l as [ | x l IH]; intros [ | i]; simpl; auto.
Qed.

(** Removing a person takes them off the roster and resets every week
    assigned to them to unassigned; every other week and every other roster
    member stays as it is. *)
Theorem removePerson_unassigns (st : State) (idToRemove : Z) :
  (forall p, In p (people (removePerson st idToRemove))
             <-> In p (people st) /\ id p <> idToRemove)
  /\ (forall i w,
        schedule st !! i = Some w ->
        schedule (removePerson st idToRemove) !! i
        = Some (match assignedTo w with
                | PersonId n => if n =? idToRemove
                                then withAssignedTo w Null else w
                | _ => w
                end))
  /\ length (schedule (removePerson st idToRemove)) = length (schedule st)
  /\ (forall w, In w (schedule (removePerson st idToRemove)) ->
        assignedTo w <> PersonId idToRemove).
Proof.
  unfold removePerson. cbv zeta. simpl people. simpl schedule.
  split; [ | split; [ | split] ].
  - intros p. rewrite filter_In, negb_true_iff, Z.eqb_neq. tauto.
  - intros i w Hi. rewrite lookup_map, Hi. reflexivity.
  - apply length_map.
  - intros w' Hin. apply in_map_iff in Hin. destruct Hin as [w [<- _]].
    destruct (assignedTo w) as [n | s | ] eqn:E.
    + destruct (Z.eqb_spec n idToRemove) as [-> | N].
      * simpl. discriminate.
      * rewrite E. congruence.
    + rewrite E. discriminate.
    + rewrite E. discriminate.
Qed.

Lemma Math_max_upper x l :
  forall y, In y (x :: l) -> y <= Math_max x l.
Proof.
  unfold Math_max. revert x.
  induction l as [ | z l IH]; intros x y Hy.
  - destruct Hy as [E | []]. simpl. lia.
  - simpl fold_left. destruct Hy as [E | [E | Hy]].
    + specialize (IH (Z.max x z) (Z.max x z) (or_introl eq_refl)). lia.
    + specialize (IH (Z.max x z) (Z.max x z) (or_introl eq_refl)). lia.
    + apply IH. now right.
Qed.

Lemma Number_ofZ_exact (z : Z) :
  - 2 ^ 53 <= z <= 2 ^ 53 -> Number_ofZ z = z.
Proof.
  intros H. unfold Number_ofZ. cbv zeta.
  destruct (Z.ltb_spec (Z.abs z) (2 ^ 53)) as [L | G]; [reflexivity | ].
  assert (z = 2 ^ 53 \/ z = - 2 ^ 53) as [-> | ->] by lia; reflexivity.
Qed.

(** The ids that are safe integers: below 2^53 in magnitude, where adding
    one is exact. *)
Definition safeIds (l : list Person) : Prop :=
  forall q, In q l -> - 2 ^ 53 < id q < 2 ^ 53.

(** With ids that are safe integers, adding a person gives the new roster
    member an id above every id of the roster, so ids stay unique, and a
    trimmed name that is not empty; a blank name or a full roster changes
    nothing, and the roster never grows beyond [MAX_PEOPLE]. *)
Theorem addPerson_fresh_id (st : State) :
  List.NoDup (map id (people st)) ->
  (length (people st) <= MAX_PEOPLE)%nat ->
  safeIds (people st) ->
  List.NoDup (map id (people (addPerson st)))
  /\ (length (people (addPerson st)) <= MAX_PEOPLE)%nat
  /\ schedule (addPerson st) = schedule st
  /\ (trim (newPersonName st) = []
      \/ (MAX_PEOPLE <= length (people st))%nat -> addPerson st = st)
  /\ (trim (newPersonName st) <> [] ->
      (length (people st) < MAX_PEOPLE)%nat ->
      exists newId,
        people (addPerson st)
        = people st ++ [ {| id := newId; name := trim (newPersonName st);
                            leave := [] |} ]
        /\ (forall q, In q (people st) -> id q < newId)
        /\ newPersonName (addPerson st) = []).
Proof.
  intros Hnd Hlen Hsafe.
  assert (forall newId,
            (match map id (people st) with
             | [] => 1
             | x :: l => Number_add (Math_max x l) 1
             end) = newId ->
            forall q, In q (people st) -> id q < newId) as Hfresh.
  { intros newId E q Hq. pose proof (in_map id _ _ Hq) as Hin.
    destruct (map id (people st)) as [ | x l] eqn:Em; [destruct Hin | ].
    pose proof (Math_max_upper x l (id q) Hin) as Hup.
    assert (In (Math_max x l) (x :: l)) as Hmax.
    { clear. unfold Math_max. revert x.
      induction l as [ | z l IH]; intros x; [now left | ].
      simpl fold_left. destruct (IH (Z.max x z)) as [E | H].
      - rewrite <- E.
        destruct (Z.max_spec x z) as [[_ M] | [_ M]]; rewrite M.
        + right. now left.
        + now left.
      - right. right. exact H. }
    rewrite <- Em in Hmax. apply in_map_iff in Hmax.
    destruct Hmax as [m [Im Hm]]. pose proof (Hsafe m Hm) as Sm.
    unfold Number_add in E. rewrite Number_ofZ_exact in E by lia. lia. }
  unfold addPerson. cbv zeta.
  destruct (trim (newPersonName st)) as [ | c r] eqn:Et.
  - repeat split; auto. intros H. congruence.
  - destruct (Nat.ltb_spec (length (people st)) MAX_PEOPLE) as [L | G].
    + set (newId := match map id (people st) with
                    | [] => 1
                    | x :: l => Number_add (Math_max x l) 1
                    end) in *.
      specialize (Hfresh newId eq_refl).
      simpl people. simpl schedule. simpl newPersonName.
      split; [ | split; [ | split; [reflexivity | split] ] ].
      * rewrite map_app. simpl.
        apply List.NoDup_app; [exact Hnd | repeat constructor; simpl; tauto | ].
        intros y Hy [E | []].
        apply in_map_iff in Hy. destruct Hy as [q [E' Hq]].
        specialize (Hfresh q Hq). lia.
      * rewrite length_app. simpl. unfold MAX_PEOPLE in *. lia.
      * intros [H | H]; [discriminate | unfold MAX_PEOPLE in *; lia].
      * intros _ _. exists newId. auto.
    + repeat split; auto; try lia.
Qed.

Definition add_person_state : State :=
  {| appTitle := appTitle example_state;
     isEditingTitle := false; tempTitle := tempTitle example_state;
     year := 2025; startDayOfWeek := 2; startMonth := 0;
     people := [ {| id := 4; name := lit "Ada"; leave := [] |};
                 {| id := 9; name := lit "Bo"; leave := [] |};
                 {| id := 2; name := lit "Cy"; leave := [] |} ];
     newPersonName := lit "  Dee ";
     schedule := []; holidays := []; holidayCounts := ∅;
     leaveDate := []; leaveEndDate := [];
     selectedPersonIdForLeave := None;
     showLeaveForm := false; showNotesModal := false;
     currentWeekIndexForNotes := None; currentNotes := [] |}.

Lemma addPerson_fresh_id_witness :
  List.NoDup (map id (people (addPerson add_person_state)))
  /\ (length (people (addPerson add_person_state)) <= MAX_PEOPLE)%nat
  /\ schedule (addPerson add_person_state) = schedule add_person_state
  /\ (trim (newPersonName add_person_state) = []
      \/ (MAX_PEOPLE <= length (people add_person_state))%nat ->
      addPerson add_person_state = add_person_state)
  /\ (trim (newPersonName add_person_state) <> [] ->
      (length (people add_person_state) < MAX_PEOPLE)%nat ->
      exists newId,
        people (addPerson add_person_state)
        = people add_person_state
          ++ [ {| id := newId; name := trim (newPersonName add_person_state);
                  leave := [] |} ]
        /\ (forall q, In q (people add_person_state) -> id q < newId)
        /\ newPersonName (addPerson add_person_state) = []).
Proof.
  apply (addPerson_fresh_id add_person_state).
  - repeat constructor; simpl; intuition discriminate.
  - unfold MAX_PEOPLE. simpl. lia.
  - intros q [<- | [<- | [<- | []]]]; simpl; lia.
Defined.

(** Beyond the safe integers the bound is needed: next to an id 2^53 the
    sum 2^53 + 1 rounds back to 2^53, and the new member repeats the id. *)
Example addPerson_repeats_unsafe_id :
  map id (people (addPerson
                    (setPeople add_person_state
                       [ {| id := 2 ^ 53; name := lit "Ada"; leave := [] |} ])))
  = [2 ^ 53; 2 ^ 53].
Proof. vm_compute. reflexivity. Qed.

(** Adding a leave never leaves a person with the same interval twice, and
    an interval that ends before it starts is turned down with the state
    unchanged. *)
Theorem addLeave_keeps_intervals_distinct (st : State) :
  (forall p, In p (people st) -> List.NoDup (leave p)) ->
  (forall p, In p (people (fst (addLeave st))) -> List.NoDup (leave p))
  /\ map id (people (fst (addLeave st))) = map id (people st)
  /\ schedule (fst (addLeave st)) = schedule st
  /\ (forall selected a b,
        selectedPersonIdForLeave st = Some selected ->
        Date_parse (leaveDate st ++ timeSuffix) = Some a ->
        Date_parse (leaveEndDate st ++ timeSuffix) = Some b ->
        b < a ->
        addLeave st
        = (st, [lit "Leave end date must be on or after the start date."])).
Proof.
  intros Hnd.
  assert (forall x, Date_parse (@nil ascii ++ timeSuffix) <> Some x) as Hnil
    by (intros x; vm_compute; discriminate).
  unfold addLeave.
  destruct (selectedPersonIdForLeave st) as [selected | ] eqn:Es;
    [ | repeat split; auto; intros; discriminate].
  destruct (leaveDate st) as [ | c1 r1] eqn:E1.
  { repeat split; auto. intros s a b _ Ha. exfalso. exact (Hnil a Ha). }
  destruct (leaveEndDate st) as [ | c2 r2] eqn:E2.
  { repeat split; auto. intros s a b _ _ Hb. exfalso. exact (Hnil b Hb). }
  cbv zeta.
  destruct (num_gtb (Date_parse ((c1 :: r1) ++ timeSuffix))
                    (Date_parse ((c2 :: r2) ++ timeSuffix))) eqn:G.
  { repeat split; auto. }
  simpl fst. simpl people. simpl schedule.
  split; [ | split; [ | split; [reflexivity | ] ] ].
  - intros p' Hin. apply in_map_iff in Hin. destruct Hin as [p [<- Hp]].
    destruct (id p =? selected); [ | now apply Hnd].
    destruct (existsb (sameLeave (c1 :: r1) (c2 :: r2)) (leave p)) eqn:Ex;
      [now apply Hnd | ].
    simpl.
    apply List.NoDup_app;
      [now apply Hnd | repeat constructor; simpl; tauto | ].
    intros l Hl [E | []].
    assert (existsb (sameLeave (c1 :: r1) (c2 :: r2)) (leave p) = true)
      as Ht; [ | congruence].
    apply existsb_exists. exists l. split; [exact Hl | ].
    subst l. unfold sameLeave. simpl. apply andb_true_iff.
    split; apply bool_decide_eq_true_2; reflexivity.
  - rewrite map_map. apply map_ext. intros p.
    destruct (id p =? selected); [ | reflexivity].
    destruct (existsb _ (leave p)); reflexivity.
  - intros s a b _ Ha Hb Hlt. rewrite Ha, Hb in G. simpl in G.
    apply Z.ltb_ge in G. lia.
Qed.

Definition leave_form_state : State :=
  {| appTitle := appTitle example_state;
     isEditingTitle := false; tempTitle := tempTitle example_state;
     year := 2025; startDayOfWeek := 2; startMonth := 0;
     people := people example_state; newPersonName := [];
     schedule := []; holidays := []; holidayCounts := ∅;
     leaveDate := lit "2025-03-03"; leaveEndDate := lit "2025-03-07";
     selectedPersonIdForLeave := Some 2;
     showLeaveForm := true; showNotesModal := false;
     currentWeekIndexForNotes := None; currentNotes := [] |}.

Lemma addLeave_keeps_intervals_distinct_witness :
  (forall p, In p (people (fst (addLeave leave_form_state))) ->
     List.NoDup (leave p))
  /\ map id (people (fst (addLeave leave_form_state)))
     = map id (people leave_form_state)
  /\ schedule (fst (addLeave leave_form_state)) = schedule leave_form_state
  /\ (forall selected a b,
        selectedPersonIdForLeave leave_form_state = Some selected ->
        Date_parse (leaveDate leave_form_state ++ timeSuffix) = Some a ->
        Date_parse (leaveEndDate leave_form_state ++ timeSuffix) = Some b ->
        b < a ->
        addLeave leave_form_state
        = (leave_form_state,
           [lit "Leave end date must be on or after the start date."])).
Proof.
  apply (addLeave_keeps_intervals_distinct leave_form_state).
  intros p [<- | [<- | [<- | []]]]; constructor.
Defined.

(** Removing a leave by its index removes that interval and no other from
    the people with the given id; an index outside the list removes
    nothing. *)
Theorem removeLeave_by_index (st : State) (personId leaveIndex : Z) :
  length (people (removeLeave st personId leaveIndex)) = length (people st)
  /\ forall k p,
       people st !! k = Some p ->
       exists p',
         people (removeLeave st personId leaveIndex) !! k = Some p'
         /\ id p' = id p /\ name p' = name p
         /\ (id p <> personId \/ leaveIndex < 0
             \/ Z.of_nat (length (leave p)) <= leaveIndex ->
             leave p' = leave p)
         /\ (id p = personId ->
             0 <= leaveIndex < Z.of_nat (length (leave p)) ->
             S (length (leave p')) = length (leave p)
             /\ forall j,
                  leave p' !! j
                  = if (j <? Z.to_nat leaveIndex)%nat then leave p !! j
                    else leave p !! S j).
Proof.
  unfold removeLeave. simpl people. split; [apply length_map | ].
  intros k p Hk. rewrite lookup_map, Hk. simpl. eexists. split; [reflexivity | ].
  destruct (Z.eqb_spec (id p) personId) as [E | N].
  - destruct (Z.leb_spec 0 leaveIndex) as [L0 | L0];
      destruct (Z.ltb_spec leaveIndex (Z.of_nat (length (leave p))))
        as [L1 | L1]; simpl.
    + split; [reflexivity | split; [reflexivity | split] ].
      * intros [H | [H | H]]; [congruence | lia | lia].
      * intros _ _. unfold splice1. split.
        -- rewrite length_app, length_take, length_drop. lia.
        -- intros j.
           destruct (Nat.ltb_spec j (Z.to_nat leaveIndex)) as [Lj | Lj].
           ++ rewrite lookup_app_l by (rewrite length_take; lia).
              now apply lookup_take_lt.
           ++ rewrite lookup_app_r by (rewrite length_take; lia).
              rewrite length_take, lookup_drop. f_equal. lia.
    + repeat split; auto; lia.
    + repeat split; auto; lia.
    + repeat split; auto; lia.
  - repeat split; auto; congruence.
Qed.

(** Saving the notes stores them trimmed on the selected week only,
    leaves every other week as it is, and closes the notes form; without a
    selected week of the schedule nothing is stored. *)
Theorem saveNotes_stores_trimmed (st : State) :
  showNotesModal (saveNotes st) = false
  /\ currentWeekIndexForNotes (saveNotes st) = None
  /\ currentNotes (saveNotes st) = []
  /\ people (saveNotes st) = people st
  /\ length (schedule (saveNotes st)) = length (schedule st)
  /\ forall i w,
       schedule st !! i = Some w ->
       exists w',
         schedule (saveNotes st) !! i = Some w'
         /\ startDate w' = startDate w /\ endDate w' = endDate w
         /\ assignedTo w' = assignedTo w
         /\ hasHoliday w' = hasHoliday w
         /\ isHolidayPeriod w' = isHolidayPeriod w
         /\ notes w'
            = (if bool_decide (currentWeekIndexForNotes st = Some i)
               then trim (currentNotes st) else notes w)
         /\ (currentWeekIndexForNotes st = Some i -> trim (notes w') = notes w').
Proof.
  unfold saveNotes.
  destruct (currentWeekIndexForNotes st) as [index | ] eqn:Ei.
  - destruct (Nat.ltb_spec index (length (schedule st))) as [L | G];
      simpl; repeat split; auto; try apply length_alter.
    + intros i w Hi. destruct (Nat.eq_dec index i) as [-> | N].
      * rewrite list_lookup_alter_eq, Hi. simpl. eexists.
        split; [reflexivity | ]. simpl.
        rewrite bool_decide_eq_true_2 by reflexivity.
        repeat split; auto. intros _. apply trim_trim.
      * rewrite list_lookup_alter_ne by exact N. exists w.
        rewrite bool_decide_eq_false_2 by congruence.
        repeat split; auto. intros [= E]. congruence.
    + intros i w Hi. exists w.
      assert (index <> i) as N
        by (apply lookup_lt_Some in Hi; lia).
      rewrite bool_decide_eq_false_2 by congruence.
      repeat split; auto. intros [= E]. congruence.
  - simpl. repeat split; auto. intros i w Hi. exists w.
    repeat split; auto. intros E. discriminate E.
Qed.

End HandlerExtras.

(** ** Holiday listing and name resolution *)

Section ListingExtras.

Variable LocalTZA : Z.
Variable st : State.


(** The holidays listed for a week in the export are those that set the
    holiday flag of a generated week: the list is empty exactly when
    [weekContainsHoliday] is false for the week, whatever its dates. *)
Theorem getHolidaysInWeek_agrees_with_flag (startDate endDate : Date) :
  (forall h, In h (getHolidaysInWeek LocalTZA st startDate endDate)
             -> In h (holidays st))
  /\ (weekContainsHoliday LocalTZA startDate endDate (holidays st) = true
      <-> getHolidaysInWeek LocalTZA st startDate endDate <> []).
Proof.
  unfold getHolidaysInWeek, weekContainsHoliday.
  destruct (holidays st) as [ | h0 hs] eqn:Eh.
  { split; [intros h [] | ]. simpl. split; [discriminate | congruence]. }
  cbv zeta.
  set (inWeek := fun holiday : Holiday => _ && _).
  destruct (isNaN (getTime startDate) || isNaN (getTime endDate)) eqn:EN.
  - split; [intros h [] | ].
    split; [ | congruence]. intros Hex. exfalso.
    apply existsb_exists in Hex. destruct Hex as [h [_ Hh]].
    unfold inWeek in Hh. apply andb_true_iff in Hh. destruct Hh as [H1 H2].
    apply orb_true_iff in EN.
    destruct EN as [E | E].
    + destruct startDate as [s | ]; [discriminate E | ].
      unfold Date_geb, num_geb in H1.
      destruct (Date_parse _); discriminate H1.
    + destruct endDate as [e | ]; [discriminate E | ].
      unfold Date_leb, num_leb in H2.
      destruct (Date_parse _); discriminate H2.
  - split.
    + intros h Hin. apply filter_In in Hin. tauto.
    + rewrite existsb_exists. split.
      * intros [h [Hin Hh]] Hnil.
        assert (In h (List.filter inWeek (h0 :: hs))) as Hf
          by (apply filter_In; auto).
        rewrite Hnil in Hf. destruct Hf.
      * intros Hne.
        destruct (List.filter inWeek (h0 :: hs)) as [ | h l] eqn:Ef;
          [congruence | ].
        assert (In h (List.filter inWeek (h0 :: hs))) as Hf
          by (rewrite Ef; now left).
        apply filter_In in Hf. exists h. exact Hf.
Qed.

(** The id of a roster member comes back from the name shown for it, with
    no warning, when no roster member with another id bears the same name
    up to case; the name shown for an id is that of the first roster member
    with the id. *)
Theorem getPersonIdFromName_recovers_id (n : Z) (p : Person) :
  List.find (fun q => id q =? n) (people st) = Some p ->
  (forall q, In q (people st) ->
     toLowerCase (name q) = toLowerCase (name p) -> id q = n) ->
  getPersonName st (PersonId n) = name p
  /\ getPersonIdFromName st (name p) = (PersonId n, []).
Proof.
  intros Hfind Huniq. unfold getPersonName. rewrite Hfind.
  split; [reflexivity | ].
  apply find_some in Hfind. destruct Hfind as [Hp _].
  unfold getPersonIdFromName.
  destruct (List.find (fun q => str_eqb _ _) (people st)) as [q | ] eqn:G.
  - apply find_some in G. destruct G as [Hq E]. apply str_eqb_eq in E.
    f_equal. f_equal. now apply Huniq.
  - exfalso. apply (find_none _ _ G) in Hp. apply str_eqb_neq in Hp.
    now apply Hp.
Qed.

End ListingExtras.

Lemma getPersonIdFromName_recovers_id_witness :
  getPersonName add_person_state (PersonId 9) = lit "Bo"
  /\ getPersonIdFromName add_person_state (lit "Bo") = (PersonId 9, []).
Proof.
  apply (getPersonIdFromName_recovers_id add_person_state 9
           {| id := 9; name := lit "Bo"; leave := [] |}).
  - reflexivity.
  - intros q [<- | [<- | [<- | []]]]; vm_compute; congruence.
Defined.
